(** * quick4lio: the tiered portfolio flow of [app.py]

    A shallow embedding of the portfolio part of [app.py]: the JSON helper
    [parse_json], the record built by the [edit_portfolio] POST handler, the
    plan selection [select_plan], the lazily created [Portfolio] row and the
    view selection of [public_portfolio].

    Python values are modelled as they are at run time:
    - a [str] is a sequence of Unicode code points ([pystr], a list of [Z]);
    - a [dict] is an association list in insertion order, keys unique;
    - the standard library functions [json.loads] and [json.dumps] that
      [app.py] calls are modelled after CPython's [json.decoder],
      [json.scanner] and [json.encoder], with the two limits of the
      interpreter that they meet: the recursion limit, which bounds the
      nesting of lists and dicts, and the limit on the digits of an [int]
      converted from or to text;
    - the database is a pair of tables (lists of rows); a request works on
      the session's copy and [db.session.commit()] either stores the whole
      copy or raises. *)

From Stdlib Require Import ZArith Bool Lia String Ascii List.
Import ListNotations.

Open Scope Z_scope.

(* ================================================================== *)
(** ** Python strings *)

(** A Python [str]: its code points, in order. *)
Definition pystr := list Z.

(** The code point of an ASCII character, [ord(c)]. *)
Definition ord (c : ascii) : Z := Z.of_N (N_of_ascii c).

(** A [str] literal of the source. *)
Definition str (s : string) : pystr := List.map ord (list_ascii_of_string s).

Fixpoint str_eqb (a b : pystr) : bool :=
  match a, b with
  | [], [] => true
  | x :: a', y :: b' => (x =? y) && str_eqb a' b'
  | _, _ => false
  end.

(** [s.startswith(p)], returning what follows the prefix. *)
Fixpoint strip_prefix (p s : pystr) : option pystr :=
  match p with
  | [] => Some s
  | x :: p' =>
      match s with
      | [] => None
      | y :: s' => if x =? y then strip_prefix p' s' else None
      end
  end.

(** [sep.join(chunks)]. *)
Fixpoint join (sep : pystr) (chunks : list pystr) : pystr :=
  match chunks with
  | [] => []
  | [c] => c
  | c :: rest => c ++ sep ++ join sep rest
  end.

(** [s.split(',')] for a one-character separator: the pieces between the
    separators, empty pieces kept; the result is never empty. *)
Fixpoint split (sep : Z) (s : pystr) : list pystr :=
  match s with
  | [] => [[]]
  | c :: r =>
      if c =? sep then [] :: split sep r
      else match split sep r with
           | [] => [[c]]
           | piece :: pieces => (c :: piece) :: pieces
           end
  end.

(** A code point that UTF-8 text can carry: in range and no surrogate.
    Form values reach the application decoded from UTF-8. *)
Definition scalar (c : Z) : Prop :=
  (0 <= c < 55296) \/ (57343 < c < 1114112).

Definition scalarb (c : Z) : bool :=
  ((0 <=? c) && (c <? 55296)) || ((57343 <? c) && (c <? 1114112)).

(* ================================================================== *)
(** ** Python values that JSON can carry *)

(** [PFloat] keeps the literal that denotes the float: no claim depends on
    the arithmetic of floats. *)
#[warnings="-register-all"] Inductive pyval : Type :=
  | PNone
  | PBool (b : bool)
  | PInt (n : Z)
  | PFloat (literal : pystr)
  | PStr (s : pystr)
  | PList (items : list pyval)
  | PDict (pairs : list (pystr * pyval)).

(** The empty dict [{}]. *)
Definition empty_dict : pyval := PDict [].

(** [d[k] = v] on the pairs of a dict: the value of an existing key is
    replaced in place, a new key goes to the end. *)
Fixpoint dict_set (d : list (pystr * pyval)) (k : pystr) (v : pyval)
  : list (pystr * pyval) :=
  match d with
  | [] => [(k, v)]
  | (k', v') :: d' =>
      if str_eqb k' k then (k', v) :: d' else (k', v') :: dict_set d' k v
  end.

(** [dict(pairs)]. *)
Definition dict_of_pairs (pairs : list (pystr * pyval)) : list (pystr * pyval) :=
  fold_left (fun d kv => dict_set d (fst kv) (snd kv)) pairs [].

(** [d.keys()], in order. *)
Definition keys (v : pyval) : list pystr :=
  match v with
  | PDict d => List.map fst d
  | _ => []
  end.

(** [d.get(k)]. *)
Fixpoint dict_get (d : list (pystr * pyval)) (k : pystr) : option pyval :=
  match d with
  | [] => None
  | (k', v) :: d' => if str_eqb k' k then Some v else dict_get d' k
  end.

(* ================================================================== *)
(** ** Outcomes of running Python code *)

(** The exceptions of the flow. [JSONDecodeError] is a subclass of
    [ValueError]; [ValueError] stands here for one that is no
    [JSONDecodeError], which [except json.JSONDecodeError] does not catch. *)
Inductive exn : Type :=
  | JSONDecodeError
  | TypeError
  | StopIteration
  | AttributeError
  | SQLAlchemyError
  | RecursionError
  | ValueError.

(** A computation returns, raises, or ([Starved]) a loop of the embedding
    was given too few iterations; the lemmas on the scanner show that the
    last never surfaces. *)
Inductive outcome (A : Type) : Type :=
  | Ret (a : A)
  | Raise (e : exn)
  | Starved.
Arguments Ret {A} a.
Arguments Raise {A} e.
Arguments Starved {A}.

Definition obind {A B} (m : outcome A) (k : A -> outcome B) : outcome B :=
  match m with
  | Ret a => k a
  | Raise e => Raise e
  | Starved => Starved
  end.

(* ================================================================== *)
(** ** The limits of the interpreter *)

(** [sys.getrecursionlimit()], at its default. The encoder and the decoder
    of [json] enter one call for every list or dict they meet inside
    another ([Py_EnterRecursiveCall]), so the limit bounds the nesting they
    accept. The calls already on the stack when they are entered count
    against the limit as well: the nesting accepted in a request is lower
    than this bound, never higher. The functions below take the depth left
    as an argument, and the lemmas about them hold for every depth. *)
Definition recursion_limit : nat := 1000.

(** [sys.get_int_max_str_digits()], at its default: [int(text)] and
    [repr(n)] raise [ValueError] beyond that many digits. *)
Definition max_str_digits : nat := 4300.

(* ================================================================== *)
(** ** [json.dumps] with the default encoder *)

Module Encoder.

(** One digit of ['{0:04x}'.format(n)]. *)
Definition hexdigit (d : Z) : Z := if d <? 10 then 48 + d else 87 + d.

(** ['{0:04x}'.format(n)] for [0 <= n < 0x10000]. *)
Definition hex4 (n : Z) : pystr :=
  [ hexdigit (Z.land (Z.shiftr n 12) 15);
    hexdigit (Z.land (Z.shiftr n 8) 15);
    hexdigit (Z.land (Z.shiftr n 4) 15);
    hexdigit (Z.land n 15) ].

(** The replacement of one character by [py_encode_basestring_ascii]:
    [ESCAPE_ASCII] matches a backslash, a double quote and everything
    outside [' '..'~']; [ESCAPE_DCT] has the short escapes, every other
    match is written as [\uXXXX], above the BMP as a surrogate pair. *)
Definition escape (c : Z) : pystr :=
  if c =? 92 then [92; 92]                      (* backslash, backslash *)
  else if c =? 34 then [92; 34]                 (* backslash, quote *)
  else if (32 <=? c) && (c <=? 126) then [c]
  else if c =? 8 then [92; 98]                  (* backslash, b *)
  else if c =? 12 then [92; 102]                (* backslash, f *)
  else if c =? 10 then [92; 110]                (* backslash, n *)
  else if c =? 13 then [92; 114]                (* backslash, r *)
  else if c =? 9 then [92; 116]                 (* backslash, t *)
  else if c <? 65536 then [92; 117] ++ hex4 c   (* backslash, u, XXXX *)
  else
    let n := c - 65536 in
    let s1 := Z.lor 55296 (Z.land (Z.shiftr n 10) 1023) in
    let s2 := Z.lor 56320 (Z.land n 1023) in
    [92; 117] ++ hex4 s1 ++ [92; 117] ++ hex4 s2.

Definition encode_basestring_ascii (s : pystr) : pystr :=
  [34] ++ flat_map escape s ++ [34].

Fixpoint digits_of_uint (u : Decimal.uint) : pystr :=
  match u with
  | Decimal.Nil => []
  | Decimal.D0 u' => 48 :: digits_of_uint u'
  | Decimal.D1 u' => 49 :: digits_of_uint u'
  | Decimal.D2 u' => 50 :: digits_of_uint u'
  | Decimal.D3 u' => 51 :: digits_of_uint u'
  | Decimal.D4 u' => 52 :: digits_of_uint u'
  | Decimal.D5 u' => 53 :: digits_of_uint u'
  | Decimal.D6 u' => 54 :: digits_of_uint u'
  | Decimal.D7 u' => 55 :: digits_of_uint u'
  | Decimal.D8 u' => 56 :: digits_of_uint u'
  | Decimal.D9 u' => 57 :: digits_of_uint u'
  end.

(** The decimal numeral of an integer. *)
Definition decimal (n : Z) : pystr :=
  match Z.to_int n with
  | Decimal.Pos u => digits_of_uint u
  | Decimal.Neg u => 45 :: digits_of_uint u
  end.

(** [int.__repr__]: the decimal numeral, and a [ValueError] when it has more
    than [max_str_digits] digits, the sign not counted. *)
Definition int_repr (n : Z) : outcome pystr :=
  match Z.to_int n with
  | Decimal.Pos u =>
      if (max_str_digits <? length (digits_of_uint u))%nat then Raise ValueError
      else Ret (digits_of_uint u)
  | Decimal.Neg u =>
      if (max_str_digits <? length (digits_of_uint u))%nat then Raise ValueError
      else Ret (45 :: digits_of_uint u)
  end.

(** The chunks of the items of a list or of the members of a dict, in
    order; the first that raises ends the encoding. *)
Fixpoint encode_each {A : Type} (encode : A -> outcome pystr) (items : list A)
  : outcome (list pystr) :=
  match items with
  | [] => Ret []
  | x :: rest =>
      obind (encode x) (fun chunk =>
      obind (encode_each encode rest) (fun chunks => Ret (chunk :: chunks)))
  end.

(** The encoder made by [c_make_encoder] ([_make_iterencode] alike), its
    chunks joined: separators [', '] and [': '], [ensure_ascii=True].
    [depth] is the number of nested calls the interpreter still allows; a
    list or a dict takes one, and raises [RecursionError] when none is
    left. *)
Fixpoint iterencode (depth : nat) (v : pyval) : outcome pystr :=
  match v with
  | PNone => Ret (str "null")
  | PBool true => Ret (str "true")
  | PBool false => Ret (str "false")
  | PInt n => int_repr n
  | PFloat literal => Ret literal
  | PStr s => Ret (encode_basestring_ascii s)
  | PList items =>
      match depth with
      | O => Raise RecursionError
      | S depth' =>
          obind (encode_each (iterencode depth') items) (fun chunks =>
          Ret (str "[" ++ join (str ", ") chunks ++ str "]"))
      end
  | PDict pairs =>
      match depth with
      | O => Raise RecursionError
      | S depth' =>
          obind (encode_each
                   (fun kv => let '(k, x) := kv in
                      obind (iterencode depth' x) (fun chunk =>
                      Ret (encode_basestring_ascii k ++ str ": " ++ chunk)))
                   pairs) (fun chunks =>
          Ret (str "{" ++ join (str ", ") chunks ++ str "}"))
      end
  end.

(** [json.dumps(v)]. *)
Definition dumps (v : pyval) : outcome pystr := iterencode recursion_limit v.

End Encoder.

(** The text of a value in the format of the encoder. It is what
    [json.dumps] returns whenever it returns (lemma [iterencode_text]). *)
Fixpoint json_text (v : pyval) : pystr :=
  match v with
  | PNone => str "null"
  | PBool true => str "true"
  | PBool false => str "false"
  | PInt n => Encoder.decimal n
  | PFloat literal => literal
  | PStr s => Encoder.encode_basestring_ascii s
  | PList items => str "[" ++ join (str ", ") (List.map json_text items) ++ str "]"
  | PDict pairs =>
      str "{"
      ++ join (str ", ")
           (List.map (fun kv => let '(k, x) := kv in
                        Encoder.encode_basestring_ascii k ++ str ": "
                        ++ json_text x)
              pairs)
      ++ str "}"
  end.

(* ================================================================== *)
(** ** [json.loads] with the default decoder *)

Module Decoder.

(** A position [end] in the text [s] of the Python code is the suffix
    [s[end:]] here; a scanner returns the value and the suffix left. *)
Definition scanned : Type := outcome (pyval * pystr).

(** The characters of [WHITESPACE]: space, tab, line feed, carriage
    return. *)
Definition is_ws (c : Z) : bool :=
  (c =? 32) || (c =? 9) || (c =? 10) || (c =? 13).

Fixpoint skip_ws (s : pystr) : pystr :=
  match s with
  | c :: r => if is_ws c then skip_ws r else s
  | [] => []
  end.

Definition is_digit (c : Z) : bool := (48 <=? c) && (c <=? 57).

(** The value of one hexadecimal digit, either case. *)
Definition hexval (c : Z) : option Z :=
  if (48 <=? c) && (c <=? 57) then Some (c - 48)
  else if (97 <=? c) && (c <=? 102) then Some (c - 87)
  else if (65 <=? c) && (c <=? 70) then Some (c - 55)
  else None.

(** [_decode_uXXXX]: four hexadecimal digits, [int(esc, 16)]. *)
Definition decode_uXXXX (h1 h2 h3 h4 : Z) : option Z :=
  match hexval h1, hexval h2, hexval h3, hexval h4 with
  | Some a, Some b, Some c, Some d => Some (((a * 16 + b) * 16 + c) * 16 + d)
  | _, _, _, _ => None
  end.

(** The table [BACKSLASH]. *)
Definition BACKSLASH (esc : Z) : option Z :=
  if esc =? 34 then Some 34
  else if esc =? 92 then Some 92
  else if esc =? 47 then Some 47
  else if esc =? 98 then Some 8
  else if esc =? 102 then Some 12
  else if esc =? 110 then Some 10
  else if esc =? 114 then Some 13
  else if esc =? 116 then Some 9
  else None.

Definition push (c : Z) (r : outcome (pystr * pystr)) : outcome (pystr * pystr) :=
  obind r (fun '(cs, rest) => Ret (c :: cs, rest)).

(** [py_scanstring(s, end, strict=True)], entered after the opening quote:
    the characters up to the closing quote, escapes decoded; a control
    character, a bad escape or the end of the text raise. *)
Fixpoint scanstring (s : pystr) : outcome (pystr * pystr) :=
  match s with
  | [] => Raise JSONDecodeError
  | c :: r =>
      if c =? 34 then Ret ([], r)
      else if c =? 92 then
        match r with
        | [] => Raise JSONDecodeError
        | esc :: r1 =>
            if esc =? 117 then
              match r1 with
              | h1 :: h2 :: h3 :: h4 :: r2 =>
                  match decode_uXXXX h1 h2 h3 h4 with
                  | None => Raise JSONDecodeError
                  | Some uni =>
                      if (55296 <=? uni) && (uni <=? 56319) then
                        match r2 with
                        | b :: u :: r3 =>
                            if (b =? 92) && (u =? 117) then
                              match r3 with
                              | k1 :: k2 :: k3 :: k4 :: r4 =>
                                  match decode_uXXXX k1 k2 k3 k4 with
                                  | None => Raise JSONDecodeError
                                  | Some uni2 =>
                                      if (56320 <=? uni2) && (uni2 <=? 57343) then
                                        push (65536 + Z.lor (Z.shiftl (uni - 55296) 10)
                                                        (uni2 - 56320))
                                             (scanstring r4)
                                      else push uni (scanstring r2)
                                  end
                              | _ => Raise JSONDecodeError
                              end
                            else push uni (scanstring r2)
                        | _ => push uni (scanstring r2)
                        end
                      else push uni (scanstring r2)
                  end
              | _ => Raise JSONDecodeError
              end
            else
              match BACKSLASH esc with
              | None => Raise JSONDecodeError
              | Some char => push char (scanstring r1)
              end
        end
      else if (0 <=? c) && (c <=? 31) then Raise JSONDecodeError
      else push c (scanstring r)
  end.

(** The longest prefix of decimal digits. *)
Fixpoint digits (s : pystr) : pystr * pystr :=
  match s with
  | c :: r => if is_digit c then let '(ds, rest) := digits r in (c :: ds, rest)
              else ([], s)
  | [] => ([], [])
  end.

(** [int(text)] of a sequence of decimal digits. *)
Definition int_of_digits (ds : pystr) : Z :=
  fold_left (fun acc c => acc * 10 + (c - 48)) ds 0.

(** A single zero, or a non-zero digit followed by any digits. *)
Definition match_natural (s : pystr) : option (pystr * pystr) :=
  match s with
  | c :: r =>
      if c =? 48 then Some ([48], r)
      else if is_digit c then let '(ds, rest) := digits r in Some (c :: ds, rest)
      else None
  | [] => None
  end.

(** The first group of [NUMBER_RE]: an optional minus sign and a natural.
    Returns the sign, the digits matched and the rest. *)
Definition match_integer (s : pystr) : option (bool * pystr * pystr) :=
  match s with
  | c :: r =>
      if c =? 45 then
        match match_natural r with
        | Some (ds, rest) => Some (true, ds, rest)
        | None => None
        end
      else
        match match_natural s with
        | Some (ds, rest) => Some (false, ds, rest)
        | None => None
        end
  | [] => None
  end.

(** The second group of [NUMBER_RE]: optionally, a dot and one or more
    digits. *)
Definition match_frac (s : pystr) : pystr * pystr :=
  match s with
  | c :: r =>
      if c =? 46 then
        match digits r with
        | ([], _) => ([], s)
        | (ds, rest) => (c :: ds, rest)
        end
      else ([], s)
  | [] => ([], s)
  end.

(** The third group of [NUMBER_RE]: optionally, [e] or [E], an optional
    sign and one or more digits. *)
Definition match_exp (s : pystr) : pystr * pystr :=
  match s with
  | c :: r =>
      if (c =? 101) || (c =? 69) then
        let '(sign, r1) := match r with
                           | g :: r' => if (g =? 45) || (g =? 43) then ([g], r')
                                        else ([], r)
                           | [] => ([], r)
                           end in
        match digits r1 with
        | ([], _) => ([], s)
        | (ds, rest) => (c :: sign ++ ds, rest)
        end
      else ([], s)
  | [] => ([], s)
  end.

(** [parse_int], which is [int]: the integer of a sign and decimal digits,
    and a [ValueError] when the digits are more than [max_str_digits]. *)
Definition parse_int (neg : bool) (integer : pystr) : outcome pyval :=
  if (max_str_digits <? length integer)%nat then Raise ValueError
  else
    let n := int_of_digits integer in
    Ret (PInt (if neg then - n else n)).

(** [match_number] followed by [parse_int] or [parse_float]; [None] when no
    number starts the text. *)
Definition scan_number (s : pystr) : option scanned :=
  match match_integer s with
  | None => None
  | Some (neg, integer, s1) =>
      let '(frac, s2) := match_frac s1 in
      let '(exp, s3) := match_exp s2 in
      match frac, exp with
      | [], [] => Some (obind (parse_int neg integer) (fun n => Ret (n, s3)))
      | _, _ =>
          Some (Ret (PFloat ((if neg then [45] else []) ++ integer ++ frac ++ exp),
                     s3))
      end
  end.

Section Containers.

(** [JSONArray] and [JSONObject] receive the scanner of values. *)
Variable scan_once : pystr -> scanned.

(** The [while True] loop of [JSONArray]. The loop counter [n] bounds the
    iterations; [JSONArray] starts it above the length of the text. *)
Fixpoint array_loop (n : nat) (s : pystr) (values : list pyval) : scanned :=
  match n with
  | O => Starved
  | S n' =>
      match scan_once s with
      | Raise StopIteration => Raise JSONDecodeError
      | Raise e => Raise e
      | Starved => Starved
      | Ret (value, s1) =>
          let values := values ++ [value] in
          match skip_ws s1 with
          | [] => Raise JSONDecodeError
          | nextchar :: s2 =>
              if nextchar =? 93 then Ret (PList values, s2)
              else if nextchar =? 44 then array_loop n' (skip_ws s2) values
              else Raise JSONDecodeError
          end
      end
  end.

(** [JSONArray((s, end), scan_once)], entered after the bracket. *)
Definition JSONArray (s : pystr) : scanned :=
  match skip_ws s with
  | [] => array_loop (S (length s)) [] []
  | nextchar :: s1 =>
      if nextchar =? 93 then Ret (PList [], s1)
      else array_loop (S (length s)) (skip_ws s) []
  end.

(** The [while True] loop of [JSONObject], entered after the opening
    quote of a key. *)
Fixpoint object_loop (n : nat) (s : pystr) (pairs : list (pystr * pyval))
  : scanned :=
  match n with
  | O => Starved
  | S n' =>
      match scanstring s with
      | Raise e => Raise e
      | Starved => Starved
      | Ret (key, s1) =>
          match skip_ws s1 with
          | [] => Raise JSONDecodeError
          | colon :: s2 =>
              if colon =? 58 then
                match scan_once (skip_ws s2) with
                | Raise StopIteration => Raise JSONDecodeError
                | Raise e => Raise e
                | Starved => Starved
                | Ret (value, s3) =>
                    let pairs := pairs ++ [(key, value)] in
                    match skip_ws s3 with
                    | [] => Raise JSONDecodeError
                    | nextchar :: s4 =>
                        if nextchar =? 125 then
                          Ret (PDict (dict_of_pairs pairs), s4)
                        else if nextchar =? 44 then
                          match skip_ws s4 with
                          | [] => Raise JSONDecodeError
                          | quote :: s5 =>
                              if quote =? 34 then object_loop n' s5 pairs
                              else Raise JSONDecodeError
                          end
                        else Raise JSONDecodeError
                    end
                end
              else Raise JSONDecodeError
          end
      end
  end.

(** [JSONObject((s, end), strict, scan_once, None, None, memo)], entered
    after the brace. *)
Definition JSONObject (s : pystr) : scanned :=
  match skip_ws s with
  | [] => Raise JSONDecodeError
  | nextchar :: s1 =>
      if nextchar =? 34 then object_loop (S (length s)) s1 []
      else if nextchar =? 125 then Ret (PDict [], s1)
      else Raise JSONDecodeError
  end.

End Containers.

Definition literal (word : string) (value : pyval) (s : pystr)
    (otherwise : scanned) : scanned :=
  match strip_prefix (str word) s with
  | Some rest => Ret (value, rest)
  | None => otherwise
  end.

(** [scan_once] of the scanner ([c_make_scanner], and [py_make_scanner]
    alike). [depth] is the number of nested calls the interpreter still
    allows; an object or an array takes one, and raises [RecursionError]
    when none is left. *)
Fixpoint scan_once (depth : nat) (s : pystr) : scanned :=
  match s with
  | [] => Raise StopIteration
  | nextchar :: r =>
      if nextchar =? 34 then
        obind (scanstring r) (fun '(chars, rest) => Ret (PStr chars, rest))
      else if nextchar =? 123 then
        match depth with
        | O => Raise RecursionError
        | S depth' => JSONObject (scan_once depth') r
        end
      else if nextchar =? 91 then
        match depth with
        | O => Raise RecursionError
        | S depth' => JSONArray (scan_once depth') r
        end
      else
        literal "null" PNone s (
        literal "true" (PBool true) s (
        literal "false" (PBool false) s (
        match scan_number s with
        | Some res => res
        | None =>
            literal "NaN" (PFloat (str "NaN")) s (
            literal "Infinity" (PFloat (str "Infinity")) s (
            literal "-Infinity" (PFloat (str "-Infinity")) s (
            Raise StopIteration)))
        end)))
  end.

(** [JSONDecoder.decode]: one value between optional whitespace; a
    [StopIteration] of the scanner and trailing text are decode errors. *)
Definition decode (s : pystr) : outcome pyval :=
  match scan_once recursion_limit (skip_ws s) with
  | Raise StopIteration => Raise JSONDecodeError
  | Raise e => Raise e
  | Starved => Starved
  | Ret (obj, rest) =>
      match skip_ws rest with
      | [] => Ret obj
      | _ :: _ => Raise JSONDecodeError
      end
  end.

(** [json.loads(s)] for [s] a [str] or [None]: [None] is no [str], [bytes]
    or [bytearray] (a [TypeError]); a leading byte order mark is a decode
    error. Besides the two, a [RecursionError] or a [ValueError] of the
    scanner leaves it. *)
Definition loads (data : option pystr) : outcome pyval :=
  match data with
  | None => Raise TypeError
  | Some s =>
      match s with
      | c :: _ => if c =? 65279 then Raise JSONDecodeError else decode s
      | [] => decode s
      end
  end.

End Decoder.

(* ================================================================== *)
(** ** The database models and the session *)

Module User.
(** The columns of [class User]; the tier column is always written by the
    application (its default or [select_plan]). *)
Record t : Type := mk {
  id : Z;
  username : pystr;
  email : pystr;
  password_hash : option pystr;
  subscription_type : pystr;
  profile_photo : pystr;
  bio : pystr;
  social_links : option pystr
}.

Definition set_subscription_type (plan_type : pystr) (u : t) : t :=
  mk (id u) (username u) (email u) (password_hash u) plan_type
     (profile_photo u) (bio u) (social_links u).
End User.

Module Portfolio.
(** The columns of [class Portfolio]; [sections_data] is a nullable text. *)
Record t : Type := mk {
  id : Z;
  user_id : Z;
  portfolio_type : pystr;
  sections_data : option pystr
}.

Definition set_portfolio_type (tier : pystr) (p : t) : t :=
  mk (id p) (user_id p) tier (sections_data p).

Definition set_sections_data (text : option pystr) (p : t) : t :=
  mk (id p) (user_id p) (portfolio_type p) text.
End Portfolio.

(** The two tables of the flow, rows in insertion order. *)
Record Db : Type := mkDb {
  users : list User.t;
  portfolios : list Portfolio.t
}.

(** The state of one request: the database as stored, the session's view of
    it with the changes not yet committed, the number of commits attempted
    and the messages flashed. *)
Record Request : Type := mkRequest {
  stored : Db;
  session : Db;
  commits : nat;
  flashed : list (pystr * string)
}.

Definition begin_request (db : Db) : Request := mkRequest db db 0 [].

(** A view runs in the request state and returns, or raises. *)
Definition M (A : Type) : Type := Request -> Request * outcome A.

Definition ret {A} (a : A) : M A := fun r => (r, Ret a).

Definition raise {A} (e : exn) : M A := fun r => (r, Raise e).

Definition bind {A B} (m : M A) (k : A -> M B) : M B :=
  fun r =>
    match m r with
    | (r', Ret a) => k a r'
    | (r', Raise e) => (r', Raise e)
    | (r', Starved) => (r', Starved)
    end.

Declare Scope view_scope.
Delimit Scope view_scope with view.
Notation "x <- m ;; k" := (bind m (fun x => k))
  (at level 61, m at next level, right associativity) : view_scope.
Notation "m ;; k" := (bind m (fun _ => k))
  (at level 61, right associativity) : view_scope.
Open Scope view_scope.

Definition lift {A} (o : outcome A) : M A := fun r => (r, o).

Definition flash (message : pystr) (category : string) : M unit :=
  fun r => (mkRequest (stored r) (session r) (commits r)
              (flashed r ++ [(message, category)]), Ret tt).

(** Reads and writes of the session's objects. A model object is referred
    to by its primary key; an attribute assignment changes the row of that
    key in the session. *)
Definition query {A} (f : Db -> A) : M A := fun r => (r, Ret (f (session r))).

Definition update (f : Db -> Db) : M unit :=
  fun r => (mkRequest (stored r) (f (session r)) (commits r) (flashed r), Ret tt).

Definition user_by_id (uid : Z) (db : Db) : option User.t :=
  find (fun u => User.id u =? uid) (users db).

Definition user_by_username (name : pystr) (db : Db) : option User.t :=
  find (fun u => str_eqb (User.username u) name) (users db).

(** [user.portfolio]: the relationship with [uselist=False]. *)
Definition portfolio_of (uid : Z) (db : Db) : option Portfolio.t :=
  find (fun p => Portfolio.user_id p =? uid) (portfolios db).

Definition on_user (uid : Z) (f : User.t -> User.t) (db : Db) : Db :=
  mkDb (map (fun u => if User.id u =? uid then f u else u) (users db))
       (portfolios db).

Definition on_portfolio (pid : Z) (f : Portfolio.t -> Portfolio.t) (db : Db) : Db :=
  mkDb (users db)
       (map (fun p => if Portfolio.id p =? pid then f p else p) (portfolios db)).

(** The integer primary key given to a new row: one above the largest. *)
Definition next_id (ids : list Z) : Z := 1 + fold_right Z.max 0 ids.

(** [Portfolio(user_id=..., portfolio_type=..., sections_data='{}')], with
    the key the flush will give it. *)
Definition new_portfolio (uid : Z) (tier : pystr) (db : Db) : Portfolio.t :=
  Portfolio.mk (next_id (map Portfolio.id (portfolios db))) uid tier
    (Some (str "{}")).

Definition insert_portfolio (row : Portfolio.t) (db : Db) : Db :=
  mkDb (users db) (portfolios db ++ [row]).

(** [user_portfolio = Portfolio(...); db.session.add(user_portfolio)]: the
    row is pending in the session. *)
Definition add_portfolio (uid : Z) (tier : pystr) : M Portfolio.t :=
  fun r =>
    let row := new_portfolio uid tier (session r) in
    (mkRequest (stored r) (insert_portfolio row (session r))
       (commits r) (flashed r), Ret row).

(* ================================================================== *)
(** ** The views of [app.py] *)

(** [request.form]: the submitted fields in order; [get] takes the first
    value of a name. *)
Definition Form : Type := list (pystr * pystr).

Fixpoint form_get (form : Form) (name : pystr) : option pystr :=
  match form with
  | [] => None
  | (k, v) :: rest => if str_eqb k name then Some v else form_get rest name
  end.

(** [request.form.get(name)] as a Python value: the string or [None]. *)
Definition field (form : Form) (name : string) : pyval :=
  match form_get form (str name) with
  | Some v => PStr v
  | None => PNone
  end.

(** [x in ['Free', 'Paid', 'Premium']] and the like. *)
Definition str_in (x : pystr) (l : list string) : bool :=
  existsb (fun t => str_eqb x (str t)) l.

(** [parse_json(data)]: the two exceptions of the [except] clause give
    [{}]; any other exception of [json.loads] leaves the function. *)
Definition parse_json (data : option pystr) : outcome pyval :=
  match Decoder.loads data with
  | Raise JSONDecodeError => Ret empty_dict
  | Raise TypeError => Ret empty_dict
  | other => other
  end.

(** The dict [data] that the POST branch of [edit_portfolio] assembles. *)
Definition sections (form : Form) (portfolio_type : pystr) : pyval :=
  let data :=
    [ (str "header", PDict [ (str "name", field form "name");
                             (str "title", field form "title") ]);
      (str "about", PDict [ (str "bio", field form "bio") ]);
      (str "projects",
         PList [ PDict [ (str "name", field form "project_name_1");
                         (str "desc", field form "project_desc_1");
                         (str "image", field form "project_img_1") ] ]);
      (str "skills",
         match form_get form (str "skills") with
         | Some (c :: r) => PList (map PStr (split 44 (c :: r)))
         | _ => PList []
         end);
      (str "contact", PDict [ (str "email", field form "contact_email");
                              (str "phone", field form "contact_phone") ]) ] in
  let data :=
    if str_in portfolio_type ["Paid"; "Premium"]%string then
      dict_set data (str "paid_pages")
        (PDict [ (str "home_content", field form "home_content") ])
    else data in
  let data :=
    if str_eqb portfolio_type (str "Premium") then
      dict_set data (str "premium_pages")
        (PDict [ (str "case_studies", field form "case_studies");
                 (str "testimonials", field form "testimonials");
                 (str "resume_link", field form "resume_link");
                 (str "awards", field form "awards") ])
    else data in
  PDict data.

(** [request.form.get('portfolio_type', 'Free')]: the tier a submitted form
    is saved under. *)
Definition submitted_tier (form : Form) : pystr :=
  match form_get form (str "portfolio_type") with
  | Some t => t
  | None => str "Free"
  end.

Inductive http_method : Type := GET | POST.

(** What a template is rendered with. *)
Inductive arg : Type :=
  | AUser (u : User.t)
  | APortfolio (p : option Portfolio.t)
  | AValue (v : pyval).

Inductive response : Type :=
  | render_template (template : string) (context : list (string * arg))
  | redirect (endpoint : string) (username : option pystr)
  | abort (status : Z).

Section Views.

(** Whether the store accepts the n-th commit of the request. *)
Variable store_accepts : nat -> bool.

(** [db.session.commit()]: the session's changes are stored all at once,
    or the commit raises and the store stays as it was. *)
Definition commit : M unit :=
  fun r =>
    if store_accepts (commits r) then
      (mkRequest (session r) (session r) (S (commits r)) (flashed r), Ret tt)
    else
      (mkRequest (stored r) (session r) (S (commits r)) (flashed r),
       Raise SQLAlchemyError).

(** [@login_required] over [load_user]: the view runs for the user of the
    login session; without one the login manager redirects to [login]. *)
Definition login_required (view : User.t -> M response) (user_id : option Z)
  : M response :=
  match user_id with
  | None => ret (redirect "login" None)
  | Some uid =>
      current_user <- query (user_by_id uid) ;;
      match current_user with
      | None => ret (redirect "login" None)
      | Some u => view u
      end
  end.

(** [select_plan(plan_type)]. *)
Definition select_plan (plan_type : pystr) : option Z -> M response :=
  login_required (fun current_user =>
    if negb (str_in plan_type ["Free"; "Paid"; "Premium"]%string) then
      flash (str "Invalid plan selected.") "danger" ;;
      ret (redirect "plan_details" None)
    else
      update (on_user (User.id current_user)
                (User.set_subscription_type plan_type)) ;;
      portfolio <- query (portfolio_of (User.id current_user)) ;;
      match portfolio with
      | Some p => update (on_portfolio (Portfolio.id p)
                            (Portfolio.set_portfolio_type plan_type))
      | None => ret tt
      end ;;
      commit ;;
      flash (str "Your plan has been successfully updated to " ++ plan_type
             ++ str "!") "success" ;;
      ret (redirect "dashboard" None)).

(** The three statements under [if not user_portfolio:], which both
    branches of [edit_portfolio] have: the row is created with the given
    tier and committed at once. Returns the user's row. *)
Definition get_or_create (current_user : User.t) (tier : pystr)
  : M Portfolio.t :=
  user_portfolio <- query (portfolio_of (User.id current_user)) ;;
  match user_portfolio with
  | Some p => ret p
  | None =>
      p <- add_portfolio (User.id current_user) tier ;;
      commit ;;
      ret p
  end.

(** [sections_data.get(key, {})] on what [parse_json] returned. *)
Definition get_section (sections_data : pyval) (key : string) : M pyval :=
  match sections_data with
  | PDict d =>
      match dict_get d (str key) with
      | Some v => ret v
      | None => ret empty_dict
      end
  | _ => raise AttributeError
  end.

(** [edit_portfolio()], both methods. *)
Definition edit_portfolio (method : http_method) (form : Form)
  : option Z -> M response :=
  login_required (fun current_user =>
    match method with
    | POST =>
        let portfolio_type := submitted_tier form in
        user_portfolio <- get_or_create current_user portfolio_type ;;
        update (on_portfolio (Portfolio.id user_portfolio)
                  (Portfolio.set_portfolio_type portfolio_type)) ;;
        let data := sections form portfolio_type in
        text <- lift (Encoder.dumps data) ;;
        update (on_portfolio (Portfolio.id user_portfolio)
                  (Portfolio.set_sections_data (Some text))) ;;
        commit ;;
        flash (str "Portfolio updated successfully!") "success" ;;
        ret (redirect "public_portfolio" (Some (User.username current_user)))
    | GET =>
        let plan := User.subscription_type current_user in
        user_portfolio <- get_or_create current_user plan ;;
        sections_data <-
          lift (parse_json (Portfolio.sections_data user_portfolio)) ;;
        if str_eqb plan (str "Free") then
          ret (render_template "edit_free_portfolio.html"
                 [ ("sections_data", AValue sections_data);
                   ("portfolio", APortfolio (Some user_portfolio)) ]%string)
        else if str_eqb plan (str "Paid") then
          paid_pages <- get_section sections_data "paid_pages" ;;
          ret (render_template "edit_paid_portfolio.html"
                 [ ("sections_data", AValue sections_data);
                   ("portfolio", APortfolio (Some user_portfolio));
                   ("paid_pages", AValue paid_pages) ]%string)
        else if str_eqb plan (str "Premium") then
          paid_pages <- get_section sections_data "paid_pages" ;;
          premium_pages <- get_section sections_data "premium_pages" ;;
          ret (render_template "edit_premium_portfolio.html"
                 [ ("sections_data", AValue sections_data);
                   ("portfolio", APortfolio (Some user_portfolio));
                   ("paid_pages", AValue paid_pages);
                   ("premium_pages", AValue premium_pages) ]%string)
        else
          flash (str "Please select a plan first.") "warning" ;;
          ret (redirect "plan_details" None)
    end).

(** [public_portfolio(username)]. *)
Definition public_portfolio (username : pystr) : M response :=
  found <- query (user_by_username username) ;;
  match found with
  | None => ret (abort 404)
  | Some user =>
      portfolio <- query (portfolio_of (User.id user)) ;;
      match portfolio with
      | None =>
          ret (render_template "public_portfolio.html"
                 [ ("user", AUser user); ("portfolio", APortfolio None) ]%string)
      | Some p =>
          sections_data <- lift (parse_json (Portfolio.sections_data p)) ;;
          let context :=
            [ ("user", AUser user); ("portfolio", APortfolio (Some p));
              ("sections_data", AValue sections_data) ]%string in
          if str_eqb (Portfolio.portfolio_type p) (str "Free") then
            ret (render_template "free_portfolio.html" context)
          else if str_eqb (Portfolio.portfolio_type p) (str "Paid") then
            ret (render_template "paid_portfolio.html" context)
          else if str_eqb (Portfolio.portfolio_type p) (str "Premium") then
            ret (render_template "premium_portfolio.html" context)
          else
            ret (render_template "public_portfolio.html"
                   [ ("user", AUser user); ("portfolio", APortfolio None) ]%string)
      end
  end.

End Views.

(** A request served on the database [db]: the response, or the exception
    that left the view, and the database as stored afterwards. *)
Definition serve (view : M response) (db : Db) : outcome response * Db :=
  let '(r, out) := view (begin_request db) in (out, stored r).

(** The two assignments of a save, [user_portfolio.portfolio_type = ...] and
    [user_portfolio.sections_data = json.dumps(data)], on the row [pid];
    [json.dumps] returns the text of the record (lemma [dumps_sections]). *)
Definition saved (form : Form) (pid : Z) (db : Db) : Db :=
  on_portfolio pid
    (Portfolio.set_sections_data
       (Some (json_text (sections form (submitted_tier form)))))
    (on_portfolio pid (Portfolio.set_portfolio_type (submitted_tier form)) db).

(* ================================================================== *)
(** ** Vocabulary of the specification *)

(** The allow-list of tiers. *)
Definition tiers : list pystr := map str ["Free"; "Paid"; "Premium"]%string.

(** The sections every tier has. *)
Definition base_keys : list pystr :=
  map str ["header"; "about"; "projects"; "skills"; "contact"]%string.

(** [record[key]], if the record is a dict with that key. *)
Definition section_of (record : pyval) (key : string) : option pyval :=
  match record with
  | PDict d => dict_get d (str key)
  | _ => None
  end.

(** The parser as the specification words it: anything that does not decode
    to an object, wrong shape included, gives the empty record. *)
Definition spec_parse (data : option pystr) : pyval :=
  match Decoder.loads data with
  | Ret (PDict d) => PDict d
  | _ => empty_dict
  end.

(** Whitespace as [str.strip] sees it, [c.isspace()]. *)
Definition is_space (c : Z) : bool :=
  ((9 <=? c) && (c <=? 13)) || ((28 <=? c) && (c <=? 32))
  || (c =? 133) || (c =? 160) || (c =? 5760)
  || ((8192 <=? c) && (c <=? 8202)) || (c =? 8232) || (c =? 8233)
  || (c =? 8239) || (c =? 8287) || (c =? 12288).

Fixpoint lstrip (s : pystr) : pystr :=
  match s with
  | c :: r => if is_space c then lstrip r else s
  | [] => []
  end.

(** [s.strip()]. *)
Definition strip (s : pystr) : pystr := rev (lstrip (rev (lstrip s))).

(** The skills entry as the specification words it: the comma-split of the
    field with each element trimmed, empty if the field is absent or empty. *)
Definition spec_skills (form : Form) : pyval :=
  match form_get form (str "skills") with
  | Some (c :: r) => PList (map (fun piece => PStr (strip piece)) (split 44 (c :: r)))
  | _ => PList []
  end.

(** The four presentations of section 4.5 of the specification. *)
Inductive ViewKind : Type := FreeView | PaidView | PremiumView | NoPortfolio.

(** The presentation a response of [public_portfolio] amounts to: the tier
    templates, and [public_portfolio.html] rendered without a portfolio. *)
Definition view_kind (r : response) : option ViewKind :=
  match r with
  | render_template template context =>
      if String.eqb template "free_portfolio.html" then Some FreeView
      else if String.eqb template "paid_portfolio.html" then Some PaidView
      else if String.eqb template "premium_portfolio.html" then Some PremiumView
      else if String.eqb template "public_portfolio.html" then
        match context with
        | [ (_, AUser _); (_, APortfolio None) ] => Some NoPortfolio
        | _ => None
        end
      else None
  | _ => None
  end.

(** What [public_portfolio] renders for a user without a portfolio. *)
Definition no_portfolio_page (user : User.t) : response :=
  render_template "public_portfolio.html"
    [ ("user", AUser user); ("portfolio", APortfolio None) ]%string.

(** The store accepts every commit. *)
Definition always : nat -> bool := fun _ => true.

(** The store accepts the first commit of a request and no later one. *)
Definition first_only : nat -> bool := fun n => Nat.eqb n 0.

(* ================================================================== *)
(** ** Sample data of the scenarios *)

Definition ann : User.t :=
  User.mk 1 (str "ann") (str "a@x.com") None (str "Free")
    (str "https://via.placeholder.com/150") (str "A new user on Quick4lio.")
    (Some (str "{}")).

(** Ann has registered and has no portfolio yet. *)
Definition db_new : Db := mkDb [ann] [].

(** Ann owns a Free portfolio, still empty. *)
Definition db_free : Db :=
  mkDb [ann] [Portfolio.mk 1 1 (str "Free") (Some (str "{}"))].

Definition form_ann : Form :=
  [ (str "name", str "Ann"); (str "title", str "Dev"); (str "bio", str "Hi");
    (str "skills", str "go, rust"); (str "contact_email", str "a@x.com");
    (str "contact_phone", str "") ].

Definition form_enterprise : Form :=
  (str "portfolio_type", str "Enterprise") :: form_ann.

Definition form_premium : Form :=
  (str "portfolio_type", str "Premium") :: (str "home_content", str "Welcome")
  :: (str "case_studies", str "CS1") :: form_ann.

(** Ann owns a Premium portfolio with all seven sections stored. *)
Definition db_premium : Db :=
  mkDb [ann]
    [Portfolio.mk 1 1 (str "Premium")
       (Some (json_text (sections form_premium (str "Premium"))))].

(* ================================================================== *)
(** ** Predicates of the statements *)

(** No key occurs twice. *)
Fixpoint keys_distinct (ks : list pystr) : bool :=
  match ks with
  | [] => true
  | k :: rest => negb (existsb (str_eqb k) rest) && keys_distinct rest
  end.

(** The values the builder can produce: [None], booleans, text of scalar
    code points, lists, and dicts with distinct keys, nested at will. *)
Fixpoint textual (v : pyval) : bool :=
  match v with
  | PNone | PBool _ => true
  | PInt _ | PFloat _ => false
  | PStr s => forallb scalarb s
  | PList items => forallb textual items
  | PDict pairs =>
      keys_distinct (map fst pairs)
      && forallb (fun kv => let '(k, x) := kv in forallb scalarb k && textual x)
           pairs
  end.

(** A submitted form whose values are text of scalar code points, as the
    decoding of the request body yields them. *)
Definition form_text (form : Form) : bool :=
  forallb (fun kv => forallb scalarb (snd kv)) form.

(** The first character of a text is neither whitespace, nor a closing
    bracket, nor a byte order mark. *)
Definition starts_solid (s : pystr) : Prop :=
  match s with
  | c :: _ => Decoder.is_ws c = false /\ c <> 93 /\ c <> 65279
  | [] => False
  end.

(** What [scanstring] may do on the text [s]: return the characters and a
    strictly shorter rest, or raise a decode error. *)
Definition string_scans_well (s : pystr) (o : outcome (pystr * pystr)) : Prop :=
  match o with
  | Ret (_, rest) => (length rest < length s)%nat
  | Raise e => e = JSONDecodeError
  | Starved => False
  end.

(** What a scanner may do on the text [s]: return a value and a strictly
    shorter rest, or raise one of the decoder's two exceptions or one of the
    two of the interpreter's limits. *)
Definition scans_well (s : pystr) (o : Decoder.scanned) : Prop :=
  match o with
  | Ret (_, rest) => (length rest < length s)%nat
  | Raise e =>
      e = JSONDecodeError \/ e = StopIteration \/ e = RecursionError
      \/ e = ValueError
  | Starved => False
  end.

(** The scanner [scan] reads back the text of [x], whatever follows it. *)
Definition reads_back (scan : pystr -> Decoder.scanned) (x : pyval) : Prop :=
  forall rest, scan (json_text x ++ rest) = Ret (x, rest).

(** The scanner [scan] reads the text of [x] to its end, whatever follows
    it, and returns some value. *)
Definition reads_through (scan : pystr -> Decoder.scanned) (x : pyval) : Prop :=
  forall rest, exists w, scan (json_text x ++ rest) = Ret (w, rest).

(** The text of one member of an object, as the encoder writes it. *)
Definition member (kv : pystr * pyval) : pystr :=
  let '(k, x) := kv in
  Encoder.encode_basestring_ascii k ++ str ": " ++ json_text x.

(** The nesting of a value: the number of lists and dicts inside one
    another, the nested calls that encoding or decoding it takes. *)
Fixpoint nesting (v : pyval) : nat :=
  match v with
  | PList items => S (fold_right (fun x n => Nat.max (nesting x) n) 0%nat items)
  | PDict pairs =>
      S (fold_right (fun kv n => Nat.max (let '(_, x) := kv in nesting x) n)
           0%nat pairs)
  | _ => 0%nat
  end.

(** The values without a number: [None], booleans, text of any code points,
    lists and dicts of such. *)
Fixpoint plain (v : pyval) : bool :=
  match v with
  | PNone | PBool _ | PStr _ => true
  | PInt _ | PFloat _ => false
  | PList items => forallb plain items
  | PDict pairs => forallb (fun kv => let '(_, x) := kv in plain x) pairs
  end.

(* ================================================================== *)
(** ** The account views of [app.py] *)

(** [plan_details()]. *)
Definition plan_details : option Z -> M response :=
  login_required (fun current_user =>
    ret (render_template "plan_details.html"
           [ ("current_plan",
              AValue (PStr (User.subscription_type current_user))) ]%string)).

(** [dashboard()]. *)
Definition dashboard : option Z -> M response :=
  login_required (fun current_user =>
    ret (render_template "dashboard.html" [ ("user", AUser current_user) ]%string)).

(** [User.query.filter_by(email=email).first()]. *)
Definition user_by_email (email : pystr) (db : Db) : option User.t :=
  find (fun u => str_eqb (User.email u) email) (users db).

(** [User(username=username, email=email)] after [set_password], with the
    defaults of the other columns and the key the flush will give it. *)
Definition new_user (username email password_hash : pystr) (db : Db) : User.t :=
  User.mk (next_id (map User.id (users db))) username email (Some password_hash)
    (str "Free") (str "https://via.placeholder.com/150")
    (str "A new user on Quick4lio.") (Some (str "{}")).

Definition insert_user (row : User.t) (db : Db) : Db :=
  mkDb (users db ++ [row]) (portfolios db).

Section Accounts.

Variable store_accepts : nat -> bool.

(** [werkzeug.security.generate_password_hash] on a [str]; the properties
    hold whatever it returns. *)
Variable generate_password_hash : pystr -> pystr.

(** [register()]. A field that was not submitted is [None]: no row has a
    [NULL] username or email, so the lookup by it finds nothing;
    [generate_password_hash(None)] raises before anything is added; a row
    with a [NULL] username or email is refused by the store at the commit. *)
Definition register (method : http_method) (form : Form) : M response :=
  match method with
  | POST =>
      let username := form_get form (str "username") in
      let email := form_get form (str "email") in
      let password := form_get form (str "password") in
      by_username <- query (fun db => match username with
                                      | Some name => user_by_username name db
                                      | None => None
                                      end) ;;
      by_email <- query (fun db => match email with
                                   | Some address => user_by_email address db
                                   | None => None
                                   end) ;;
      match by_username, by_email with
      | None, None =>
          match password with
          | None => raise AttributeError
          | Some secret =>
              match username, email with
              | Some name, Some address =>
                  db <- query (fun db => db) ;;
                  update (insert_user
                            (new_user name address
                               (generate_password_hash secret) db)) ;;
                  commit store_accepts ;;
                  flash (str "Account created successfully! You can now log in.")
                    "success" ;;
                  ret (redirect "login" None)
              | _, _ => raise SQLAlchemyError
              end
          end
      | _, _ =>
          flash (str "Username or Email already exists.") "danger" ;;
          ret (redirect "register" None)
      end
  | GET => ret (render_template "register.html" [])
  end.

End Accounts.

(* ================================================================== *)
(** ** Further predicates and sample data *)

(** The key constraints of the portfolio table: the primary key [id] and the
    unique [user_id]. *)
Definition well_keyed (db : Db) : Prop :=
  NoDup (map Portfolio.id (portfolios db))
  /\ NoDup (map Portfolio.user_id (portfolios db)).

(** The key constraints of the user table: the primary key [id] and the
    unique [username] and [email]. *)
Definition unique_identities (db : Db) : Prop :=
  NoDup (map User.id (users db))
  /\ NoDup (map User.username (users db))
  /\ NoDup (map User.email (users db)).

(** The foreign key of the portfolio table: every portfolio belongs to a
    user of the user table. *)
Definition owners_exist (db : Db) : Prop :=
  forall p, In p (portfolios db) -> In (Portfolio.user_id p) (map User.id (users db)).

(** A printable ASCII character, [' '..'~']. *)
Definition printable (c : Z) : Prop := 32 <= c <= 126.

(** No float anywhere in the value. *)
Fixpoint float_free (v : pyval) : bool :=
  match v with
  | PFloat _ => false
  | PNone | PBool _ | PInt _ | PStr _ => true
  | PList items => forallb float_free items
  | PDict pairs => forallb (fun kv => let '(_, x) := kv in float_free x) pairs
  end.

Definition is_dict (v : pyval) : bool :=
  match v with
  | PDict _ => true
  | _ => false
  end.

(** The names of the fields that the builder reads. *)
Definition section_fields : list string :=
  [ "name"; "title"; "bio"; "project_name_1"; "project_desc_1"; "project_img_1";
    "skills"; "contact_email"; "contact_phone"; "home_content"; "case_studies";
    "testimonials"; "resume_link"; "awards" ]%string.

(** The template of the edit form of a plan. *)
Definition edit_template (plan : pystr) : string :=
  if str_eqb plan (str "Free") then "edit_free_portfolio.html"
  else if str_eqb plan (str "Paid") then "edit_paid_portfolio.html"
  else "edit_premium_portfolio.html".

(** The template of the public page of a tier. *)
Definition public_template (tier : pystr) : string :=
  if str_eqb tier (str "Free") then "free_portfolio.html"
  else if str_eqb tier (str "Paid") then "paid_portfolio.html"
  else "premium_portfolio.html".

Definition bea : User.t :=
  User.mk 2 (str "bea") (str "b@x.com") None (str "Paid")
    (str "https://via.placeholder.com/150") (str "A new user on Quick4lio.")
    (Some (str "{}")).

(** Bea is on the Paid plan; the text stored for her portfolio decodes to a
    list. Ann owns a Free portfolio. *)
Definition db_two : Db :=
  mkDb [ann; bea]
    [ Portfolio.mk 1 1 (str "Free") (Some (str "{}"));
      Portfolio.mk 2 2 (str "Paid") (Some (str "[]")) ].

(** Ann owns a Free portfolio; the text stored for it is an integer of
    4301 digits. *)
Definition db_digits : Db :=
  mkDb [ann] [Portfolio.mk 1 1 (str "Free") (Some (repeat 49 4301))].

Definition form_register : Form :=
  [ (str "username", str "cy"); (str "email", str "c@x.com");
    (str "password", str "secret") ].

(** A hash function for the samples. *)
Definition sample_hash : pystr -> pystr := fun secret => str "hash:" ++ secret.

(** The texts that the application itself stores as sections_data: the
    [{}] given to a new row, and what [json.dumps] returns for the record
    built from a form. *)
Definition app_text (text : option pystr) : Prop :=
  text = Some (str "{}")
  \/ exists (form : Form) (T : pystr), text = Some (json_text (sections form T)).

(** Every sections_data of the database was written by the application. *)
Definition app_written (db : Db) : Prop :=
  Forall app_text (map Portfolio.sections_data (portfolios db)).

(* ================================================================== *)
(** ** Facts about strings *)

Lemma str_eqb_spec (a b : pystr) : reflect (a = b) (str_eqb a b).
Proof.
  revert b; induction a as [|x a IH]; intros [|y b]; simpl;
    try (constructor; congruence).
  destruct (Z.eqb_spec x y) as [->|Hxy]; simpl.
  - destruct (IH b) as [->|Hab]; constructor; congruence.
  - constructor; congruence.
Qed.

Lemma str_eqb_refl (a : pystr) : str_eqb a a = true.
Proof. destruct (str_eqb_spec a a); congruence. Qed.

Lemma str_eqb_eq (a b : pystr) : str_eqb a b = true <-> a = b.
Proof. destruct (str_eqb_spec a b); split; congruence. Qed.

Lemma scalarb_spec (c : Z) : scalarb c = true <-> scalar c.
Proof. unfold scalarb, scalar. lia. Qed.

(* ================================================================== *)
(** ** The escapes of the encoder are read back by the decoder *)

Ltac euclid := Z.to_euclidean_division_equations; lia.

Lemma land_15 (x : Z) : Z.land x 15 = x mod 16.
Proof. exact (Z.land_ones x 4 ltac:(lia)). Qed.

Lemma land_1023 (x : Z) : Z.land x 1023 = x mod 1024.
Proof. exact (Z.land_ones x 10 ltac:(lia)). Qed.

Lemma hexval_hexdigit (d : Z) :
  0 <= d < 16 -> Decoder.hexval (Encoder.hexdigit d) = Some d.
Proof.
  intros Hd. unfold Encoder.hexdigit, Decoder.hexval.
  destruct (Z.ltb_spec d 10).
  - replace ((48 <=? 48 + d) && (48 + d <=? 57)) with true by lia.
    f_equal; lia.
  - replace ((48 <=? 87 + d) && (87 + d <=? 57)) with false by lia.
    replace ((97 <=? 87 + d) && (87 + d <=? 102)) with true by lia.
    f_equal; lia.
Qed.

Lemma decode_hex4 (n : Z) :
  0 <= n < 65536 ->
  exists h1 h2 h3 h4,
    Encoder.hex4 n = [h1; h2; h3; h4]
    /\ Decoder.decode_uXXXX h1 h2 h3 h4 = Some n.
Proof.
  intros Hn. unfold Encoder.hex4. do 4 eexists. split; [reflexivity|].
  unfold Decoder.decode_uXXXX.
  rewrite !land_15, !Z.shiftr_div_pow2 by lia.
  change (2 ^ 12) with 4096. change (2 ^ 8) with 256. change (2 ^ 4) with 16.
  rewrite !hexval_hexdigit by euclid.
  f_equal. euclid.
Qed.

(** A disjunction of a multiple of 1024 with a smaller number is their sum. *)
Lemma lor_high_low (hi lo : Z) :
  0 <= hi -> 0 <= lo < 1024 -> Z.lor (Z.shiftl hi 10) lo = hi * 1024 + lo.
Proof.
  intros Hhi Hlo.
  rewrite Z.shiftl_mul_pow2 by lia. change (2 ^ 10) with 1024.
  assert (Hdisj : Z.land (hi * 1024) lo = 0).
  { apply Z.bits_inj'; intros i Hi. rewrite Z.land_spec, Z.bits_0.
    destruct (Z.ltb_spec i 10).
    - replace (hi * 1024) with (hi * 2 ^ 10) by lia.
      rewrite Z.mul_pow2_bits_low by lia. reflexivity.
    - rewrite (Z.bits_above_log2 lo i); [apply andb_false_r|lia|].
      destruct (Z.eq_dec lo 0) as [->|]; [simpl; lia|].
      apply Z.log2_lt_pow2; [lia|].
      apply Z.lt_le_trans with (2 ^ 10); [simpl; lia|].
      apply Z.pow_le_mono_r; lia. }
  rewrite <- Z.lxor_lor by exact Hdisj.
  symmetry. apply Z.add_nocarry_lxor. exact Hdisj.
Qed.

Lemma surrogate_high (n : Z) :
  0 <= n < 1048576 ->
  Z.lor 55296 (Z.land (Z.shiftr n 10) 1023) = 55296 + n / 1024.
Proof.
  intros Hn. rewrite land_1023, Z.shiftr_div_pow2 by lia.
  change (2 ^ 10) with 1024.
  change 55296 with (Z.shiftl 54 10) at 1.
  rewrite lor_high_low by euclid. euclid.
Qed.

Lemma surrogate_low (n : Z) :
  0 <= n -> Z.lor 56320 (Z.land n 1023) = 56320 + n mod 1024.
Proof.
  intros Hn. rewrite land_1023.
  change 56320 with (Z.shiftl 55 10) at 1.
  rewrite lor_high_low by euclid. lia.
Qed.

Lemma surrogates_join (n : Z) :
  0 <= n < 1048576 ->
  65536 + Z.lor (Z.shiftl (55296 + n / 1024 - 55296) 10)
            (56320 + n mod 1024 - 56320) = 65536 + n.
Proof.
  intros Hn. rewrite lor_high_low by euclid. euclid.
Qed.

#[local] Arguments Decoder.decode_uXXXX : simpl never.
#[local] Arguments Z.mul : simpl never.
#[local] Arguments Z.add : simpl never.
#[local] Arguments Z.sub : simpl never.
#[local] Arguments Z.lor : simpl never.
#[local] Arguments Z.shiftl : simpl never.

Lemma scanstring_hex (n : Z) (tail : pystr) :
  0 <= n < 65536 ->
  Decoder.scanstring ([92; 117] ++ Encoder.hex4 n ++ tail)
  = if (55296 <=? n) && (n <=? 56319) then
      match tail with
      | b :: u :: r3 =>
          if (b =? 92) && (u =? 117) then
            match r3 with
            | k1 :: k2 :: k3 :: k4 :: r4 =>
                match Decoder.decode_uXXXX k1 k2 k3 k4 with
                | None => Raise JSONDecodeError
                | Some uni2 =>
                    if (56320 <=? uni2) && (uni2 <=? 57343) then
                      Decoder.push (65536 + Z.lor (Z.shiftl (n - 55296) 10)
                                              (uni2 - 56320))
                        (Decoder.scanstring r4)
                    else Decoder.push n (Decoder.scanstring tail)
                end
            | _ => Raise JSONDecodeError
            end
          else Decoder.push n (Decoder.scanstring tail)
      | _ => Decoder.push n (Decoder.scanstring tail)
      end
    else Decoder.push n (Decoder.scanstring tail).
Proof.
  intros Hn. destruct (decode_hex4 n Hn) as (h1 & h2 & h3 & h4 & Hhex & Hdec).
  rewrite Hhex. cbn [app Decoder.scanstring]. cbn [Z.eqb Pos.eqb].
  rewrite Hdec. reflexivity.
Qed.

Lemma scanstring_escape (c : Z) (tail : pystr) :
  scalar c ->
  Decoder.scanstring (Encoder.escape c ++ tail)
  = Decoder.push c (Decoder.scanstring tail).
Proof.
  intros Hc. unfold Encoder.escape.
  destruct (Z.eqb_spec c 92) as [->|H92]; [reflexivity|].
  destruct (Z.eqb_spec c 34) as [->|H34]; [reflexivity|].
  destruct ((32 <=? c) && (c <=? 126)) eqn:Hp.
  { cbn [app Decoder.scanstring].
    rewrite (proj2 (Z.eqb_neq c 34) H34), (proj2 (Z.eqb_neq c 92) H92).
    replace ((0 <=? c) && (c <=? 31)) with false by lia. reflexivity. }
  destruct (Z.eqb_spec c 8) as [->|H8]; [reflexivity|].
  destruct (Z.eqb_spec c 12) as [->|H12]; [reflexivity|].
  destruct (Z.eqb_spec c 10) as [->|H10]; [reflexivity|].
  destruct (Z.eqb_spec c 13) as [->|H13]; [reflexivity|].
  destruct (Z.eqb_spec c 9) as [->|H9]; [reflexivity|].
  destruct (Z.ltb_spec c 65536) as [Hlt|Hge].
  - rewrite <- app_assoc, scanstring_hex by (unfold scalar in Hc; lia).
    replace ((55296 <=? c) && (c <=? 56319)) with false
      by (unfold scalar in Hc; lia).
    reflexivity.
  - assert (Hn : 0 <= c - 65536 < 1048576) by (unfold scalar in Hc; lia).
    cbv zeta. rewrite surrogate_high, surrogate_low by lia.
    rewrite <- !app_assoc.
    rewrite scanstring_hex by euclid.
    replace ((55296 <=? 55296 + (c - 65536) / 1024)
             && (55296 + (c - 65536) / 1024 <=? 56319)) with true by euclid.
    destruct (decode_hex4 (56320 + (c - 65536) mod 1024) ltac:(euclid))
      as (k1 & k2 & k3 & k4 & Hhex & Hdec).
    rewrite Hhex. cbn [app]. cbn [Z.eqb Pos.eqb andb]. rewrite Hdec.
    replace ((56320 <=? 56320 + (c - 65536) mod 1024)
             && (56320 + (c - 65536) mod 1024 <=? 57343)) with true by euclid.
    rewrite surrogates_join by lia.
    replace (65536 + (c - 65536)) with c by lia. reflexivity.
Qed.

Lemma scanstring_escaped (s rest : pystr) :
  Forall scalar s ->
  Decoder.scanstring (flat_map Encoder.escape s ++ 34 :: rest) = Ret (s, rest).
Proof.
  induction 1 as [|c s Hc _ IH]; [reflexivity|].
  cbn [flat_map]. rewrite <- app_assoc, scanstring_escape, IH by exact Hc.
  reflexivity.
Qed.

(* ================================================================== *)
(** ** Decoding what the encoder wrote *)

Lemma pyval_nested_ind (P : pyval -> Prop) :
  P PNone ->
  (forall b, P (PBool b)) ->
  (forall n, P (PInt n)) ->
  (forall l, P (PFloat l)) ->
  (forall s, P (PStr s)) ->
  (forall items, Forall P items -> P (PList items)) ->
  (forall pairs, Forall (fun kv => P (snd kv)) pairs -> P (PDict pairs)) ->
  forall v, P v.
Proof.
  intros HNone HBool HInt HFloat HStr HList HDict.
  fix IH 1. intros [| b | n | l | s | items | pairs].
  - exact HNone.
  - apply HBool.
  - apply HInt.
  - apply HFloat.
  - apply HStr.
  - apply HList. revert items. fix IHl 1. intros [|x items]; constructor.
    + apply IH.
    + apply IHl.
  - apply HDict. revert pairs. fix IHl 1. intros [|[k x] pairs]; constructor.
    + apply IH.
    + apply IHl.
Qed.

Lemma skip_ws_solid (s : pystr) : starts_solid s -> Decoder.skip_ws s = s.
Proof. destruct s as [|c r]; simpl; [tauto|]. intros [-> _]. reflexivity. Qed.

Lemma starts_solid_app (s t : pystr) : starts_solid s -> starts_solid (s ++ t).
Proof. destruct s; simpl; tauto. Qed.

Lemma textual_plain (v : pyval) : textual v = true -> plain v = true.
Proof.
  induction v as [| b | n | l | s | items IH | pairs IH] using pyval_nested_ind;
    intros H; try reflexivity; try discriminate.
  - cbn [textual plain] in *. rewrite forallb_forall in *.
    rewrite Forall_forall in IH. auto.
  - cbn [textual plain] in *. apply andb_true_iff in H as [_ H].
    rewrite forallb_forall in *. rewrite Forall_forall in IH.
    intros [k x] Hx. specialize (H _ Hx). cbn beta iota in H.
    apply andb_true_iff in H as [_ H]. exact (IH _ Hx H).
Qed.

Lemma text_solid (v : pyval) : plain v = true -> starts_solid (json_text v).
Proof.
  destruct v as [| [|] | n | l | s | items | pairs]; simpl; intros H;
    try discriminate; repeat split; solve [reflexivity | discriminate].
Qed.

Lemma dumps_solid (v : pyval) : textual v = true -> starts_solid (json_text v).
Proof. intros H. apply text_solid, textual_plain, H. Qed.

Lemma text_nonempty (v : pyval) :
  plain v = true -> (1 <= length (json_text v))%nat.
Proof.
  intros H. apply text_solid in H.
  destruct (json_text v); simpl in *; [tauto|lia].
Qed.

Lemma dumps_nonempty (v : pyval) :
  textual v = true -> (1 <= length (json_text v))%nat.
Proof. intros H. apply text_nonempty, textual_plain, H. Qed.

Lemma nesting_item (items : list pyval) (y : pyval) :
  In y items ->
  (nesting y <= fold_right (fun x n => Nat.max (nesting x) n) 0 items)%nat.
Proof.
  induction items as [|x items IH]; [contradiction|].
  intros [-> | Hy]; cbn [fold_right]; [lia|]. specialize (IH Hy). lia.
Qed.

Lemma nesting_member (pairs : list (pystr * pyval)) (k : pystr) (y : pyval) :
  In (k, y) pairs ->
  (nesting y
   <= fold_right (fun kv n => Nat.max (let '(_, x) := kv in nesting x) n) 0 pairs)%nat.
Proof.
  induction pairs as [|[k' x] pairs IH]; [contradiction|].
  intros [[= -> ->] | Hy]; cbn [fold_right]; [lia|]. specialize (IH Hy). lia.
Qed.

Lemma join_length (sep : pystr) (chunks : list pystr) :
  Forall (fun c => 1 <= length c)%nat chunks ->
  (length chunks <= length (join sep chunks))%nat.
Proof.
  induction 1 as [|c cs Hc Hcs IH]; [simpl; lia|].
  destruct cs as [|c' cs]; [simpl; lia|].
  change (join sep (c :: c' :: cs)) with (c ++ sep ++ join sep (c' :: cs)).
  rewrite !length_app. simpl in *. lia.
Qed.

Lemma join_piece (sep : pystr) (chunks : list pystr) (c : pystr) :
  In c chunks -> (length c <= length (join sep chunks))%nat.
Proof.
  induction chunks as [|c0 cs IH]; [contradiction|].
  intros Hin. destruct cs as [|c' cs].
  - destruct Hin as [->|[]]. simpl. lia.
  - change (join sep (c0 :: c' :: cs)) with (c0 ++ sep ++ join sep (c' :: cs)).
    rewrite !length_app. destruct Hin as [->|Hin]; [lia|].
    specialize (IH Hin). lia.
Qed.

Lemma join_solid (sep : pystr) (c : pystr) (cs : list pystr) (t : pystr) :
  starts_solid c -> starts_solid (join sep (c :: cs) ++ t).
Proof.
  intros Hc. destruct cs as [|c' cs].
  - simpl. apply starts_solid_app. exact Hc.
  - change (join sep (c :: c' :: cs)) with (c ++ sep ++ join sep (c' :: cs)).
    rewrite <- app_assoc. apply starts_solid_app. exact Hc.
Qed.

Lemma existsb_middle {A B} (f : A -> bool) (xs : list (A * B)) (k : A) (v : B)
    (ys : list (A * B)) :
  existsb f (map fst (xs ++ (k, v) :: ys)) = false -> f k = false.
Proof.
  rewrite map_app, existsb_app. simpl. intros H.
  apply orb_false_iff in H as [_ H]. apply orb_false_iff in H as [H _]. exact H.
Qed.

Lemma dict_set_fresh (acc : list (pystr * pyval)) (k : pystr) (v : pyval)
    (later : list (pystr * pyval)) :
  keys_distinct (map fst (acc ++ (k, v) :: later)) = true ->
  dict_set acc k v = acc ++ [(k, v)].
Proof.
  induction acc as [|[k' v'] acc IH]; [reflexivity|].
  intros H.
  change (keys_distinct (k' :: map fst (acc ++ (k, v) :: later)) = true) in H.
  cbn [keys_distinct] in H. apply andb_true_iff in H as [Hk' Hrest].
  apply negb_true_iff, existsb_middle in Hk'.
  cbn [dict_set app]. rewrite Hk'. f_equal. apply IH. exact Hrest.
Qed.

Lemma dict_of_distinct_pairs (pairs acc : list (pystr * pyval)) :
  keys_distinct (map fst (acc ++ pairs)) = true ->
  fold_left (fun d kv => dict_set d (fst kv) (snd kv)) pairs acc = acc ++ pairs.
Proof.
  revert acc. induction pairs as [|[k v] pairs IH]; intros acc H.
  - simpl. rewrite app_nil_r. reflexivity.
  - simpl. rewrite (dict_set_fresh acc k v pairs H).
    rewrite IH; rewrite <- app_assoc; [reflexivity|exact H].
Qed.

Section ContainersRoundTrip.

Variable scan : pystr -> Decoder.scanned.

Lemma array_loop_join (items : list pyval) :
  Forall (reads_back scan) items ->
  Forall (fun x => textual x = true) items ->
  items <> [] ->
  forall (n : nat) (acc : list pyval) (rest : pystr),
    (length items <= n)%nat ->
    Decoder.array_loop scan n
      (join (str ", ") (map json_text items) ++ 93 :: rest) acc
    = Ret (PList (acc ++ items), rest).
Proof.
  induction 1 as [|x items Hx Hitems IH]; intros Htext Hne n acc rest Hn;
    [congruence|].
  inversion Htext as [|? ? Htx Htitems]; subst.
  destruct n as [|n]; [simpl in Hn; lia|].
  destruct items as [|y items].
  - cbn [map join Decoder.array_loop]. rewrite Hx.
    cbn. reflexivity.
  - change (join (str ", ") (map json_text (x :: y :: items)))
      with (json_text x
            ++ str ", " ++ join (str ", ") (map json_text (y :: items))).
    rewrite <- !app_assoc. cbn [Decoder.array_loop]. rewrite Hx.
    cbn [str list_ascii_of_string map app Decoder.skip_ws].
    change (ord ",") with 44. change (ord " ") with 32.
    cbn [Decoder.is_ws Decoder.skip_ws Z.eqb Pos.eqb orb].
    rewrite skip_ws_solid.
    2:{ apply (join_solid (str ", ") (json_text y)).
        apply dumps_solid. inversion Htitems; assumption. }
    transitivity (Ret (A := pyval * pystr)
                    (PList ((acc ++ [x]) ++ y :: items), rest)).
    + apply (IH Htitems ltac:(discriminate) n (acc ++ [x]) rest).
      simpl in *; lia.
    + rewrite <- app_assoc. reflexivity.
Qed.

Lemma member_head (p : pystr * pyval) (ps : list (pystr * pyval)) (r : pystr) :
  exists t, join (str ", ") (map member (p :: ps)) ++ r = 34 :: t.
Proof.
  destruct p as [k x]. destruct ps as [|p' ps]; eexists; cbn [map join].
  - unfold member, Encoder.encode_basestring_ascii. reflexivity.
  - unfold member at 1, Encoder.encode_basestring_ascii. reflexivity.
Qed.

Lemma member_text (k : pystr) (x : pyval) (tail : pystr) :
  member (k, x) ++ tail
  = 34 :: flat_map Encoder.escape k ++ 34 :: 58 :: 32 :: json_text x ++ tail.
Proof.
  unfold member, Encoder.encode_basestring_ascii.
  rewrite <- !app_assoc. reflexivity.
Qed.

Lemma object_loop_member (k : pystr) (x : pyval) :
  reads_back scan x -> Forall scalar k -> textual x = true ->
  forall (n : nat) (acc : list (pystr * pyval)) (tail : pystr),
    Decoder.object_loop scan (S n)
      (flat_map Encoder.escape k ++ 34 :: 58 :: 32 :: json_text x ++ tail) acc
    = match Decoder.skip_ws tail with
      | [] => Raise JSONDecodeError
      | nextchar :: s4 =>
          if nextchar =? 125 then
            Ret (PDict (dict_of_pairs (acc ++ [(k, x)])), s4)
          else if nextchar =? 44 then
            match Decoder.skip_ws s4 with
            | [] => Raise JSONDecodeError
            | quote :: s5 =>
                if quote =? 34
                then Decoder.object_loop scan n s5 (acc ++ [(k, x)])
                else Raise JSONDecodeError
            end
          else Raise JSONDecodeError
      end.
Proof.
  intros Hx Hk Htx n acc tail.
  cbn [Decoder.object_loop]. rewrite scanstring_escaped by exact Hk.
  cbn [Decoder.skip_ws Decoder.is_ws Z.eqb Pos.eqb orb].
  rewrite skip_ws_solid by (apply starts_solid_app, dumps_solid, Htx).
  rewrite Hx. reflexivity.
Qed.

Lemma object_loop_join (pairs : list (pystr * pyval)) :
  Forall (fun kv => reads_back scan (snd kv)) pairs ->
  Forall (fun kv => Forall scalar (fst kv) /\ textual (snd kv) = true) pairs ->
  pairs <> [] ->
  forall (n : nat) (acc : list (pystr * pyval)) (rest t : pystr),
    (length pairs <= n)%nat ->
    34 :: t = join (str ", ") (map member pairs) ++ 125 :: rest ->
    Decoder.object_loop scan n t acc
    = Ret (PDict (dict_of_pairs (acc ++ pairs)), rest).
Proof.
  induction 1 as [|[k x] pairs Hx Hpairs IH]; intros Htext Hne n acc rest t Hn Ht;
    [congruence|].
  inversion Htext as [|? ? [Hk Htx] Htpairs]; subst. cbn [fst snd] in *.
  destruct n as [|n]; [simpl in Hn; lia|].
  destruct pairs as [|p pairs].
  - cbn [map join] in Ht. rewrite member_text in Ht.
    injection Ht as ->.
    rewrite object_loop_member by assumption. reflexivity.
  - assert (Et : 34 :: t
                 = 34 :: flat_map Encoder.escape k ++ 34 :: 58 :: 32
                      :: json_text x
                      ++ 44 :: 32 :: (join (str ", ") (map member (p :: pairs))
                                      ++ 125 :: rest)).
    { rewrite Ht.
      change (join (str ", ") (map member ((k, x) :: p :: pairs)))
        with (member (k, x)
              ++ str ", " ++ join (str ", ") (map member (p :: pairs))).
      rewrite <- app_assoc, member_text. reflexivity. }
    apply (f_equal (@tl Z)) in Et. cbn [tl] in Et. rewrite Et.
    rewrite object_loop_member by assumption.
    destruct (member_head p pairs (125 :: rest)) as [t' Ht'].
    rewrite Ht'.
    cbn [str list_ascii_of_string map app Decoder.skip_ws].
    change (ord ",") with 44. change (ord " ") with 32.
    cbn [Decoder.is_ws Decoder.skip_ws Z.eqb Pos.eqb orb].
    transitivity (Ret (A := pyval * pystr)
                    (PDict (dict_of_pairs ((acc ++ [(k, x)]) ++ p :: pairs)), rest)).
    + apply (IH Htpairs ltac:(discriminate) n (acc ++ [(k, x)]) rest t').
      * simpl in *; lia.
      * symmetry; exact Ht'.
    + rewrite <- app_assoc. reflexivity.
Qed.

End ContainersRoundTrip.

Lemma forallb_scalar (s : pystr) : forallb scalarb s = true <-> Forall scalar s.
Proof.
  rewrite forallb_forall, Forall_forall.
  split; intros H c Hc; apply scalarb_spec, H, Hc.
Qed.

Lemma JSONArray_nonempty (scan : pystr -> Decoder.scanned) (s : pystr) :
  starts_solid s ->
  Decoder.JSONArray scan s = Decoder.array_loop scan (S (length s)) s [].
Proof.
  intros Hs. unfold Decoder.JSONArray. rewrite (skip_ws_solid s Hs).
  destruct s as [|c r]; [contradiction|]. destruct Hs as (_ & H93 & _).
  rewrite (proj2 (Z.eqb_neq c 93) H93). reflexivity.
Qed.

Lemma dumps_list (items : list pyval) :
  json_text (PList items)
  = 91 :: join (str ", ") (map json_text items) ++ [93].
Proof. reflexivity. Qed.

Lemma dumps_dict (pairs : list (pystr * pyval)) :
  json_text (PDict pairs) = 123 :: join (str ", ") (map member pairs) ++ [125].
Proof. reflexivity. Qed.

(** The scanner reads back the text of a value of scalar text when it is
    allowed the nesting of the value, whatever the depth allowed. *)
Lemma scan_once_dumps (v : pyval) :
  textual v = true ->
  forall d : nat, (nesting v <= d)%nat ->
  reads_back (Decoder.scan_once d) v.
Proof.
  induction v as [| b | n | l | s | items IH | pairs IH] using pyval_nested_ind;
    intros Htext d Hd rest; try discriminate.
  - destruct d; reflexivity.
  - destruct b, d; reflexivity.
  - cbn [textual] in Htext. apply forallb_scalar in Htext.
    cbn [json_text]. unfold Encoder.encode_basestring_ascii.
    rewrite <- !app_assoc.
    destruct d; cbn [app Decoder.scan_once Z.eqb Pos.eqb];
      rewrite scanstring_escaped by exact Htext; reflexivity.
  - cbn [nesting] in Hd. destruct d as [|d]; [lia|].
    cbn [textual] in Htext. rewrite forallb_forall in Htext.
    rewrite dumps_list in *. cbn [app]. rewrite <- app_assoc. cbn [app].
    cbn [Decoder.scan_once Z.eqb Pos.eqb].
    destruct items as [|x items]; [reflexivity|].
    rewrite JSONArray_nonempty.
    2:{ apply (join_solid _ (json_text x)), dumps_solid, Htext. now left. }
    rewrite array_loop_join with (acc := []); try reflexivity; try discriminate.
    + rewrite Forall_forall in IH |- *. intros y Hy. apply (IH y Hy (Htext y Hy)).
      pose proof (nesting_item (x :: items) y Hy) as Hlen.
      lia.
    + apply Forall_forall. exact Htext.
    + rewrite length_app.
      pose proof (join_length (str ", ") (map json_text (x :: items))) as Hlen.
      rewrite length_map in Hlen.
      assert (Forall (fun c => 1 <= length c)%nat
                (map json_text (x :: items))).
      { apply Forall_forall. intros c Hc. apply in_map_iff in Hc as (y & <- & Hy).
        apply dumps_nonempty, Htext, Hy. }
      specialize (Hlen H). lia.
  - cbn [nesting] in Hd. destruct d as [|d]; [lia|].
    cbn [textual] in Htext. apply andb_true_iff in Htext as [Hkeys Htext].
    rewrite forallb_forall in Htext.
    rewrite dumps_dict in *. cbn [app]. rewrite <- app_assoc. cbn [app].
    cbn [Decoder.scan_once Z.eqb Pos.eqb].
    destruct pairs as [|p pairs]; [reflexivity|].
    destruct (member_head p pairs (125 :: rest)) as [t Ht].
    unfold Decoder.JSONObject. rewrite Ht.
    cbn [Decoder.skip_ws Decoder.is_ws Z.eqb Pos.eqb orb].
    rewrite object_loop_join with (pairs := p :: pairs) (rest := rest);
      try discriminate.
    + cbn [app]. unfold dict_of_pairs.
      rewrite dict_of_distinct_pairs by exact Hkeys. reflexivity.
    + rewrite Forall_forall in IH |- *. intros [k y] Hy. cbn [snd].
      specialize (Htext _ Hy). cbn beta iota in Htext.
      apply andb_true_iff in Htext as [_ Hty].
      apply (IH _ Hy Hty).
      pose proof (nesting_member (p :: pairs) k y Hy) as Hlen.
      cbn [snd]. lia.
    + apply Forall_forall. intros [k y] Hy. specialize (Htext _ Hy).
      cbn beta iota in Htext. apply andb_true_iff in Htext as [Hk Hty].
      split; [apply forallb_scalar, Hk|exact Hty].
    + pose proof (join_length (str ", ") (map member (p :: pairs))) as Hlen.
      rewrite length_map in Hlen.
      assert (Forall (fun c => 1 <= length c)%nat (map member (p :: pairs))).
      { apply Forall_forall. intros c Hc. apply in_map_iff in Hc as ([k y] & <- & Hy).
        unfold member, Encoder.encode_basestring_ascii. rewrite !length_app.
        simpl. lia. }
      specialize (Hlen H).
      apply (f_equal (@length Z)) in Ht. rewrite length_app in Ht.
      cbn [length] in *. lia.
    + symmetry. exact Ht.
Qed.

Lemma loads_dumps (v : pyval) :
  textual v = true -> (nesting v <= recursion_limit)%nat ->
  Decoder.loads (Some (json_text v)) = Ret v.
Proof.
  intros Htext Hdepth. pose proof (dumps_solid v Htext) as Hsolid.
  assert (Hdec : Decoder.decode (json_text v) = Ret v).
  { unfold Decoder.decode. rewrite skip_ws_solid by exact Hsolid.
    pose proof (scan_once_dumps v Htext recursion_limit Hdepth []) as Hscan.
    rewrite app_nil_r in Hscan. rewrite Hscan. reflexivity. }
  unfold Decoder.loads. destruct (json_text v) as [|c r]; [contradiction|].
  destruct Hsolid as (_ & _ & Hbom).
  rewrite (proj2 (Z.eqb_neq c 65279) Hbom). exact Hdec.
Qed.

(* ================================================================== *)
(** ** The decoder returns or raises one of four exceptions on every text *)

Lemma push_well (s s' : pystr) (c : Z) (o : outcome (pystr * pystr)) :
  string_scans_well s' o -> (length s' <= length s)%nat ->
  string_scans_well s (Decoder.push c o).
Proof.
  destruct o as [[cs rest]| e |]; simpl; auto. lia.
Qed.

Lemma scanstring_well_bounded (n : nat) :
  forall s, (length s <= n)%nat -> string_scans_well s (Decoder.scanstring s).
Proof.
  induction n as [|n IH]; intros s Hs.
  - destruct s; [reflexivity|simpl in Hs; lia].
  - destruct s as [|c r]; [reflexivity|].
    cbn [Decoder.scanstring].
    repeat match goal with
           | |- string_scans_well _ (if ?b then _ else _) => destruct b
           | |- string_scans_well _ (match ?x with _ => _ end) => destruct x
           end;
      try reflexivity;
      try (simpl; lia);
      (eapply push_well; [apply IH|]; simpl in *; lia).
Qed.

Lemma scanstring_well (s : pystr) : string_scans_well s (Decoder.scanstring s).
Proof. apply (scanstring_well_bounded (length s)). lia. Qed.

Lemma skip_ws_length (s : pystr) : (length (Decoder.skip_ws s) <= length s)%nat.
Proof.
  induction s as [|c r IH]; simpl; [lia|].
  destruct (Decoder.is_ws c); simpl; lia.
Qed.

Lemma strip_prefix_length (p s rest : pystr) :
  strip_prefix p s = Some rest -> length s = (length p + length rest)%nat.
Proof.
  revert s. induction p as [|x p IH]; intros s; simpl.
  - intros [= ->]. reflexivity.
  - destruct s as [|y s]; [discriminate|].
    destruct (x =? y); [|discriminate]. intros H. simpl. rewrite (IH _ H). lia.
Qed.

Lemma digits_length (s ds rest : pystr) :
  Decoder.digits s = (ds, rest) -> (length rest <= length s)%nat.
Proof.
  revert ds rest. induction s as [|c r IH]; intros ds rest; simpl.
  - intros [= <- <-]. simpl. lia.
  - destruct (Decoder.is_digit c).
    + destruct (Decoder.digits r) as [ds' rest'] eqn:E.
      intros [= <- <-]. specialize (IH _ _ eq_refl). lia.
    + intros [= <- <-]. simpl. lia.
Qed.

Lemma match_natural_length (s ds rest : pystr) :
  Decoder.match_natural s = Some (ds, rest) -> (length rest < length s)%nat.
Proof.
  destruct s as [|c r]; [discriminate|]. cbn [Decoder.match_natural].
  destruct (c =? 48); [intros [= <- <-]; simpl; lia|].
  destruct (Decoder.is_digit c); [|discriminate].
  destruct (Decoder.digits r) as [ds' rest'] eqn:E. intros [= <- <-].
  apply digits_length in E. simpl. lia.
Qed.

Lemma match_integer_length (s : pystr) (neg : bool) (ds rest : pystr) :
  Decoder.match_integer s = Some (neg, ds, rest) -> (length rest < length s)%nat.
Proof.
  destruct s as [|c r]; [discriminate|]. cbn [Decoder.match_integer].
  destruct (c =? 45).
  - destruct (Decoder.match_natural r) as [[ds' rest']|] eqn:E; [|discriminate].
    intros [= <- <- <-]. apply match_natural_length in E. simpl. lia.
  - destruct (Decoder.match_natural (c :: r)) as [[ds' rest']|] eqn:E;
      [|discriminate].
    intros [= <- <- <-]. apply match_natural_length in E. exact E.
Qed.

Lemma match_frac_length (s frac rest : pystr) :
  Decoder.match_frac s = (frac, rest) -> (length rest <= length s)%nat.
Proof.
  destruct s as [|c r]; cbn [Decoder.match_frac].
  - intros [= <- <-]. lia.
  - destruct (c =? 46); [|intros [= <- <-]; lia].
    destruct (Decoder.digits r) as [[|d ds] rest'] eqn:E; intros [= <- <-];
      [lia|]. apply digits_length in E. simpl. lia.
Qed.

Lemma match_exp_length (s exp rest : pystr) :
  Decoder.match_exp s = (exp, rest) -> (length rest <= length s)%nat.
Proof.
  destruct s as [|c r]; cbn [Decoder.match_exp].
  - intros [= <- <-]. lia.
  - destruct ((c =? 101) || (c =? 69)); [|intros [= <- <-]; lia].
    destruct r as [|g r'].
    + cbn. intros [= <- <-]. simpl. lia.
    + destruct ((g =? 45) || (g =? 43)).
      * destruct (Decoder.digits r') as [[|d ds] rest'] eqn:E; intros [= <- <-];
          [lia|]. apply digits_length in E. simpl. lia.
      * destruct (Decoder.digits (g :: r')) as [[|d ds] rest'] eqn:E;
          intros [= <- <-]; [lia|]. apply digits_length in E. simpl in *. lia.
Qed.

Lemma scan_number_well (s : pystr) (res : Decoder.scanned) :
  Decoder.scan_number s = Some res -> scans_well s res.
Proof.
  unfold Decoder.scan_number.
  destruct (Decoder.match_integer s) as [[[neg ds] s1]|] eqn:E1; [|discriminate].
  destruct (Decoder.match_frac s1) as [frac s2] eqn:E2.
  destruct (Decoder.match_exp s2) as [exp s3] eqn:E3.
  apply match_integer_length in E1. apply match_frac_length in E2.
  apply match_exp_length in E3.
  destruct frac, exp; intros [= <-]; try (simpl; lia).
  unfold Decoder.parse_int.
  destruct (max_str_digits <? length ds)%nat; simpl; [auto|lia].
Qed.

Lemma literal_well (word : string) (value : pyval) (s : pystr)
    (otherwise : Decoder.scanned) :
  (1 <= length (str word))%nat ->
  scans_well s otherwise -> scans_well s (Decoder.literal word value s otherwise).
Proof.
  intros Hword Hother. unfold Decoder.literal.
  destruct (strip_prefix (str word) s) as [rest|] eqn:E; [|exact Hother].
  apply strip_prefix_length in E. simpl. lia.
Qed.

Lemma scans_well_longer (s s' : pystr) (o : Decoder.scanned) :
  scans_well s o -> (length s <= length s')%nat -> scans_well s' o.
Proof. destruct o as [[v rest]| e |]; simpl; auto. lia. Qed.

Section ContainersTotal.

Variable scan : pystr -> Decoder.scanned.
Variable bound : nat.
Hypothesis scan_well :
  forall s, (length s <= bound)%nat -> scans_well s (scan s).

Lemma array_loop_well (n : nat) :
  forall (s : pystr) (values : list pyval),
    (length s <= bound)%nat -> (length s < n)%nat ->
    scans_well (0 :: s) (Decoder.array_loop scan n s values).
Proof.
  induction n as [|n IH]; intros s values Hb Hn; [lia|].
  cbn [Decoder.array_loop].
  pose proof (scan_well s Hb) as Hs.
  destruct (scan s) as [[value s1]| e |]; cbn [scans_well] in Hs;
    [| destruct Hs as [-> | [-> | [-> | ->]]]; simpl; auto | contradiction].
  pose proof (skip_ws_length s1) as Hs1.
  destruct (Decoder.skip_ws s1) as [|nextchar s2]; [simpl; auto|].
  cbn [length] in Hs1.
  destruct (nextchar =? 93); [simpl; lia|].
  destruct (nextchar =? 44); [|simpl; auto].
  pose proof (skip_ws_length s2) as Hs2.
  specialize (IH (Decoder.skip_ws s2) (values ++ [value])
                ltac:(lia) ltac:(lia)).
  destruct (Decoder.array_loop scan n (Decoder.skip_ws s2) (values ++ [value]))
    as [[v rest]| e |]; simpl in *; auto. lia.
Qed.

Lemma JSONArray_well (s : pystr) :
  (length s <= bound)%nat -> scans_well (0 :: s) (Decoder.JSONArray scan s).
Proof.
  intros Hb. unfold Decoder.JSONArray.
  pose proof (skip_ws_length s) as Hws.
  destruct (Decoder.skip_ws s) as [|nextchar s1] eqn:E.
  - apply (scans_well_longer [0]); [|simpl; lia].
    apply (array_loop_well (S (length s)) [] []); simpl; lia.
  - destruct (nextchar =? 93); [simpl in *; lia|].
    apply (scans_well_longer (0 :: nextchar :: s1)); [|simpl in *; lia].
    apply array_loop_well; lia.
Qed.

Lemma object_loop_well (n : nat) :
  forall (s : pystr) (pairs : list (pystr * pyval)),
    (length s <= bound)%nat -> (length s < n)%nat ->
    scans_well (0 :: s) (Decoder.object_loop scan n s pairs).
Proof.
  induction n as [|n IH]; intros s pairs Hb Hn; [lia|].
  cbn [Decoder.object_loop].
  pose proof (scanstring_well s) as Hkey.
  destruct (Decoder.scanstring s) as [[key s1]| e |];
    cbn [string_scans_well] in Hkey; [| subst e; simpl; auto | contradiction].
  pose proof (skip_ws_length s1) as Hs1.
  destruct (Decoder.skip_ws s1) as [|colon s2]; [simpl; auto|].
  cbn [length] in Hs1.
  destruct (colon =? 58); [|simpl; auto].
  pose proof (skip_ws_length s2) as Hs2.
  pose proof (scan_well (Decoder.skip_ws s2) ltac:(lia)) as Hvalue.
  destruct (scan (Decoder.skip_ws s2)) as [[value s3]| e |];
    cbn [scans_well] in Hvalue;
    [| destruct Hvalue as [-> | [-> | [-> | ->]]]; simpl; auto | contradiction].
  pose proof (skip_ws_length s3) as Hs3.
  destruct (Decoder.skip_ws s3) as [|nextchar s4]; [simpl; auto|].
  cbn [length] in Hs3.
  destruct (nextchar =? 125); [simpl; lia|].
  destruct (nextchar =? 44); [|simpl; auto].
  pose proof (skip_ws_length s4) as Hs4.
  destruct (Decoder.skip_ws s4) as [|quote s5]; [simpl; auto|].
  cbn [length] in Hs4.
  destruct (quote =? 34); [|simpl; auto].
  specialize (IH s5 (pairs ++ [(key, value)]) ltac:(lia) ltac:(lia)).
  destruct (Decoder.object_loop scan n s5 (pairs ++ [(key, value)]))
    as [[v rest]| e |]; simpl in *; auto. lia.
Qed.

Lemma JSONObject_well (s : pystr) :
  (length s <= bound)%nat -> scans_well (0 :: s) (Decoder.JSONObject scan s).
Proof.
  intros Hb. unfold Decoder.JSONObject.
  pose proof (skip_ws_length s) as Hws.
  destruct (Decoder.skip_ws s) as [|nextchar s1]; [simpl; auto|].
  cbn [length] in Hws.
  destruct (nextchar =? 34).
  - apply (scans_well_longer (0 :: s1)); [|simpl in *; lia].
    apply object_loop_well; lia.
  - destruct (nextchar =? 125); simpl; auto.
Qed.

End ContainersTotal.

(** Whatever the depth allowed, the scanner returns or raises; the loops
    of the embedding never run out of iterations. *)
Lemma scan_once_well (depth : nat) :
  forall s, scans_well s (Decoder.scan_once depth s).
Proof.
  induction depth as [|depth IH]; intros s;
    (destruct s as [|nextchar r]; [simpl; auto|]);
    cbn [Decoder.scan_once];
    (destruct (nextchar =? 34);
     [pose proof (scanstring_well r) as Hr;
      destruct (Decoder.scanstring r) as [[chars rest]| e |]; simpl in *;
      [lia | auto | contradiction]|]);
    (destruct (nextchar =? 123);
     [first [ solve [simpl; auto]
            | apply (scans_well_longer (0 :: r)); [|simpl; lia];
              apply (JSONObject_well _ (length r)); [|lia];
              intros s' Hs'; apply IH ]|]);
    (destruct (nextchar =? 91);
     [first [ solve [simpl; auto]
            | apply (scans_well_longer (0 :: r)); [|simpl; lia];
              apply (JSONArray_well _ (length r)); [|lia];
              intros s' Hs'; apply IH ]|]);
    repeat (apply literal_well; [simpl; lia|]);
    (destruct (Decoder.scan_number (nextchar :: r)) as [res|] eqn:E;
     [apply scan_number_well in E; exact E|]);
    repeat (apply literal_well; [simpl; lia|]); simpl; auto.
Qed.

Lemma decode_returns_or_raises (s : pystr) :
  (exists v, Decoder.decode s = Ret v)
  \/ Decoder.decode s = Raise JSONDecodeError
  \/ Decoder.decode s = Raise RecursionError
  \/ Decoder.decode s = Raise ValueError.
Proof.
  unfold Decoder.decode.
  pose proof (scan_once_well recursion_limit (Decoder.skip_ws s)) as H.
  destruct (Decoder.scan_once recursion_limit (Decoder.skip_ws s))
    as [[obj rest]| e |]; cbn [scans_well] in H.
  - destruct (Decoder.skip_ws rest); eauto.
  - destruct H as [-> | [-> | [-> | ->]]]; auto.
  - contradiction.
Qed.

Lemma loads_returns_or_raises (data : option pystr) :
  (exists v, Decoder.loads data = Ret v)
  \/ Decoder.loads data = Raise JSONDecodeError
  \/ Decoder.loads data = Raise TypeError
  \/ Decoder.loads data = Raise RecursionError
  \/ Decoder.loads data = Raise ValueError.
Proof.
  destruct data as [s|]; [|auto]. cbn [Decoder.loads].
  destruct (decode_returns_or_raises s) as [H | [H | [H | H]]];
    (destruct s as [|c r]; [auto 6|]); destruct (c =? 65279); auto 6.
Qed.

(* ================================================================== *)
(** ** The encoder returns the text of the value, or raises *)

Lemma encode_each_text {A : Type} (encode : A -> outcome pystr)
    (text : A -> pystr) (items : list A) (chunks : list pystr) :
  (forall x chunk, In x items -> encode x = Ret chunk -> chunk = text x) ->
  Encoder.encode_each encode items = Ret chunks -> chunks = map text items.
Proof.
  revert chunks. induction items as [|x items IH]; intros chunks Hx;
    cbn [Encoder.encode_each].
  - intros [= <-]. reflexivity.
  - destruct (encode x) as [chunk| e |] eqn:E; cbn [obind]; try discriminate.
    destruct (Encoder.encode_each encode items) as [cs| e |] eqn:Es;
      cbn [obind]; try discriminate.
    intros [= <-]. cbn [map]. f_equal.
    + apply Hx; [now left|exact E].
    + apply IH; [|reflexivity]. intros y c Hy. apply Hx. now right.
Qed.

Lemma int_repr_text (n : Z) (t : pystr) :
  Encoder.int_repr n = Ret t -> t = Encoder.decimal n.
Proof.
  unfold Encoder.int_repr, Encoder.decimal.
  destruct (Z.to_int n) as [u|u];
    destruct (max_str_digits <? length (Encoder.digits_of_uint u))%nat;
    try discriminate; intros [= <-]; reflexivity.
Qed.

(** Whenever the encoder returns, whatever the depth allowed, it returns
    the text of the value. *)
Lemma iterencode_text (depth : nat) :
  forall (v : pyval) (t : pystr),
    Encoder.iterencode depth v = Ret t -> t = json_text v.
Proof.
  induction depth as [|depth IH]; intros v t;
    destruct v as [| [|] | n | l | s | items | pairs];
    cbn [Encoder.iterencode json_text];
    try (intros [= <-]; reflexivity); try discriminate; try apply int_repr_text.
  - destruct (Encoder.encode_each (Encoder.iterencode depth) items)
      as [chunks| e |] eqn:E; cbn [obind]; try discriminate.
    intros [= <-].
    apply (encode_each_text _ json_text) in E; [rewrite E; reflexivity|].
    intros x chunk _. apply IH.
  - match goal with
    | |- obind ?m _ = _ -> _ => destruct m as [chunks| e |] eqn:E
    end; cbn [obind]; try discriminate.
    intros [= <-].
    apply (encode_each_text _ member) in E; [rewrite E; reflexivity|].
    intros [k x] chunk _. cbn beta iota.
    destruct (Encoder.iterencode depth x) as [c| e |] eqn:Ex; cbn [obind];
      try discriminate.
    intros [= <-]. unfold member. rewrite (IH x c Ex). reflexivity.
Qed.

Lemma encode_each_returns {A : Type} (encode : A -> outcome pystr)
    (text : A -> pystr) (items : list A) :
  (forall x, In x items -> encode x = Ret (text x)) ->
  Encoder.encode_each encode items = Ret (map text items).
Proof.
  induction items as [|x items IH]; intros Hx; cbn [Encoder.encode_each map];
    [reflexivity|].
  rewrite Hx by (now left). cbn [obind].
  rewrite IH by (intros y Hy; apply Hx; now right). reflexivity.
Qed.

(** The encoder returns on a value without numbers when it is allowed the
    nesting of the value. *)
Lemma iterencode_plain (v : pyval) :
  plain v = true ->
  forall depth : nat, (nesting v <= depth)%nat ->
  Encoder.iterencode depth v = Ret (json_text v).
Proof.
  induction v as [| b | n | l | s | items IH | pairs IH] using pyval_nested_ind;
    intros Hv depth Hd; try discriminate.
  - destruct depth; reflexivity.
  - destruct b, depth; reflexivity.
  - destruct depth; reflexivity.
  - cbn [nesting] in Hd. destruct depth as [|depth]; [lia|].
    cbn [plain] in Hv. rewrite forallb_forall in Hv. rewrite Forall_forall in IH.
    cbn [Encoder.iterencode].
    rewrite (encode_each_returns _ json_text); [reflexivity|].
    intros x Hx. apply (IH x Hx (Hv x Hx)).
    pose proof (nesting_item items x Hx). lia.
  - cbn [nesting] in Hd. destruct depth as [|depth]; [lia|].
    cbn [plain] in Hv. rewrite forallb_forall in Hv. rewrite Forall_forall in IH.
    cbn [Encoder.iterencode].
    rewrite (encode_each_returns _ member); [reflexivity|].
    intros [k x] Hx. cbn beta iota.
    rewrite (IH _ Hx (Hv _ Hx)); [reflexivity|].
    pose proof (nesting_member pairs k x Hx). cbn [snd]. lia.
Qed.

Lemma encode_each_too_deep {A : Type} (encode : A -> outcome pystr)
    (size : A -> nat) (depth : nat) (items : list A) :
  (forall x, In x items ->
             ((size x <= depth)%nat -> exists chunk, encode x = Ret chunk)
             /\ ((depth < size x)%nat -> encode x = Raise RecursionError)) ->
  (depth < fold_right (fun x n => Nat.max (size x) n) 0 items)%nat ->
  Encoder.encode_each encode items = Raise RecursionError.
Proof.
  induction items as [|x items IH]; intros Hx Hdeep; cbn [fold_right] in Hdeep;
    [lia|].
  cbn [Encoder.encode_each].
  destruct (Nat.ltb_spec depth (size x)) as [Hlt|Hle].
  - rewrite (proj2 (Hx x (or_introl eq_refl)) Hlt). reflexivity.
  - destruct (proj1 (Hx x (or_introl eq_refl)) Hle) as [chunk ->]. cbn [obind].
    rewrite IH; [reflexivity| |lia].
    intros y Hy. apply Hx. now right.
Qed.

(** The encoder raises [RecursionError] on a value without numbers that is
    nested deeper than it is allowed. *)
Lemma iterencode_too_deep (v : pyval) :
  plain v = true ->
  forall depth : nat, (depth < nesting v)%nat ->
  Encoder.iterencode depth v = Raise RecursionError.
Proof.
  induction v as [| b | n | l | s | items IH | pairs IH] using pyval_nested_ind;
    intros Hv depth Hd; try discriminate; try (cbn [nesting] in Hd; lia).
  - cbn [nesting] in Hd. destruct depth as [|depth]; [reflexivity|].
    cbn [plain] in Hv. rewrite forallb_forall in Hv. rewrite Forall_forall in IH.
    cbn [Encoder.iterencode].
    rewrite (encode_each_too_deep _ nesting depth); [reflexivity| |lia].
    intros x Hx. split; intros H.
    + eexists. apply iterencode_plain; [apply Hv, Hx|exact H].
    + apply (IH x Hx (Hv x Hx)). exact H.
  - cbn [nesting] in Hd. destruct depth as [|depth]; [reflexivity|].
    cbn [plain] in Hv. rewrite forallb_forall in Hv. rewrite Forall_forall in IH.
    cbn [Encoder.iterencode].
    rewrite (encode_each_too_deep _ (fun kv => let '(_, x) := kv in nesting x)
               depth); [reflexivity| |lia].
    intros [k x] Hx. cbn beta iota. split; intros H.
    + eexists. rewrite iterencode_plain; [reflexivity|exact (Hv _ Hx)|exact H].
    + rewrite (IH _ Hx (Hv _ Hx)); [reflexivity|exact H].
Qed.

Lemma dumps_plain (v : pyval) :
  plain v = true -> (nesting v <= recursion_limit)%nat ->
  Encoder.dumps v = Ret (json_text v).
Proof. intros Hv Hd. apply iterencode_plain; assumption. Qed.

Lemma dumps_too_deep (v : pyval) :
  plain v = true -> (recursion_limit < nesting v)%nat ->
  Encoder.dumps v = Raise RecursionError.
Proof. intros Hv Hd. apply iterencode_too_deep; assumption. Qed.

Lemma dumps_text (v : pyval) (text : pystr) :
  Encoder.dumps v = Ret text -> text = json_text v.
Proof. apply iterencode_text. Qed.

(* ================================================================== *)
(** ** The decoder reads through the text of a value without numbers *)

Lemma decode_hex4_any (n : Z) :
  exists h1 h2 h3 h4,
    Encoder.hex4 n = [h1; h2; h3; h4]
    /\ Decoder.decode_uXXXX h1 h2 h3 h4 = Some (n mod 65536).
Proof.
  unfold Encoder.hex4. do 4 eexists. split; [reflexivity|].
  unfold Decoder.decode_uXXXX.
  rewrite !land_15, !Z.shiftr_div_pow2 by lia.
  change (2 ^ 12) with 4096. change (2 ^ 8) with 256. change (2 ^ 4) with 16.
  rewrite !hexval_hexdigit by euclid.
  f_equal. euclid.
Qed.

Lemma scanstring_hex_any (n : Z) (tail : pystr) :
  Decoder.scanstring ([92; 117] ++ Encoder.hex4 n ++ tail)
  = if (55296 <=? n mod 65536) && (n mod 65536 <=? 56319) then
      match tail with
      | b :: u :: r3 =>
          if (b =? 92) && (u =? 117) then
            match r3 with
            | k1 :: k2 :: k3 :: k4 :: r4 =>
                match Decoder.decode_uXXXX k1 k2 k3 k4 with
                | None => Raise JSONDecodeError
                | Some uni2 =>
                    if (56320 <=? uni2) && (uni2 <=? 57343) then
                      Decoder.push (65536 + Z.lor (Z.shiftl (n mod 65536 - 55296) 10)
                                              (uni2 - 56320))
                        (Decoder.scanstring r4)
                    else Decoder.push (n mod 65536) (Decoder.scanstring tail)
                end
            | _ => Raise JSONDecodeError
            end
          else Decoder.push (n mod 65536) (Decoder.scanstring tail)
      | _ => Decoder.push (n mod 65536) (Decoder.scanstring tail)
      end
    else Decoder.push (n mod 65536) (Decoder.scanstring tail).
Proof.
  destruct (decode_hex4_any n) as (h1 & h2 & h3 & h4 & Hhex & Hdec).
  rewrite Hhex. cbn [app Decoder.scanstring]. cbn [Z.eqb Pos.eqb].
  rewrite Hdec. reflexivity.
Qed.

Lemma scanstring_as_is (c : Z) (r : pystr) :
  c <> 34 -> c <> 92 -> 32 <= c ->
  Decoder.scanstring (c :: r) = Decoder.push c (Decoder.scanstring r).
Proof.
  intros H34 H92 H32. cbn [Decoder.scanstring].
  rewrite (proj2 (Z.eqb_neq c 34) H34), (proj2 (Z.eqb_neq c 92) H92).
  replace ((0 <=? c) && (c <=? 31)) with false by lia. reflexivity.
Qed.

Lemma scanstring_short (esc char : Z) (r : pystr) :
  esc <> 117 -> Decoder.BACKSLASH esc = Some char ->
  Decoder.scanstring (92 :: esc :: r) = Decoder.push char (Decoder.scanstring r).
Proof.
  intros H117 Hchar. cbn [Decoder.scanstring]. cbn [Z.eqb Pos.eqb].
  rewrite (proj2 (Z.eqb_neq esc 117) H117), Hchar. reflexivity.
Qed.

Lemma surrogate_high_any (n : Z) :
  Z.lor 55296 (Z.land (Z.shiftr n 10) 1023) = 55296 + (n / 1024) mod 1024.
Proof.
  rewrite land_1023, Z.shiftr_div_pow2 by lia. change (2 ^ 10) with 1024.
  change 55296 with (Z.shiftl 54 10) at 1.
  rewrite lor_high_low by euclid. lia.
Qed.

Lemma surrogate_low_any (n : Z) :
  Z.lor 56320 (Z.land n 1023) = 56320 + n mod 1024.
Proof.
  rewrite land_1023. change 56320 with (Z.shiftl 55 10) at 1.
  rewrite lor_high_low by euclid. lia.
Qed.

(** The shapes of the replacement of a character: the character itself, a
    short escape, one [\uXXXX], or a pair of surrogates. *)
Lemma escape_shape (c : Z) :
  (Encoder.escape c = [c] /\ c <> 34 /\ c <> 92 /\ 32 <= c)
  \/ (exists esc char,
        Encoder.escape c = [92; esc] /\ esc <> 117
        /\ Decoder.BACKSLASH esc = Some char)
  \/ Encoder.escape c = [92; 117] ++ Encoder.hex4 c
  \/ (exists hi lo,
        Encoder.escape c
        = [92; 117] ++ Encoder.hex4 hi ++ [92; 117] ++ Encoder.hex4 lo
        /\ 55296 <= hi <= 56319 /\ 56320 <= lo <= 57343).
Proof.
  assert (Hshort : forall esc char,
            esc <> 117 -> Decoder.BACKSLASH esc = Some char ->
            exists esc' char',
              [92; esc] = [92; esc'] /\ esc' <> 117
              /\ Decoder.BACKSLASH esc' = Some char')
    by (intros esc char H1 H2; exists esc, char; auto).
  unfold Encoder.escape.
  destruct (Z.eqb_spec c 92);
    [right; left; apply (Hshort 92 92); [discriminate|reflexivity]|].
  destruct (Z.eqb_spec c 34);
    [right; left; apply (Hshort 34 34); [discriminate|reflexivity]|].
  destruct ((32 <=? c) && (c <=? 126)) eqn:Hp; [left; repeat split; lia|].
  destruct (c =? 8);
    [right; left; apply (Hshort 98 8); [discriminate|reflexivity]|].
  destruct (c =? 12);
    [right; left; apply (Hshort 102 12); [discriminate|reflexivity]|].
  destruct (c =? 10);
    [right; left; apply (Hshort 110 10); [discriminate|reflexivity]|].
  destruct (c =? 13);
    [right; left; apply (Hshort 114 13); [discriminate|reflexivity]|].
  destruct (c =? 9);
    [right; left; apply (Hshort 116 9); [discriminate|reflexivity]|].
  destruct (c <? 65536); [right; right; left; reflexivity|].
  right; right; right. cbv zeta. eexists _, _. split; [reflexivity|].
  rewrite surrogate_high_any, surrogate_low_any. split; euclid.
Qed.

Lemma scanstring_escaped_any_bounded (n : nat) :
  forall s : pystr, (length s <= n)%nat ->
  forall rest : pystr,
  exists s' : pystr,
    Decoder.scanstring (flat_map Encoder.escape s ++ 34 :: rest) = Ret (s', rest).
Proof.
  induction n as [|n IH]; intros s Hs rest.
  { destruct s; [|simpl in Hs; lia]. exists []. reflexivity. }
  destruct s as [|c s1]; [exists []; reflexivity|].
  cbn [length] in Hs.
  destruct (IH s1 ltac:(lia) rest) as [s1' Hs1'].
  cbn [flat_map]. rewrite <- app_assoc.
  assert (Hpush : forall x,
            exists s',
              Decoder.push x
                (Decoder.scanstring (flat_map Encoder.escape s1 ++ 34 :: rest))
              = Ret (s', rest))
    by (intros x; rewrite Hs1'; eexists; reflexivity).
  destruct (escape_shape c)
    as [(E & H34 & H92 & H32)
       | [(esc & char & E & Hesc & Hchar) | [E | (hi & lo & E & Hhi & Hlo)]]];
    rewrite E.
  - cbn [app]. rewrite scanstring_as_is by assumption. apply Hpush.
  - cbn [app]. rewrite (scanstring_short esc char) by assumption. apply Hpush.
  - rewrite <- app_assoc, scanstring_hex_any.
    destruct ((55296 <=? c mod 65536) && (c mod 65536 <=? 56319));
      [|apply Hpush].
    destruct s1 as [|c2 s2].
    + cbn [flat_map app] in *. destruct rest as [|u r3]; [apply Hpush|].
      cbn [Z.eqb Pos.eqb andb]. apply Hpush.
    + cbn [flat_map] in *. rewrite <- app_assoc in *.
      cbn [length] in Hs.
      destruct (IH s2 ltac:(lia) rest) as [s2' Hs2'].
      destruct (escape_shape c2)
        as [(E2 & G34 & G92 & G32)
           | [(esc & char & E2 & Gesc & Gchar)
             | [E2 | (hi & lo & E2 & Ghi & Glo)]]];
        rewrite E2 in *.
      * cbn [app] in *.
        destruct (flat_map Encoder.escape s2 ++ 34 :: rest) as [|u r3];
          [apply Hpush|].
        rewrite (proj2 (Z.eqb_neq c2 92) G92). cbn [andb]. apply Hpush.
      * cbn [app] in *. rewrite (proj2 (Z.eqb_neq esc 117) Gesc).
        rewrite andb_false_r. apply Hpush.
      * destruct (decode_hex4_any c2) as (k1 & k2 & k3 & k4 & Hk & Hdec).
        rewrite Hk in *. cbn [app] in *. cbn [Z.eqb Pos.eqb andb].
        rewrite Hdec.
        destruct ((56320 <=? c2 mod 65536) && (c2 mod 65536 <=? 57343));
          [|apply Hpush].
        rewrite Hs2'. eexists. reflexivity.
      * destruct (decode_hex4_any hi) as (k1 & k2 & k3 & k4 & Hk & Hdec).
        rewrite <- !app_assoc in *. rewrite Hk in *. cbn [app] in *.
        cbn [Z.eqb Pos.eqb andb]. rewrite Hdec.
        rewrite Z.mod_small by lia.
        replace ((56320 <=? hi) && (hi <=? 57343)) with false by lia.
        apply Hpush.
  - rewrite <- !app_assoc. rewrite scanstring_hex_any.
    rewrite Z.mod_small by lia.
    replace ((55296 <=? hi) && (hi <=? 56319)) with true by lia.
    destruct (decode_hex4_any lo) as (k1 & k2 & k3 & k4 & Hk & Hdec).
    rewrite Hk. cbn [app]. cbn [Z.eqb Pos.eqb andb]. rewrite Hdec.
    rewrite Z.mod_small by lia.
    replace ((56320 <=? lo) && (lo <=? 57343)) with true by lia.
    rewrite Hs1'. eexists. reflexivity.
Qed.

(** The decoder reads an encoded string to its closing quote, whatever the
    code points encoded. *)
Lemma scanstring_escaped_any (s rest : pystr) :
  exists s' : pystr,
    Decoder.scanstring (flat_map Encoder.escape s ++ 34 :: rest) = Ret (s', rest).
Proof. apply (scanstring_escaped_any_bounded (length s)). lia. Qed.

Section ContainersThrough.

Variable scan : pystr -> Decoder.scanned.

Lemma array_loop_through (items : list pyval) :
  Forall (reads_through scan) items ->
  Forall (fun x => plain x = true) items ->
  items <> [] ->
  forall (n : nat) (acc : list pyval) (rest : pystr),
    (length items <= n)%nat ->
    exists ws : list pyval,
      Decoder.array_loop scan n
        (join (str ", ") (map json_text items) ++ 93 :: rest) acc
      = Ret (PList ws, rest).
Proof.
  induction 1 as [|x items Hx Hitems IH]; intros Htext Hne n acc rest Hn;
    [congruence|].
  inversion Htext as [|? ? Htx Htitems]; subst.
  destruct n as [|n]; [simpl in Hn; lia|].
  destruct items as [|y items].
  - cbn [map join Decoder.array_loop].
    destruct (Hx (93 :: rest)) as [w ->]. cbn. eexists. reflexivity.
  - change (join (str ", ") (map json_text (x :: y :: items)))
      with (json_text x
            ++ str ", " ++ join (str ", ") (map json_text (y :: items))).
    rewrite <- !app_assoc. cbn [Decoder.array_loop].
    destruct (Hx (str ", " ++ join (str ", ") (map json_text (y :: items))
                  ++ 93 :: rest)) as [w ->].
    cbn [str list_ascii_of_string map app Decoder.skip_ws].
    change (ord ",") with 44. change (ord " ") with 32.
    cbn [Decoder.is_ws Decoder.skip_ws Z.eqb Pos.eqb orb].
    rewrite skip_ws_solid.
    2:{ apply (join_solid (str ", ") (json_text y)).
        apply text_solid. inversion Htitems; assumption. }
    apply (IH Htitems ltac:(discriminate) n (acc ++ [w]) rest).
    simpl in *; lia.
Qed.

Lemma object_loop_member_through (k : pystr) (x : pyval) :
  reads_through scan x -> plain x = true ->
  forall (n : nat) (acc : list (pystr * pyval)) (tail : pystr),
  exists (k' : pystr) (w : pyval),
    Decoder.object_loop scan (S n)
      (flat_map Encoder.escape k ++ 34 :: 58 :: 32 :: json_text x ++ tail) acc
    = match Decoder.skip_ws tail with
      | [] => Raise JSONDecodeError
      | nextchar :: s4 =>
          if nextchar =? 125 then
            Ret (PDict (dict_of_pairs (acc ++ [(k', w)])), s4)
          else if nextchar =? 44 then
            match Decoder.skip_ws s4 with
            | [] => Raise JSONDecodeError
            | quote :: s5 =>
                if quote =? 34
                then Decoder.object_loop scan n s5 (acc ++ [(k', w)])
                else Raise JSONDecodeError
            end
          else Raise JSONDecodeError
      end.
Proof.
  intros Hx Htx n acc tail.
  destruct (scanstring_escaped_any k (58 :: 32 :: json_text x ++ tail))
    as [k' Hk'].
  destruct (Hx tail) as [w Hw]. exists k', w.
  cbn [Decoder.object_loop]. rewrite Hk'.
  cbn [Decoder.skip_ws Decoder.is_ws Z.eqb Pos.eqb orb].
  rewrite skip_ws_solid by (apply starts_solid_app, text_solid, Htx).
  rewrite Hw. reflexivity.
Qed.

Lemma object_loop_through (pairs : list (pystr * pyval)) :
  Forall (fun kv => reads_through scan (snd kv)) pairs ->
  Forall (fun kv => plain (snd kv) = true) pairs ->
  pairs <> [] ->
  forall (n : nat) (acc : list (pystr * pyval)) (rest t : pystr),
    (length pairs <= n)%nat ->
    34 :: t = join (str ", ") (map member pairs) ++ 125 :: rest ->
    exists w : pyval, Decoder.object_loop scan n t acc = Ret (w, rest).
Proof.
  induction 1 as [|[k x] pairs Hx Hpairs IH]; intros Htext Hne n acc rest t Hn Ht;
    [congruence|].
  inversion Htext as [|? ? Htx Htpairs]; subst. cbn [fst snd] in *.
  destruct n as [|n]; [simpl in Hn; lia|].
  destruct pairs as [|p pairs].
  - cbn [map join] in Ht. rewrite member_text in Ht.
    injection Ht as ->.
    destruct (object_loop_member_through k x Hx Htx n acc (125 :: rest))
      as (k' & w & ->).
    eexists. reflexivity.
  - assert (Et : 34 :: t
                 = 34 :: flat_map Encoder.escape k ++ 34 :: 58 :: 32
                      :: json_text x
                      ++ 44 :: 32 :: (join (str ", ") (map member (p :: pairs))
                                      ++ 125 :: rest)).
    { rewrite Ht.
      change (join (str ", ") (map member ((k, x) :: p :: pairs)))
        with (member (k, x)
              ++ str ", " ++ join (str ", ") (map member (p :: pairs))).
      rewrite <- app_assoc, member_text. reflexivity. }
    apply (f_equal (@tl Z)) in Et. cbn [tl] in Et. rewrite Et.
    destruct (object_loop_member_through k x Hx Htx n acc
                (44 :: 32 :: (join (str ", ") (map member (p :: pairs))
                              ++ 125 :: rest)))
      as (k' & w & ->).
    destruct (member_head p pairs (125 :: rest)) as [t' Ht'].
    rewrite Ht'.
    cbn [str list_ascii_of_string map app Decoder.skip_ws].
    change (ord ",") with 44. change (ord " ") with 32.
    cbn [Decoder.is_ws Decoder.skip_ws Z.eqb Pos.eqb orb].
    apply (IH Htpairs ltac:(discriminate) n (acc ++ [(k', w)]) rest t').
    + simpl in *; lia.
    + symmetry; exact Ht'.
Qed.

End ContainersThrough.

(** The scanner reads through the text of a value without numbers when it
    is allowed the nesting of the value, whatever the code points of its
    strings. *)
Lemma scan_once_plain (v : pyval) :
  plain v = true ->
  forall d : nat, (nesting v <= d)%nat ->
  reads_through (Decoder.scan_once d) v.
Proof.
  induction v as [| b | n | l | s | items IH | pairs IH] using pyval_nested_ind;
    intros Htext d Hd rest; try discriminate.
  - destruct d; eexists; reflexivity.
  - destruct b, d; eexists; reflexivity.
  - cbn [json_text]. unfold Encoder.encode_basestring_ascii.
    rewrite <- !app_assoc.
    destruct (scanstring_escaped_any s rest) as [s' Hs'].
    exists (PStr s').
    destruct d; cbn [app Decoder.scan_once Z.eqb Pos.eqb];
      rewrite Hs'; reflexivity.
  - cbn [nesting] in Hd. destruct d as [|d]; [lia|].
    cbn [plain] in Htext. rewrite forallb_forall in Htext.
    rewrite dumps_list in *. cbn [app]. rewrite <- app_assoc. cbn [app].
    cbn [Decoder.scan_once Z.eqb Pos.eqb].
    destruct items as [|x items]; [eexists; reflexivity|].
    rewrite JSONArray_nonempty.
    2:{ apply (join_solid _ (json_text x)), text_solid, Htext. now left. }
    edestruct (array_loop_through (Decoder.scan_once d) (x :: items))
      as [ws Hws]; [| | |
                    | rewrite Hws; eexists; reflexivity]; try discriminate.
    + rewrite Forall_forall in IH |- *. intros y Hy. apply (IH y Hy (Htext y Hy)).
      pose proof (nesting_item (x :: items) y Hy) as Hlen.
      lia.
    + apply Forall_forall. exact Htext.
    + rewrite length_app.
      pose proof (join_length (str ", ") (map json_text (x :: items))) as Hlen.
      rewrite length_map in Hlen.
      assert (Forall (fun c => 1 <= length c)%nat
                (map json_text (x :: items))).
      { apply Forall_forall. intros c Hc. apply in_map_iff in Hc as (y & <- & Hy).
        apply text_nonempty, Htext, Hy. }
      specialize (Hlen H). lia.
  - cbn [nesting] in Hd. destruct d as [|d]; [lia|].
    cbn [plain] in Htext. rewrite forallb_forall in Htext.
    rewrite dumps_dict in *. cbn [app]. rewrite <- app_assoc. cbn [app].
    cbn [Decoder.scan_once Z.eqb Pos.eqb].
    destruct pairs as [|p pairs]; [eexists; reflexivity|].
    destruct (member_head p pairs (125 :: rest)) as [t Ht].
    unfold Decoder.JSONObject. rewrite Ht.
    cbn [Decoder.skip_ws Decoder.is_ws Z.eqb Pos.eqb orb].
    apply object_loop_through with (pairs := p :: pairs); try discriminate.
    + rewrite Forall_forall in IH |- *. intros [k y] Hy. cbn [snd].
      apply (IH _ Hy (Htext _ Hy)).
      pose proof (nesting_member (p :: pairs) k y Hy) as Hlen.
      cbn [snd]. lia.
    + apply Forall_forall. intros [k y] Hy. exact (Htext _ Hy).
    + pose proof (join_length (str ", ") (map member (p :: pairs))) as Hlen.
      rewrite length_map in Hlen.
      assert (Forall (fun c => 1 <= length c)%nat (map member (p :: pairs))).
      { apply Forall_forall. intros c Hc. apply in_map_iff in Hc as ([k y] & <- & Hy).
        unfold member, Encoder.encode_basestring_ascii. rewrite !length_app.
        simpl. lia. }
      specialize (Hlen H).
      apply (f_equal (@length Z)) in Ht. rewrite length_app in Ht.
      cbn [length] in *. lia.
    + symmetry. exact Ht.
Qed.

Lemma loads_plain (v : pyval) :
  plain v = true -> (nesting v <= recursion_limit)%nat ->
  exists w : pyval, Decoder.loads (Some (json_text v)) = Ret w.
Proof.
  intros Htext Hdepth. pose proof (text_solid v Htext) as Hsolid.
  assert (Hdec : exists w, Decoder.decode (json_text v) = Ret w).
  { unfold Decoder.decode. rewrite skip_ws_solid by exact Hsolid.
    destruct (scan_once_plain v Htext recursion_limit Hdepth []) as [w Hscan].
    rewrite app_nil_r in Hscan. rewrite Hscan. exists w. reflexivity. }
  unfold Decoder.loads. destruct (json_text v) as [|c r]; [contradiction|].
  destruct Hsolid as (_ & _ & Hbom).
  rewrite (proj2 (Z.eqb_neq c 65279) Hbom). exact Hdec.
Qed.

(* ================================================================== *)
(** ** The record built by [edit_portfolio] *)

Lemma sections_keys (form : Form) (T : pystr) :
  keys (sections form T)
  = base_keys
    ++ (if str_in T ["Paid"; "Premium"]%string then [str "paid_pages"] else [])
    ++ (if str_eqb T (str "Premium") then [str "premium_pages"] else []).
Proof.
  unfold sections.
  destruct (str_in T ["Paid"; "Premium"]%string), (str_eqb T (str "Premium"));
    reflexivity.
Qed.

(** C1. For each of the tiers Free, Paid and Premium and every form, the
    keys of the record that the POST branch of [edit_portfolio] assembles
    are exactly header, about, projects, skills and contact, plus paid_pages
    if and only if the tier is Paid or Premium, plus premium_pages if and
    only if the tier is Premium; no key occurs twice. *)
Theorem sections_keys_by_tier (form : Form) (T : pystr) :
  In T tiers ->
  NoDup (keys (sections form T))
  /\ forall k : pystr,
       In k (keys (sections form T))
       <-> In k base_keys
           \/ (k = str "paid_pages" /\ (T = str "Paid" \/ T = str "Premium"))
           \/ (k = str "premium_pages" /\ T = str "Premium").
Proof.
  intros HT. rewrite sections_keys.
  assert (Hnodup : forall l : list pystr, keys_distinct l = true -> NoDup l).
  { induction l as [|k l IH]; simpl; [constructor|].
    intros H. apply andb_true_iff in H as [Hk Hl]. constructor; [|auto].
    intros Hin. apply negb_true_iff in Hk.
    assert (existsb (str_eqb k) l = true); [|congruence].
    apply existsb_exists. exists k. split; [exact Hin|apply str_eqb_refl]. }
  destruct HT as [<- | [<- | [<- | []]]];
    (split; [apply Hnodup; reflexivity|]);
    intros k; cbn [str_in existsb]; 
    repeat match goal with
           | |- context [str_eqb ?a ?b] =>
               let v := eval vm_compute in (str_eqb a b) in
               change (str_eqb a b) with v
           end;
    cbn [orb app]; rewrite ?app_nil_r, ?in_app_iff; cbn [In];
    intuition (try discriminate; auto).
Qed.

Lemma sections_keys_by_tier_witness :
  In (str "Paid") tiers
  /\ In (str "paid_pages") (keys (sections form_ann (str "Paid")))
  /\ ~ In (str "premium_pages") (keys (sections form_ann (str "Paid"))).
Proof.
  assert (HT : In (str "Paid") tiers) by (right; left; reflexivity).
  split; [exact HT|]. split.
  - apply (proj2 (sections_keys_by_tier form_ann (str "Paid") HT)).
    right; left. split; [reflexivity|left; reflexivity].
  - intros Hin.
    apply (proj2 (sections_keys_by_tier form_ann (str "Paid") HT)) in Hin.
    vm_compute in Hin. intuition discriminate.
Defined.

Lemma form_get_text (form : Form) (name v : pystr) :
  form_text form = true -> form_get form name = Some v ->
  forallb scalarb v = true.
Proof.
  unfold form_text. induction form as [|[k x] form IH]; simpl; [discriminate|].
  intros H. apply andb_true_iff in H as [Hx Hform].
  destruct (str_eqb k name); [intros [= <-]; exact Hx|auto].
Qed.

Lemma field_textual (form : Form) (name : string) :
  form_text form = true -> textual (field form name) = true.
Proof.
  intros H. unfold field.
  destruct (form_get form (str name)) as [v|] eqn:E; [|reflexivity].
  exact (form_get_text form _ v H E).
Qed.

Lemma split_text (sep : Z) (s : pystr) :
  forallb scalarb s = true -> forallb textual (map PStr (split sep s)) = true.
Proof.
  induction s as [|c r IH]; [reflexivity|].
  cbn [forallb split]. intros H. apply andb_true_iff in H as [Hc Hr].
  specialize (IH Hr). destruct (c =? sep); [exact IH|].
  destruct (split sep r) as [|piece pieces]; simpl in *; [rewrite Hc; reflexivity|].
  rewrite Hc. exact IH.
Qed.

#[local] Arguments field : simpl never.

Lemma sections_textual (form : Form) (T : pystr) :
  form_text form = true -> textual (sections form T) = true.
Proof.
  intros Hform. unfold sections.
  assert (Hskills :
            textual match form_get form (str "skills") with
                    | Some (c :: r) => PList (map PStr (split 44 (c :: r)))
                    | _ => PList []
                    end = true).
  { destruct (form_get form (str "skills")) as [[|c r]|] eqn:E; try reflexivity.
    apply split_text. exact (form_get_text form _ _ Hform E). }
  destruct (str_in T ["Paid"; "Premium"]%string), (str_eqb T (str "Premium"));
    simpl; rewrite ?field_textual by exact Hform; simpl in Hskills |- *;
    rewrite Hskills; reflexivity.
Qed.

Lemma sections_plain (form : Form) (T : pystr) : plain (sections form T) = true.
Proof.
  assert (Hfield : forall name, plain (field form name) = true).
  { intros name. unfold field. destruct (form_get form (str name)); reflexivity. }
  assert (Hskills :
            plain match form_get form (str "skills") with
                  | Some (c :: r) => PList (map PStr (split 44 (c :: r)))
                  | _ => PList []
                  end = true).
  { destruct (form_get form (str "skills")) as [[|c r]|]; try reflexivity.
    cbn [plain]. apply forallb_forall. intros x Hx.
    apply in_map_iff in Hx as (piece & <- & _). reflexivity. }
  unfold sections.
  destruct (str_in T ["Paid"; "Premium"]%string), (str_eqb T (str "Premium"));
    simpl; rewrite ?Hfield; simpl in Hskills |- *; rewrite Hskills; reflexivity.
Qed.

(** The record built is three levels deep: the dict of a project inside
    the list of projects inside the record. *)
Lemma sections_nesting (form : Form) (T : pystr) :
  nesting (sections form T) = 3%nat.
Proof.
  assert (Hfield : forall name, nesting (field form name) = 0%nat).
  { intros name. unfold field. destruct (form_get form (str name)); reflexivity. }
  assert (Hpieces : forall pieces,
            fold_right (fun x n => Nat.max (nesting x) n) 0%nat
              (map PStr pieces) = 0%nat).
  { induction pieces as [|piece pieces IH]; [reflexivity|]. exact IH. }
  assert (Hskills :
            nesting match form_get form (str "skills") with
                    | Some (c :: r) => PList (map PStr (split 44 (c :: r)))
                    | _ => PList []
                    end = 1%nat).
  { destruct (form_get form (str "skills")) as [[|c r]|]; try reflexivity.
    cbn [nesting]. rewrite Hpieces. reflexivity. }
  unfold sections.
  destruct (str_in T ["Paid"; "Premium"]%string), (str_eqb T (str "Premium"));
    simpl; rewrite ?Hfield; simpl in Hskills |- *; rewrite Hskills; reflexivity.
Qed.

(** [json.dumps] returns on the record built, whatever the form holds. *)
Lemma dumps_sections (form : Form) (T : pystr) :
  Encoder.dumps (sections form T) = Ret (json_text (sections form T)).
Proof.
  apply dumps_plain; [apply sections_plain|].
  rewrite sections_nesting. unfold recursion_limit. lia.
Qed.

(* ================================================================== *)
(** ** [parse_json] *)

Lemma loads_dumps_sections (form : Form) (T : pystr) :
  form_text form = true ->
  Decoder.loads (Some (json_text (sections form T))) = Ret (sections form T).
Proof.
  intros Hform. apply loads_dumps; [apply sections_textual, Hform|].
  rewrite sections_nesting. unfold recursion_limit. lia.
Qed.

Lemma parse_json_sections (form : Form) (T : pystr) :
  form_text form = true ->
  parse_json (Some (json_text (sections form T))) = Ret (sections form T).
Proof.
  intros Hform. unfold parse_json.
  rewrite loads_dumps_sections by exact Hform. reflexivity.
Qed.

(** [parse_json] returns on the text of the record built, whatever the
    form holds. *)
Lemma parse_json_sections_returns (form : Form) (T : pystr) :
  exists sd : pyval, parse_json (Some (json_text (sections form T))) = Ret sd.
Proof.
  destruct (loads_plain (sections form T) (sections_plain form T)) as [w Hw].
  { rewrite sections_nesting. unfold recursion_limit. lia. }
  exists w. unfold parse_json. rewrite Hw. reflexivity.
Qed.

(** C6. For every form whose values are text and every tier, decoding the
    serialized record that the builder assembled gives the record back:
    [json.dumps(data)] returns a text, and [parse_json] of that text returns
    [data]. *)
Theorem parse_json_dumps_sections (form : Form) (T : pystr) :
  form_text form = true ->
  exists text : pystr,
    Encoder.dumps (sections form T) = Ret text
    /\ parse_json (Some text) = Ret (sections form T).
Proof.
  intros Hform. exists (json_text (sections form T)).
  split; [apply dumps_sections|apply parse_json_sections, Hform].
Qed.

Lemma parse_json_dumps_sections_witness :
  form_text form_ann = true
  /\ exists text : pystr,
       Encoder.dumps (sections form_ann (str "Premium")) = Ret text
       /\ parse_json (Some text) = Ret (sections form_ann (str "Premium")).
Proof.
  split; [reflexivity|].
  apply (parse_json_dumps_sections form_ann (str "Premium")). reflexivity.
Defined.

(** C3, as stated, fails twice. A text of the wrong shape, here the array
    [[]], is decoded and returned as it is, not replaced by the empty
    record. And errors are propagated: on the text of 4301 digits [1],
    [json.loads] raises the [ValueError] of the limit on the digits of an
    [int], and on the text of 1001 opening brackets the [RecursionError] of
    the recursion limit; the [except] clause of [parse_json] catches
    neither. *)
Lemma parse_json_wrong_shape_or_raises :
  parse_json (Some (str "[]")) = Ret (PList [])
  /\ parse_json (Some (str "[]")) <> Ret empty_dict
  /\ parse_json (Some (str "[]")) <> Ret (spec_parse (Some (str "[]")))
  /\ parse_json (Some (repeat 49 4301)) = Raise ValueError
  /\ parse_json (Some (repeat 91 1001)) = Raise RecursionError.
Proof. vm_compute. repeat split; discriminate. Qed.

(** What [parse_json] does on every input: it returns what [json.loads]
    returns, returns the empty record for the two exceptions it catches,
    and lets the two others through. *)
Lemma parse_json_cases (data : option pystr) :
  (exists v : pyval,
      parse_json data = Ret v
      /\ (Decoder.loads data = Ret v
          \/ ((Decoder.loads data = Raise JSONDecodeError
               \/ Decoder.loads data = Raise TypeError)
              /\ v = empty_dict)))
  \/ (exists e : exn,
        (e = RecursionError \/ e = ValueError)
        /\ Decoder.loads data = Raise e /\ parse_json data = Raise e).
Proof.
  unfold parse_json.
  destruct (loads_returns_or_raises data) as [[v H] | [H | [H | [H | H]]]];
    rewrite H.
  - left. exists v. auto.
  - left. exists empty_dict. auto.
  - left. exists empty_dict. auto.
  - right. exists RecursionError. auto.
  - right. exists ValueError. auto.
Qed.

(** C3, amended. On every input, a text or [None], [parse_json] either
    returns or lets through a [RecursionError] or a [ValueError] of
    [json.loads]. It returns what [json.loads] returns, of whatever shape,
    and the empty record when [json.loads] raises [JSONDecodeError] or
    [TypeError]: neither of these two leaves it. In particular the absent
    input and the empty text give the empty record. *)
Theorem parse_json_returns_or_lets_through (data : option pystr) :
  ((exists v : pyval,
       parse_json data = Ret v
       /\ (Decoder.loads data = Ret v
           \/ ((Decoder.loads data = Raise JSONDecodeError
                \/ Decoder.loads data = Raise TypeError)
               /\ v = empty_dict)))
   \/ (exists e : exn,
         (e = RecursionError \/ e = ValueError)
         /\ Decoder.loads data = Raise e /\ parse_json data = Raise e))
  /\ parse_json None = Ret empty_dict
  /\ parse_json (Some []) = Ret empty_dict.
Proof.
  split; [apply parse_json_cases|split; reflexivity].
Qed.

(* ================================================================== *)
(** ** The skills entry *)

Lemma split_nonempty (sep : Z) (s : pystr) : split sep s <> [].
Proof.
  destruct s as [|c r]; simpl; [discriminate|].
  destruct (c =? sep); [discriminate|]. destruct (split sep r); discriminate.
Qed.

Lemma join_split (sep : Z) (s : pystr) : join [sep] (split sep s) = s.
Proof.
  induction s as [|c r IH]; [reflexivity|].
  cbn [split]. pose proof (split_nonempty sep r) as Hne.
  destruct (Z.eqb_spec c sep) as [->|Hc].
  - destruct (split sep r) as [|piece pieces]; [congruence|].
    change (join [sep] ([] :: piece :: pieces))
      with (sep :: join [sep] (piece :: pieces)).
    rewrite IH. reflexivity.
  - destruct (split sep r) as [|piece pieces]; [congruence|].
    rewrite <- IH. destruct pieces; reflexivity.
Qed.

Lemma sections_skills (form : Form) (T : pystr) :
  section_of (sections form T) "skills"
  = Some match form_get form (str "skills") with
         | Some (c :: r) => PList (map PStr (split 44 (c :: r)))
         | _ => PList []
         end.
Proof.
  unfold sections.
  destruct (str_in T ["Paid"; "Premium"]%string), (str_eqb T (str "Premium"));
    reflexivity.
Qed.

(** C4, as stated, fails: the elements are not trimmed. For the field
    [go, rust] the entry keeps the blank of the second element, where the
    comma-split with trimmed elements has none. *)
Lemma skills_not_trimmed :
  section_of (sections form_ann (str "Free")) "skills"
  = Some (PList [PStr (str "go"); PStr (str " rust")])
  /\ spec_skills form_ann = PList [PStr (str "go"); PStr (str "rust")]
  /\ section_of (sections form_ann (str "Free")) "skills"
     <> Some (spec_skills form_ann).
Proof. vm_compute. repeat split; discriminate. Qed.

(** C4, amended. For every submitted form and tier, the skills entry of the
    built record is the comma-split of the skills field with every element
    kept as submitted, surrounding whitespace included: joining the elements
    with commas gives the field back. It is the empty list when the field
    is absent or empty. *)
Theorem skills_is_plain_split (form : Form) (T : pystr) :
  exists pieces : list pystr,
    section_of (sections form T) "skills" = Some (PList (map PStr pieces))
    /\ match form_get form (str "skills") with
       | None | Some [] => pieces = []
       | Some field => pieces = split 44 field /\ join [44] pieces = field
       end.
Proof.
  rewrite sections_skills.
  destruct (form_get form (str "skills")) as [[|c r]|].
  - exists []. split; reflexivity.
  - exists (split 44 (c :: r)). split; [reflexivity|].
    split; [reflexivity|apply join_split].
  - exists []. split; reflexivity.
Qed.

(* ================================================================== *)
(** ** Rows and their lookups *)

Lemma find_map_stable {A} (f : A -> bool) (g : A -> A) (l : list A) :
  (forall r, f (g r) = f r) ->
  find f (map g l) = option_map g (find f l).
Proof.
  intros Hfg. induction l as [|x l IH]; [reflexivity|].
  simpl. rewrite Hfg. destruct (f x); [reflexivity|exact IH].
Qed.

Lemma find_snoc {A} (f : A -> bool) (l : list A) (x : A) :
  find f (l ++ [x])
  = match find f l with
    | Some y => Some y
    | None => if f x then Some x else None
    end.
Proof.
  induction l as [|y l IH]; [reflexivity|].
  simpl. destruct (f y); [reflexivity|exact IH].
Qed.

Lemma user_by_id_id (uid : Z) (db : Db) (u : User.t) :
  user_by_id uid db = Some u -> User.id u = uid.
Proof.
  unfold user_by_id. intros H. apply find_some in H as [_ H]. lia.
Qed.

Lemma portfolio_of_on_portfolio (uid pid : Z) (f : Portfolio.t -> Portfolio.t)
    (db : Db) :
  (forall p, Portfolio.user_id (f p) = Portfolio.user_id p) ->
  portfolio_of uid (on_portfolio pid f db)
  = option_map (fun p => if Portfolio.id p =? pid then f p else p)
      (portfolio_of uid db).
Proof.
  intros Hf. unfold portfolio_of, on_portfolio. cbn [portfolios].
  apply find_map_stable. intros p. destruct (Portfolio.id p =? pid); [|reflexivity].
  rewrite Hf. reflexivity.
Qed.

Lemma portfolio_of_on_user (uid uid' : Z) (f : User.t -> User.t) (db : Db) :
  portfolio_of uid (on_user uid' f db) = portfolio_of uid db.
Proof. reflexivity. Qed.

Lemma user_by_id_on_user (uid : Z) (f : User.t -> User.t) (db : Db) :
  (forall u, User.id (f u) = User.id u) ->
  user_by_id uid (on_user uid f db) = option_map f (user_by_id uid db).
Proof.
  intros Hf. unfold user_by_id, on_user. cbn [users].
  rewrite find_map_stable.
  - destruct (find (fun u => User.id u =? uid) (users db)) as [u|] eqn:E;
      [|reflexivity].
    apply find_some in E as [_ E]. cbn [option_map]. rewrite E. reflexivity.
  - intros u. cbv beta. destruct (User.id u =? uid) eqn:E; [|exact E].
    rewrite Hf. exact E.
Qed.

Lemma user_by_id_on_portfolio (uid pid : Z) (f : Portfolio.t -> Portfolio.t)
    (db : Db) :
  user_by_id uid (on_portfolio pid f db) = user_by_id uid db.
Proof. reflexivity. Qed.

Lemma portfolio_of_insert (uid : Z) (tier : pystr) (db : Db) :
  portfolio_of uid db = None ->
  portfolio_of uid (insert_portfolio (new_portfolio uid tier db) db)
  = Some (new_portfolio uid tier db).
Proof.
  unfold portfolio_of, insert_portfolio. cbn [portfolios]. intros H.
  rewrite find_snoc, H. cbn [new_portfolio Portfolio.user_id].
  rewrite Z.eqb_refl. reflexivity.
Qed.

(** What the three statements under [if not user_portfolio:] do. *)
Lemma get_or_create_cases (accepts : nat -> bool) (u : User.t) (tier : pystr)
    (r : Request) :
  get_or_create accepts u tier r
  = match portfolio_of (User.id u) (session r) with
    | Some p => (r, Ret p)
    | None =>
        let row := new_portfolio (User.id u) tier (session r) in
        let db := insert_portfolio row (session r) in
        if accepts (commits r)
        then (mkRequest db db (S (commits r)) (flashed r), Ret row)
        else (mkRequest (stored r) db (S (commits r)) (flashed r),
              Raise SQLAlchemyError)
    end.
Proof.
  unfold get_or_create, bind, query, add_portfolio, commit, ret.
  destruct (portfolio_of (User.id u) (session r)); [reflexivity|].
  cbn. destruct (accepts (commits r)); reflexivity.
Qed.

(* ================================================================== *)
(** ** The lazily created portfolio *)

(** C9. Get-or-create is idempotent under sequential use. An access for a
    user returns a Portfolio row whenever the user owns one or the store
    accepts the commit of the creation; the next access on the database as
    then stored, with no save in between, returns that same row, hence the
    same id, and leaves the request state untouched: nothing is inserted
    and nothing committed. The tiers passed to the two accesses are free. *)
Theorem get_or_create_idempotent (accepts accepts' : nat -> bool) (db : Db)
    (u : User.t) (tier tier' : pystr) :
  portfolio_of (User.id u) db <> None \/ accepts 0%nat = true ->
  exists (r1 : Request) (p : Portfolio.t),
    get_or_create accepts u tier (begin_request db) = (r1, Ret p)
    /\ Portfolio.user_id p = User.id u
    /\ get_or_create accepts' u tier' (begin_request (stored r1))
       = (begin_request (stored r1), Ret p).
Proof.
  intros Hready. rewrite get_or_create_cases.
  cbn [begin_request session commits stored flashed].
  destruct (portfolio_of (User.id u) db) as [q|] eqn:E.
  - exists (begin_request db), q. split; [reflexivity|]. split.
    + unfold portfolio_of in E. apply find_some in E as [_ E]. lia.
    + rewrite get_or_create_cases. cbn [stored begin_request session].
      rewrite E. reflexivity.
  - destruct Hready as [Hsome | Hok]; [congruence|]. rewrite Hok. cbv zeta.
    eexists _, _. split; [reflexivity|]. split; [reflexivity|].
    rewrite get_or_create_cases. cbn [stored begin_request session].
    rewrite (portfolio_of_insert (User.id u) tier db E). reflexivity.
Qed.

Lemma get_or_create_idempotent_witness :
  (portfolio_of (User.id ann) db_new <> None \/ always 0%nat = true)
  /\ exists (r1 : Request) (p : Portfolio.t),
       get_or_create always ann (str "Free") (begin_request db_new) = (r1, Ret p)
       /\ Portfolio.user_id p = User.id ann
       /\ get_or_create first_only ann (str "Premium") (begin_request (stored r1))
          = (begin_request (stored r1), Ret p).
Proof.
  assert (H : portfolio_of (User.id ann) db_new <> None \/ always 0%nat = true)
    by (right; reflexivity).
  split; [exact H|].
  exact (get_or_create_idempotent always first_only db_new ann
           (str "Free") (str "Premium") H).
Defined.

(* ================================================================== *)
(** ** Plan selection *)

#[local] Arguments str_in : simpl never.
#[local] Arguments portfolio_of : simpl never.
#[local] Arguments user_by_id : simpl never.
#[local] Arguments user_by_username : simpl never.
#[local] Arguments on_user : simpl never.
#[local] Arguments on_portfolio : simpl never.
#[local] Arguments new_portfolio : simpl never.
#[local] Arguments insert_portfolio : simpl never.
#[local] Arguments sections : simpl never.
#[local] Arguments json_text : simpl never.
#[local] Arguments Encoder.dumps : simpl never.
#[local] Arguments parse_json : simpl never.
#[local] Arguments str : simpl never.
#[local] Arguments tiers : simpl never.

Ltac run_view :=
  unfold serve, login_required, bind, query, update, flash, commit, lift, ret,
    raise, begin_request;
  simpl.

(** What [select_plan] does for a logged-in user. *)
Lemma select_plan_cases (accepts : nat -> bool) (plan_type : pystr) (uid : Z)
    (db : Db) (u : User.t) :
  user_by_id uid db = Some u ->
  serve (select_plan accepts plan_type (Some uid)) db
  = if negb (str_in plan_type ["Free"; "Paid"; "Premium"]%string) then
      (Ret (redirect "plan_details" None), db)
    else
      let db1 := on_user (User.id u) (User.set_subscription_type plan_type) db in
      let db2 := match portfolio_of (User.id u) db1 with
                 | Some p => on_portfolio (Portfolio.id p)
                               (Portfolio.set_portfolio_type plan_type) db1
                 | None => db1
                 end in
      if accepts 0%nat then (Ret (redirect "dashboard" None), db2)
      else (Raise SQLAlchemyError, db).
Proof.
  intros Hu. unfold select_plan. run_view. rewrite Hu.
  destruct (negb (str_in plan_type ["Free"; "Paid"; "Premium"]%string));
    [reflexivity|].
  simpl.
  destruct (portfolio_of (User.id u)
              (on_user (User.id u) (User.set_subscription_type plan_type) db));
    simpl; destruct (accepts 0%nat); reflexivity.
Qed.

Lemma str_in_tiers (T : pystr) :
  In T tiers -> str_in T ["Free"; "Paid"; "Premium"]%string = true.
Proof. intros [<- | [<- | [<- | []]]]; reflexivity. Qed.

(** [select_plan] turns down a plan outside the allow-list and stores
    nothing. *)
Lemma select_plan_rejects (accepts : nat -> bool) (plan_type : pystr)
    (user_id : option Z) (db : Db) :
  str_in plan_type ["Free"; "Paid"; "Premium"]%string = false ->
  snd (serve (select_plan accepts plan_type user_id) db) = db.
Proof.
  intros Hplan. destruct user_id as [uid|]; [|reflexivity].
  destruct (user_by_id uid db) as [u|] eqn:Hu.
  - rewrite (select_plan_cases _ _ _ _ u Hu), Hplan. reflexivity.
  - unfold select_plan. run_view. rewrite Hu. reflexivity.
Qed.

(** C10. When a logged-in user who owns a Portfolio selects a plan of the
    allow-list and the commit goes through, the user is sent to the
    dashboard and, in the database as stored, the user's subscription_type
    and the portfolio_type of the user's Portfolio both are the selected
    plan, hence equal. *)
Theorem select_plan_syncs_portfolio (accepts : nat -> bool) (plan_type : pystr)
    (uid : Z) (db : Db) (u : User.t) (p : Portfolio.t) :
  In plan_type tiers ->
  user_by_id uid db = Some u ->
  portfolio_of (User.id u) db = Some p ->
  accepts 0%nat = true ->
  exists (db' : Db) (u' : User.t) (p' : Portfolio.t),
    serve (select_plan accepts plan_type (Some uid)) db
    = (Ret (redirect "dashboard" None), db')
    /\ user_by_id uid db' = Some u'
    /\ portfolio_of (User.id u') db' = Some p'
    /\ User.subscription_type u' = plan_type
    /\ Portfolio.portfolio_type p' = User.subscription_type u'.
Proof.
  intros HT Hu Hp Hok.
  rewrite (select_plan_cases _ _ _ _ u Hu), (str_in_tiers _ HT), Hok.
  cbn [negb]. cbv zeta. rewrite portfolio_of_on_user, Hp.
  pose proof (user_by_id_id _ _ _ Hu) as Hid.
  eexists _, (User.set_subscription_type plan_type u),
    (Portfolio.set_portfolio_type plan_type p).
  split; [reflexivity|]. split; [|split; [|split; reflexivity]].
  - rewrite user_by_id_on_portfolio. rewrite Hid.
    rewrite user_by_id_on_user by reflexivity. rewrite Hu. reflexivity.
  - cbn [User.set_subscription_type User.id].
    rewrite portfolio_of_on_portfolio by reflexivity.
    rewrite portfolio_of_on_user, Hp. cbn [option_map].
    rewrite Z.eqb_refl. reflexivity.
Qed.

Lemma select_plan_syncs_portfolio_witness :
  exists (db' : Db) (u' : User.t) (p' : Portfolio.t),
    serve (select_plan always (str "Paid") (Some 1)) db_free
    = (Ret (redirect "dashboard" None), db')
    /\ user_by_id 1 db' = Some u'
    /\ portfolio_of (User.id u') db' = Some p'
    /\ User.subscription_type u' = str "Paid"
    /\ Portfolio.portfolio_type p' = User.subscription_type u'.
Proof.
  apply (select_plan_syncs_portfolio always (str "Paid") 1 db_free ann
           (Portfolio.mk 1 1 (str "Free") (Some (str "{}")))).
  - right; left; reflexivity.
  - reflexivity.
  - reflexivity.
  - reflexivity.
Defined.

(* ================================================================== *)
(** ** Saving a portfolio *)

#[local] Arguments submitted_tier : simpl never.
#[local] Arguments saved : simpl never.

(** What the POST branch of [edit_portfolio] does for a logged-in user: one
    commit when the user owns a row, two when the row is created first. *)
Lemma edit_portfolio_POST_cases (accepts : nat -> bool) (form : Form) (uid : Z)
    (db : Db) (u : User.t) :
  user_by_id uid db = Some u ->
  serve (edit_portfolio accepts POST form (Some uid)) db
  = let done := Ret (redirect "public_portfolio" (Some (User.username u))) in
    match portfolio_of (User.id u) db with
    | Some p =>
        if accepts 0%nat then (done, saved form (Portfolio.id p) db)
        else (Raise SQLAlchemyError, db)
    | None =>
        let row := new_portfolio (User.id u) (submitted_tier form) db in
        let created := insert_portfolio row db in
        if accepts 0%nat then
          if accepts 1%nat then (done, saved form (Portfolio.id row) created)
          else (Raise SQLAlchemyError, created)
        else (Raise SQLAlchemyError, db)
    end.
Proof.
  intros Hu. unfold edit_portfolio. run_view. rewrite Hu.
  rewrite get_or_create_cases. simpl.
  destruct (portfolio_of (User.id u) db) as [p|].
  - simpl. rewrite dumps_sections. simpl.
    destruct (accepts 0%nat); reflexivity.
  - simpl. destruct (accepts 0%nat); [|reflexivity].
    simpl. rewrite dumps_sections. simpl.
    destruct (accepts 1%nat); reflexivity.
Qed.

Lemma portfolio_of_saved (form : Form) (uid : Z) (db : Db) (p : Portfolio.t) :
  portfolio_of uid db = Some p ->
  portfolio_of uid (saved form (Portfolio.id p) db)
  = Some (Portfolio.mk (Portfolio.id p) (Portfolio.user_id p)
            (submitted_tier form)
            (Some (json_text (sections form (submitted_tier form))))).
Proof.
  intros Hp. unfold saved.
  rewrite !portfolio_of_on_portfolio by reflexivity. rewrite Hp.
  cbn [option_map Portfolio.set_portfolio_type Portfolio.id].
  rewrite ?Z.eqb_refl. cbn [Portfolio.set_portfolio_type Portfolio.id].
  rewrite ?Z.eqb_refl. reflexivity.
Qed.

(** C5. Every edit submission that goes through rewrites the stored record
    wholesale. Whatever the database held before, after the save the user's
    Portfolio has the submitted tier as portfolio_type and, as
    sections_data, the text that [json.dumps] returns for the record built
    from the submitted form and tier: nothing of the previous content
    enters it. Under tier Free that record has the five base keys only,
    neither paid_pages nor premium_pages; and when the form's values are
    text, the stored text decodes to the record built. *)
Theorem save_overwrites_wholesale (accepts : nat -> bool) (form : Form)
    (uid : Z) (db : Db) (u : User.t) :
  user_by_id uid db = Some u ->
  (forall n, accepts n = true) ->
  exists (p : Portfolio.t) (text : pystr),
    portfolio_of (User.id u)
      (snd (serve (edit_portfolio accepts POST form (Some uid)) db)) = Some p
    /\ Portfolio.portfolio_type p = submitted_tier form
    /\ Encoder.dumps (sections form (submitted_tier form)) = Ret text
    /\ Portfolio.sections_data p = Some text
    /\ (submitted_tier form = str "Free" ->
        keys (sections form (submitted_tier form)) = base_keys)
    /\ (form_text form = true ->
        parse_json (Portfolio.sections_data p)
        = Ret (sections form (submitted_tier form))).
Proof.
  intros Hu Hok. rewrite (edit_portfolio_POST_cases _ _ _ _ u Hu).
  cbv zeta. rewrite !Hok.
  assert (Hrest :
            (submitted_tier form = str "Free" ->
             keys (sections form (submitted_tier form)) = base_keys)
            /\ (form_text form = true ->
                parse_json
                  (Some (json_text (sections form (submitted_tier form))))
                = Ret (sections form (submitted_tier form)))).
  { split.
    - intros ->. rewrite sections_keys. reflexivity.
    - intros Hform. apply parse_json_sections, Hform. }
  pose proof (dumps_sections form (submitted_tier form)) as Hdumps.
  destruct (portfolio_of (User.id u) db) as [p|] eqn:Hp; cbn [snd].
  - rewrite (portfolio_of_saved form _ db p Hp).
    eexists _, (json_text (sections form (submitted_tier form))).
    split; [reflexivity|].
    cbn [Portfolio.portfolio_type Portfolio.sections_data].
    split; [reflexivity|]. split; [exact Hdumps|]. split; [reflexivity|].
    exact Hrest.
  - rewrite (portfolio_of_saved form _ _ _
               (portfolio_of_insert (User.id u) (submitted_tier form) db Hp)).
    eexists _, (json_text (sections form (submitted_tier form))).
    split; [reflexivity|].
    cbn [Portfolio.portfolio_type Portfolio.sections_data].
    split; [reflexivity|]. split; [exact Hdumps|]. split; [reflexivity|].
    exact Hrest.
Qed.

Lemma save_overwrites_wholesale_witness :
  user_by_id 1 db_premium = Some ann
  /\ exists (p : Portfolio.t) (text : pystr),
       portfolio_of 1
         (snd (serve (edit_portfolio always POST form_ann (Some 1)) db_premium))
       = Some p
       /\ Portfolio.portfolio_type p = submitted_tier form_ann
       /\ Encoder.dumps (sections form_ann (submitted_tier form_ann)) = Ret text
       /\ Portfolio.sections_data p = Some text
       /\ (submitted_tier form_ann = str "Free" ->
           keys (sections form_ann (submitted_tier form_ann)) = base_keys)
       /\ (form_text form_ann = true ->
           parse_json (Portfolio.sections_data p)
           = Ret (sections form_ann (submitted_tier form_ann))).
Proof.
  split; [reflexivity|].
  exact (save_overwrites_wholesale always form_ann 1 db_premium ann eq_refl
           (fun _ => eq_refl)).
Defined.

(** C7, as stated, fails. Ann has no portfolio; the store accepts the commit
    that follows the creation and refuses the commit of the save. The
    request ends in the error, and the database holds the portfolio created
    on the way: it is not as it was before. *)
Lemma creation_survives_failed_save :
  serve (edit_portfolio first_only POST form_ann (Some 1)) db_new
  = (Raise SQLAlchemyError, db_free)
  /\ db_free <> db_new.
Proof. split; [vm_compute; reflexivity|discriminate]. Qed.

(** C7, amended. Each commit is all or nothing, and a save is one commit
    only for a user who already owns a Portfolio: there, on a persistence
    error the database is as it was before. For a user who owns none the
    Portfolio is created and committed on its own first: if that commit
    fails the database is as before; if the commit of the save fails, the
    database is the previous one plus the new Portfolio, with the submitted
    tier and the empty record. *)
Theorem failed_save_keeps_or_only_creates (accepts : nat -> bool) (form : Form)
    (user_id : option Z) (db : Db) :
  fst (serve (edit_portfolio accepts POST form user_id) db)
  = Raise SQLAlchemyError ->
  exists (uid : Z) (u : User.t),
    user_id = Some uid /\ user_by_id uid db = Some u
    /\ match portfolio_of (User.id u) db with
       | Some _ =>
           accepts 0%nat = false
           /\ snd (serve (edit_portfolio accepts POST form user_id) db) = db
       | None =>
           (accepts 0%nat = false
            /\ snd (serve (edit_portfolio accepts POST form user_id) db) = db)
           \/ (accepts 0%nat = true /\ accepts 1%nat = false
               /\ snd (serve (edit_portfolio accepts POST form user_id) db)
                  = insert_portfolio
                      (new_portfolio (User.id u) (submitted_tier form) db) db)
       end.
Proof.
  destruct user_id as [uid|]; [|discriminate].
  destruct (user_by_id uid db) as [u|] eqn:Hu.
  - rewrite (edit_portfolio_POST_cases _ _ _ _ u Hu). cbv zeta.
    intros Hraise. exists uid, u. split; [reflexivity|]. split; [exact Hu|].
    destruct (portfolio_of (User.id u) db) as [p|].
    + destruct (accepts 0%nat); [discriminate|]. auto.
    + destruct (accepts 0%nat); [|auto].
      destruct (accepts 1%nat); [discriminate|]. auto.
  - unfold edit_portfolio. run_view. rewrite Hu. discriminate.
Qed.

Lemma failed_save_keeps_or_only_creates_witness :
  fst (serve (edit_portfolio first_only POST form_ann (Some 1)) db_new)
  = Raise SQLAlchemyError
  /\ exists (uid : Z) (u : User.t),
       Some 1 = Some uid /\ user_by_id uid db_new = Some u
       /\ match portfolio_of (User.id u) db_new with
          | Some _ =>
              first_only 0%nat = false
              /\ snd (serve (edit_portfolio first_only POST form_ann (Some 1))
                        db_new) = db_new
          | None =>
              (first_only 0%nat = false
               /\ snd (serve (edit_portfolio first_only POST form_ann (Some 1))
                         db_new) = db_new)
              \/ (first_only 0%nat = true /\ first_only 1%nat = false
                  /\ snd (serve (edit_portfolio first_only POST form_ann (Some 1))
                            db_new)
                     = insert_portfolio
                         (new_portfolio (User.id u) (submitted_tier form_ann)
                            db_new) db_new)
          end.
Proof.
  split; [reflexivity|].
  exact (failed_save_keeps_or_only_creates first_only form_ann (Some 1) db_new
           eq_refl).
Defined.

(** C2: the code at the failing input. Ann owns a Free portfolio and posts
    the form with [portfolio_type=Enterprise], a tier outside the allow-list:
    [edit_portfolio] answers with the redirect of a successful save and the
    stored row has portfolio_type Enterprise and, as sections_data, the text
    that [json.dumps] returned for the record built. [select_plan] with the
    same tier stores nothing. *)
Theorem edit_portfolio_saves_unlisted_tier :
  str_in (str "Enterprise") ["Free"; "Paid"; "Premium"]%string = false
  /\ (exists text : pystr,
        Encoder.dumps (sections form_enterprise (str "Enterprise")) = Ret text
        /\ serve (edit_portfolio always POST form_enterprise (Some 1)) db_free
           = (Ret (redirect "public_portfolio" (Some (str "ann"))),
              mkDb [ann] [Portfolio.mk 1 1 (str "Enterprise") (Some text)]))
  /\ snd (serve (edit_portfolio always POST form_enterprise (Some 1)) db_free)
     <> db_free
  /\ serve (select_plan always (str "Enterprise") (Some 1)) db_free
     = (Ret (redirect "plan_details" None), db_free).
Proof.
  split; [reflexivity|]. split.
  { exists (json_text (sections form_enterprise (str "Enterprise"))).
    split; vm_compute; reflexivity. }
  split; [vm_compute; discriminate|vm_compute; reflexivity].
Qed.

(* ================================================================== *)
(** ** The public page *)

Lemma parse_json_raises (data : option pystr) (e : exn) :
  parse_json data = Raise e -> e = RecursionError \/ e = ValueError.
Proof.
  intros H.
  destruct (parse_json_cases data) as [(v & Hv & _) | (e' & He' & _ & Hraise)];
    congruence.
Qed.

Lemma parse_json_not_starved (data : option pystr) : parse_json data <> Starved.
Proof.
  intros H.
  destruct (parse_json_cases data) as [(v & Hv & _) | (e' & He' & _ & Hraise)];
    congruence.
Qed.

Lemma tier_cases (T : pystr) :
  In T tiers
  <-> str_eqb T (str "Free") = true \/ str_eqb T (str "Paid") = true
      \/ str_eqb T (str "Premium") = true.
Proof.
  rewrite !str_eqb_eq. unfold tiers. cbn [map In].
  intuition congruence.
Qed.

(** What [public_portfolio] answers for a user who owns a portfolio. *)
Lemma public_portfolio_page (db : Db) (username : pystr) (user : User.t)
    (p : Portfolio.t) (sd : pyval) :
  user_by_username username db = Some user ->
  portfolio_of (User.id user) db = Some p ->
  parse_json (Portfolio.sections_data p) = Ret sd ->
  serve (public_portfolio username) db
  = (Ret (if str_in (Portfolio.portfolio_type p) ["Free"; "Paid"; "Premium"]%string
          then render_template (public_template (Portfolio.portfolio_type p))
                 [ ("user", AUser user); ("portfolio", APortfolio (Some p));
                   ("sections_data", AValue sd) ]%string
          else no_portfolio_page user), db).
Proof.
  intros Huser Hp Hsd. unfold public_portfolio. run_view.
  rewrite Huser. simpl. rewrite Hp. simpl. rewrite Hsd. simpl.
  unfold str_in, public_template. cbn [existsb].
  destruct (str_eqb (Portfolio.portfolio_type p) (str "Free")); [reflexivity|].
  destruct (str_eqb (Portfolio.portfolio_type p) (str "Paid")); [reflexivity|].
  destruct (str_eqb (Portfolio.portfolio_type p) (str "Premium")); reflexivity.
Qed.

Lemma public_portfolio_bare (db : Db) (username : pystr) (user : User.t) :
  user_by_username username db = Some user ->
  portfolio_of (User.id user) db = None ->
  serve (public_portfolio username) db = (Ret (no_portfolio_page user), db).
Proof.
  intros Huser Hnone. unfold public_portfolio. run_view.
  rewrite Huser. simpl. rewrite Hnone. reflexivity.
Qed.

(** What [public_portfolio] does when [parse_json] raises on the stored
    text. *)
Lemma public_portfolio_raises (db : Db) (username : pystr) (user : User.t)
    (p : Portfolio.t) (e : exn) :
  user_by_username username db = Some user ->
  portfolio_of (User.id user) db = Some p ->
  parse_json (Portfolio.sections_data p) = Raise e ->
  serve (public_portfolio username) db = (Raise e, db).
Proof.
  intros Huser Hp Hsd. unfold public_portfolio. run_view.
  rewrite Huser. simpl. rewrite Hp. simpl. rewrite Hsd. reflexivity.
Qed.

(** C8, as stated, fails in its last words: the view can crash. Ann owns a
    Free portfolio whose stored text is an integer of 4301 digits;
    [parse_json] runs before the dispatch on portfolio_type and lets the
    [ValueError] of [json.loads] through, so the view ends in that error
    instead of the Free presentation. *)
Lemma public_portfolio_raises_on_stored_digits :
  user_by_username (str "ann") db_digits = Some ann
  /\ portfolio_of (User.id ann) db_digits
     = Some (Portfolio.mk 1 1 (str "Free") (Some (repeat 49 4301)))
  /\ serve (public_portfolio (str "ann")) db_digits = (Raise ValueError, db_digits).
Proof. repeat split; vm_compute; reflexivity. Qed.

(** C8, amended. For an existing user, [public_portfolio] changes nothing
    and selects the view as follows. Without a Portfolio it renders the
    NoPortfolio page. With one, [parse_json] is applied to the stored
    sections_data first. When it returns, the page is chosen by
    portfolio_type alone: the Free, Paid or Premium template for these
    three values, rendered with the user, the portfolio and the parsed
    sections_data; for every other value the very page of a user without a
    Portfolio; so the NoPortfolio presentation is given exactly when
    portfolio_type is outside the known set. When [parse_json] lets a
    [RecursionError] or a [ValueError] through, the view ends in that
    exception, whatever the portfolio_type. *)
Theorem public_portfolio_selects_view (db : Db) (username : pystr)
    (user : User.t) :
  user_by_username username db = Some user ->
  match portfolio_of (User.id user) db with
  | None =>
      serve (public_portfolio username) db = (Ret (no_portfolio_page user), db)
      /\ view_kind (no_portfolio_page user) = Some NoPortfolio
  | Some p =>
      match parse_json (Portfolio.sections_data p) with
      | Ret sections_data =>
          exists view : response,
            serve (public_portfolio username) db = (Ret view, db)
            /\ (let context :=
                  [ ("user", AUser user); ("portfolio", APortfolio (Some p));
                    ("sections_data", AValue sections_data) ]%string in
                (Portfolio.portfolio_type p = str "Free" ->
                 view = render_template "free_portfolio.html" context)
                /\ (Portfolio.portfolio_type p = str "Paid" ->
                    view = render_template "paid_portfolio.html" context)
                /\ (Portfolio.portfolio_type p = str "Premium" ->
                    view = render_template "premium_portfolio.html" context)
                /\ (~ In (Portfolio.portfolio_type p) tiers ->
                    view = no_portfolio_page user))
            /\ (view_kind view = Some NoPortfolio
                <-> ~ In (Portfolio.portfolio_type p) tiers)
            /\ (Portfolio.portfolio_type p = str "Free" ->
                view_kind view = Some FreeView)
            /\ (Portfolio.portfolio_type p = str "Paid" ->
                view_kind view = Some PaidView)
            /\ (Portfolio.portfolio_type p = str "Premium" ->
                view_kind view = Some PremiumView)
      | Raise e =>
          (e = RecursionError \/ e = ValueError)
          /\ serve (public_portfolio username) db = (Raise e, db)
      | Starved => False
      end
  end.
Proof.
  intros Huser.
  destruct (portfolio_of (User.id user) db) as [p|] eqn:Hp;
    [|split; [apply public_portfolio_bare; assumption|reflexivity]].
  destruct (parse_json (Portfolio.sections_data p)) as [sd| e |] eqn:Hsd.
  - unfold public_portfolio. run_view. rewrite Huser. simpl. rewrite Hp. simpl.
    rewrite Hsd. simpl.
    pose proof (tier_cases (Portfolio.portfolio_type p)) as Htier.
    assert (D1 : str "Free" <> str "Paid") by (vm_compute; discriminate).
    assert (D2 : str "Free" <> str "Premium") by (vm_compute; discriminate).
    assert (D3 : str "Paid" <> str "Premium") by (vm_compute; discriminate).
    rewrite !str_eqb_eq in Htier.
    destruct (str_eqb_spec (Portfolio.portfolio_type p) (str "Free")) as [E1|E1];
      [|destruct (str_eqb_spec (Portfolio.portfolio_type p) (str "Paid"))
          as [E2|E2];
        [|destruct (str_eqb_spec (Portfolio.portfolio_type p) (str "Premium"))
            as [E3|E3]]];
      (eexists; split; [reflexivity|]);
      (split; [cbv zeta;
               repeat split; intros H; try reflexivity; try congruence;
               exfalso; intuition congruence|]);
      (split; [split; [try discriminate|]; intros H;
               try reflexivity; try (exfalso; intuition congruence);
               intuition congruence|]);
      repeat split; intros H; try reflexivity; congruence.
  - split; [exact (parse_json_raises _ _ Hsd)|].
    exact (public_portfolio_raises db username user p e Huser Hp Hsd).
  - exact (parse_json_not_starved _ Hsd).
Qed.

Lemma public_portfolio_selects_view_witness :
  user_by_username (str "ann") db_free = Some ann
  /\ exists view : response,
       serve (public_portfolio (str "ann")) db_free = (Ret view, db_free)
       /\ view
          = render_template "free_portfolio.html"
              [ ("user", AUser ann);
                ("portfolio",
                 APortfolio (Some (Portfolio.mk 1 1 (str "Free")
                                     (Some (str "{}")))));
                ("sections_data", AValue empty_dict) ]%string
       /\ view_kind view = Some FreeView.
Proof.
  split; [reflexivity|].
  destruct (public_portfolio_selects_view db_free (str "ann") ann eq_refl)
    as (view & Hserve & (Hfree & _) & _ & Hkind & _).
  exists view. split; [exact Hserve|].
  split; [apply Hfree; reflexivity|apply Hkind; reflexivity].
Defined.

(* ================================================================== *)
(** ** More on the serialized record *)

(** X1. Decoding is a left inverse of encoding well beyond the builder's
    records, as far as the interpreter allows the nesting. For every value
    made of [None], booleans, text of scalar code points, lists and dicts
    with distinct keys: whatever the depth allowed, when it covers the
    nesting of the value the encoder returns a text that the scanner reads
    back to the value, and when it does not the encoder raises
    [RecursionError]; and whenever [json.dumps(v)] and [parse_json] of its
    text both return, [parse_json] returns [v]. *)
Theorem parse_json_dumps_textual (v : pyval) :
  textual v = true ->
  (forall depth : nat,
      (nesting v <= depth)%nat ->
      exists text : pystr,
        Encoder.iterencode depth v = Ret text
        /\ forall rest : pystr,
             Decoder.scan_once depth (text ++ rest) = Ret (v, rest))
  /\ (forall depth : nat,
        (depth < nesting v)%nat ->
        Encoder.iterencode depth v = Raise RecursionError)
  /\ (forall (text : pystr) (w : pyval),
        Encoder.dumps v = Ret text -> parse_json (Some text) = Ret w -> w = v).
Proof.
  intros Hv. pose proof (textual_plain v Hv) as Hplain. split; [|split].
  - intros depth Hd. exists (json_text v).
    split; [apply iterencode_plain; assumption|].
    exact (scan_once_dumps v Hv depth Hd).
  - intros depth Hd. apply iterencode_too_deep; assumption.
  - intros text w Htext. rewrite (dumps_text v text Htext).
    destruct (Nat.le_gt_cases (nesting v) recursion_limit) as [Hfits|Hdeep].
    + unfold parse_json. rewrite (loads_dumps v Hv Hfits). congruence.
    + rewrite (dumps_too_deep v Hplain Hdeep) in Htext. discriminate.
Qed.

Lemma parse_json_dumps_textual_witness :
  textual (PList [PDict [(str "a", PList []); (str "b", PStr [34; 233; 128512])];
                  PBool true; PNone]) = true
  /\ exists text : pystr,
       Encoder.iterencode 3
         (PList [PDict [(str "a", PList []); (str "b", PStr [34; 233; 128512])];
                 PBool true; PNone]) = Ret text
       /\ forall rest : pystr,
            Decoder.scan_once 3 (text ++ rest)
            = Ret (PList [PDict [(str "a", PList []);
                                 (str "b", PStr [34; 233; 128512])];
                          PBool true; PNone], rest).
Proof.
  split; [reflexivity|].
  apply (proj1 (parse_json_dumps_textual
                  (PList [PDict [(str "a", PList []);
                                 (str "b", PStr [34; 233; 128512])];
                          PBool true; PNone]) eq_refl) 3%nat).
  vm_compute. apply le_n.
Defined.

Ltac printable_list :=
  repeat (apply Forall_cons; [unfold printable; lia|]); apply Forall_nil.

Lemma hexdigit_printable (x : Z) : printable (Encoder.hexdigit (Z.land x 15)).
Proof.
  rewrite land_15. unfold Encoder.hexdigit, printable.
  assert (0 <= x mod 16 < 16) by (apply Z.mod_pos_bound; lia).
  destruct (x mod 16 <? 10) eqn:E; lia.
Qed.

Lemma hex4_printable (n : Z) : Forall printable (Encoder.hex4 n).
Proof.
  unfold Encoder.hex4.
  repeat (apply Forall_cons; [apply hexdigit_printable|]). apply Forall_nil.
Qed.

Lemma escape_printable (c : Z) : Forall printable (Encoder.escape c).
Proof.
  assert (Hlit : forall a b, printable a -> printable b -> Forall printable [a; b])
    by (intros a b Ha Hb; constructor; [exact Ha|constructor; [exact Hb|constructor]]).
  unfold Encoder.escape.
  destruct (c =? 92); [apply Hlit; unfold printable; lia|].
  destruct (c =? 34); [apply Hlit; unfold printable; lia|].
  destruct ((32 <=? c) && (c <=? 126)) eqn:E;
    [printable_list|].
  destruct (c =? 8); [apply Hlit; unfold printable; lia|].
  destruct (c =? 12); [apply Hlit; unfold printable; lia|].
  destruct (c =? 10); [apply Hlit; unfold printable; lia|].
  destruct (c =? 13); [apply Hlit; unfold printable; lia|].
  destruct (c =? 9); [apply Hlit; unfold printable; lia|].
  destruct (c <? 65536); cbv zeta; rewrite ?Forall_app;
    repeat split; try apply hex4_printable; apply Hlit; unfold printable; lia.
Qed.

Lemma encode_printable (s : pystr) :
  Forall printable (Encoder.encode_basestring_ascii s).
Proof.
  unfold Encoder.encode_basestring_ascii. rewrite !Forall_app. repeat split.
  - printable_list.
  - induction s as [|c s IH]; [constructor|].
    cbn [flat_map]. rewrite Forall_app. split; [apply escape_printable|exact IH].
  - printable_list.
Qed.

Lemma decimal_printable (n : Z) : Forall printable (Encoder.decimal n).
Proof.
  assert (H : forall u, Forall printable (Encoder.digits_of_uint u)).
  { induction u; cbn [Encoder.digits_of_uint];
      [apply Forall_nil | apply Forall_cons; [unfold printable; lia|assumption] ..]. }
  unfold Encoder.decimal. destruct (Z.to_int n); [apply H|].
  apply Forall_cons; [unfold printable; lia|apply H].
Qed.

Lemma join_printable (sep : pystr) (chunks : list pystr) :
  Forall printable sep -> Forall (Forall printable) chunks ->
  Forall printable (join sep chunks).
Proof.
  intros Hsep. induction 1 as [|c cs Hc Hcs IH]; [constructor|].
  destruct cs as [|c' cs]; [exact Hc|].
  change (join sep (c :: c' :: cs)) with (c ++ sep ++ join sep (c' :: cs)).
  rewrite !Forall_app. auto.
Qed.

Lemma str_printable (word : string) :
  forallb (fun c => (32 <=? c) && (c <=? 126)) (str word) = true ->
  Forall printable (str word).
Proof.
  rewrite forallb_forall, Forall_forall. intros H c Hc.
  specialize (H c Hc). unfold printable. lia.
Qed.

Lemma dumps_printable (v : pyval) :
  float_free v = true -> Forall printable (json_text v).
Proof.
  induction v as [| b | n | l | s | items IH | pairs IH] using pyval_nested_ind;
    intros Hv; try discriminate.
  - apply str_printable. reflexivity.
  - destruct b; apply str_printable; reflexivity.
  - apply decimal_printable.
  - apply encode_printable.
  - rewrite dumps_list. cbn [float_free] in Hv. rewrite forallb_forall in Hv.
    apply Forall_cons; [unfold printable; lia|]. rewrite Forall_app. split.
    + apply join_printable; [apply str_printable; reflexivity|].
      rewrite Forall_forall in IH |- *. intros c Hc.
      apply in_map_iff in Hc as (x & <- & Hx). apply (IH x Hx), Hv, Hx.
    + printable_list.
  - rewrite dumps_dict. cbn [float_free] in Hv. rewrite forallb_forall in Hv.
    apply Forall_cons; [unfold printable; lia|]. rewrite Forall_app. split.
    + apply join_printable; [apply str_printable; reflexivity|].
      rewrite Forall_forall in IH |- *. intros c Hc.
      apply in_map_iff in Hc as ([k x] & <- & Hx). unfold member.
      rewrite !Forall_app. repeat split.
      * apply encode_printable.
      * apply str_printable. reflexivity.
      * apply (IH _ Hx). exact (Hv _ Hx).
    + printable_list.
Qed.

Lemma sections_float_free (form : Form) (T : pystr) :
  float_free (sections form T) = true.
Proof.
  assert (Hfield : forall name, float_free (field form name) = true).
  { intros name. unfold field. destruct (form_get form (str name)); reflexivity. }
  assert (Hskills :
            float_free match form_get form (str "skills") with
                       | Some (c :: r) => PList (map PStr (split 44 (c :: r)))
                       | _ => PList []
                       end = true).
  { destruct (form_get form (str "skills")) as [[|c r]|]; try reflexivity.
    cbn [float_free]. apply forallb_forall. intros x Hx.
    apply in_map_iff in Hx as (piece & <- & _). reflexivity. }
  unfold sections.
  destruct (str_in T ["Paid"; "Premium"]%string), (str_eqb T (str "Premium"));
    simpl; rewrite ?Hfield; simpl in Hskills |- *; rewrite Hskills; reflexivity.
Qed.

(** X2. Whatever is submitted, the text that a save stores in
    [sections_data] is printable ASCII throughout: [json.dumps(data)]
    returns, and every character of its text lies between the space and the
    tilde, all others being escaped. *)
Theorem stored_text_is_ascii (form : Form) (T : pystr) :
  exists text : pystr,
    Encoder.dumps (sections form T) = Ret text /\ Forall printable text.
Proof.
  exists (json_text (sections form T)).
  split; [apply dumps_sections|apply dumps_printable, sections_float_free].
Qed.

(* ================================================================== *)
(** ** More on the record built *)

Lemma str_eqb_neq_iff (a b : pystr) : str_eqb a b = false <-> a <> b.
Proof. destruct (str_eqb_spec a b); split; congruence. Qed.

(** X3. The records of the three tiers form a chain: for every form the
    Paid record is the Free record followed by the paid_pages entry, and the
    Premium record is the Paid record followed by the premium_pages entry;
    the entries of a lower tier are the same in a higher one. *)
Theorem sections_chain (form : Form) :
  exists base : list (pystr * pyval),
    sections form (str "Free") = PDict base
    /\ sections form (str "Paid")
       = PDict (base ++ [ (str "paid_pages",
                           PDict [ (str "home_content", field form "home_content") ]) ])
    /\ sections form (str "Premium")
       = PDict ((base ++ [ (str "paid_pages",
                            PDict [ (str "home_content", field form "home_content") ]) ])
                ++ [ (str "premium_pages",
                      PDict [ (str "case_studies", field form "case_studies");
                              (str "testimonials", field form "testimonials");
                              (str "resume_link", field form "resume_link");
                              (str "awards", field form "awards") ]) ]).
Proof. eexists. repeat split; reflexivity. Qed.

(** X4. The tier is matched exactly. For every tier string other than
    [Paid] and [Premium], whether unlisted or in another case, the builder
    assembles the very record of tier Free. *)
Theorem sections_of_other_tier (form : Form) (T : pystr) :
  T <> str "Paid" -> T <> str "Premium" ->
  sections form T = sections form (str "Free").
Proof.
  intros HPaid HPremium. unfold sections.
  assert (E1 : str_in T ["Paid"; "Premium"]%string = false).
  { unfold str_in. cbn [existsb].
    rewrite (proj2 (str_eqb_neq_iff T (str "Paid")) HPaid).
    rewrite (proj2 (str_eqb_neq_iff T (str "Premium")) HPremium). reflexivity. }
  rewrite E1, (proj2 (str_eqb_neq_iff T (str "Premium")) HPremium). reflexivity.
Qed.

Lemma sections_of_other_tier_witness :
  str "premium" <> str "Paid" /\ str "premium" <> str "Premium"
  /\ sections form_premium (str "premium") = sections form_premium (str "Free").
Proof.
  assert (H1 : str "premium" <> str "Paid") by (vm_compute; discriminate).
  assert (H2 : str "premium" <> str "Premium") by (vm_compute; discriminate).
  split; [exact H1|]. split; [exact H2|].
  exact (sections_of_other_tier form_premium (str "premium") H1 H2).
Defined.

(** X5. Only the fourteen fields that the builder names reach the record:
    two forms that agree on them, whatever else they carry and in whatever
    order, give the same record for every tier. *)
Theorem sections_reads_named_fields (form form' : Form) (T : pystr) :
  (forall name, In name section_fields ->
                form_get form (str name) = form_get form' (str name)) ->
  sections form T = sections form' T.
Proof.
  intros Hsame.
  assert (Hfield : forall name, In name section_fields ->
                                field form name = field form' name).
  { intros name Hin. unfold field. rewrite (Hsame name Hin). reflexivity. }
  unfold sections.
  rewrite (Hsame "skills"%string) by (cbv [section_fields In]; tauto).
  repeat match goal with
         | |- context [field form ?name] =>
             rewrite (Hfield name) by (cbv [section_fields In]; tauto)
         end.
  reflexivity.
Qed.

Lemma sections_reads_named_fields_witness :
  (forall name, In name section_fields ->
                form_get form_ann (str name)
                = form_get ((str "paid_pages", str "x") :: rev form_enterprise)
                    (str name))
  /\ sections form_ann (str "Paid")
     = sections ((str "paid_pages", str "x") :: rev form_enterprise) (str "Paid").
Proof.
  assert (H : forall name, In name section_fields ->
                form_get form_ann (str name)
                = form_get ((str "paid_pages", str "x") :: rev form_enterprise)
                    (str name)).
  { intros name Hin. cbv [section_fields In] in Hin.
    repeat (destruct Hin as [<- | Hin]; [reflexivity|]). contradiction. }
  split; [exact H|].
  exact (sections_reads_named_fields form_ann _ (str "Paid") H).
Defined.

Lemma split_length (sep : Z) (s : pystr) :
  length (split sep s) = S (count_occ Z.eq_dec s sep).
Proof.
  induction s as [|c r IH]; [reflexivity|].
  cbn [split count_occ]. pose proof (split_nonempty sep r) as Hne.
  destruct (Z.eqb_spec c sep) as [->|Hc].
  - destruct (Z.eq_dec sep sep); [|congruence]. cbn [length]. rewrite IH. reflexivity.
  - destruct (Z.eq_dec c sep); [congruence|].
    destruct (split sep r) as [|piece pieces]; [congruence|]. exact IH.
Qed.

Lemma split_pieces (sep : Z) (s : pystr) :
  Forall (fun piece => ~ In sep piece) (split sep s).
Proof.
  induction s as [|c r IH]; [repeat constructor; auto|].
  cbn [split]. destruct (Z.eqb_spec c sep) as [->|Hc].
  - constructor; [auto|exact IH].
  - destruct (split sep r) as [|piece pieces]; [repeat constructor; simpl; tauto|].
    inversion IH as [|? ? Hpiece Hpieces]; subst.
    constructor; [|exact Hpieces]. simpl. intros [H|H]; [congruence|auto].
Qed.

(** X6. For a skills field that is not empty, the skills entry has one
    element more than the field has commas, empty elements included (a
    trailing comma gives a last, empty skill), and no element contains a
    comma. *)
Theorem skills_by_commas (form : Form) (T : pystr) (s : pystr) :
  form_get form (str "skills") = Some s -> s <> [] ->
  exists pieces : list pystr,
    section_of (sections form T) "skills" = Some (PList (map PStr pieces))
    /\ length pieces = S (count_occ Z.eq_dec s 44)
    /\ Forall (fun piece => ~ In 44 piece) pieces.
Proof.
  intros Hs Hne. rewrite sections_skills, Hs.
  destruct s as [|c r]; [congruence|].
  exists (split 44 (c :: r)). split; [reflexivity|].
  split; [apply split_length|apply split_pieces].
Qed.

Lemma skills_by_commas_witness :
  form_get [(str "skills", str "go,,rust,")] (str "skills") = Some (str "go,,rust,")
  /\ str "go,,rust," <> []
  /\ exists pieces : list pystr,
       section_of (sections [(str "skills", str "go,,rust,")] (str "Free")) "skills"
       = Some (PList (map PStr pieces))
       /\ length pieces = 4%nat
       /\ Forall (fun piece => ~ In 44 piece) pieces.
Proof.
  assert (Hne : str "go,,rust," <> []) by (vm_compute; discriminate).
  split; [reflexivity|]. split; [exact Hne|].
  exact (skills_by_commas [(str "skills", str "go,,rust,")] (str "Free")
           (str "go,,rust,") eq_refl Hne).
Defined.

(* ================================================================== *)
(** ** More on [edit_portfolio] *)

#[local] Arguments edit_template : simpl never.
#[local] Arguments public_template : simpl never.

Ltac edit_tail :=
  repeat match goal with
         | |- context [str_eqb ?a ?b] => destruct (str_eqb a b); simpl
         end;
  unfold get_section, ret, raise;
  repeat match goal with
         | |- context [match ?x with PNone => _ | _ => _ end] =>
             destruct x; simpl
         | |- context [dict_get ?d ?k] => destruct (dict_get d k); simpl
         end;
  reflexivity.

(** What the GET branch of [edit_portfolio] leaves in the store. *)
Lemma edit_portfolio_GET_store (accepts : nat -> bool) (form : Form) (uid : Z)
    (db : Db) (u : User.t) :
  user_by_id uid db = Some u ->
  snd (serve (edit_portfolio accepts GET form (Some uid)) db)
  = match portfolio_of (User.id u) db with
    | Some _ => db
    | None =>
        if accepts 0%nat
        then insert_portfolio
               (new_portfolio (User.id u) (User.subscription_type u) db) db
        else db
    end.
Proof.
  intros Hu. unfold edit_portfolio. run_view. rewrite Hu.
  rewrite get_or_create_cases. simpl.
  destruct (portfolio_of (User.id u) db) as [p|]; simpl.
  - destruct (parse_json (Portfolio.sections_data p)) as [sd| e |]; simpl;
      try reflexivity.
    edit_tail.
  - destruct (accepts 0%nat); simpl; [|reflexivity]. edit_tail.
Qed.

Lemma serve_logged_out (view : User.t -> M response) (user_id : option Z)
    (db : Db) :
  match user_id with
  | None => True
  | Some uid => user_by_id uid db = None
  end ->
  serve (login_required view user_id) db = (Ret (redirect "login" None), db).
Proof.
  destruct user_id as [uid|]; [|reflexivity].
  intros Hu. run_view. rewrite Hu. reflexivity.
Qed.

(** The store after [edit_portfolio], in every case. *)
Lemma edit_portfolio_store (accepts : nat -> bool) (method : http_method)
    (form : Form) (user_id : option Z) (db : Db) :
  snd (serve (edit_portfolio accepts method form user_id) db) = db
  \/ (exists u : User.t,
        user_id = Some (User.id u)
        /\ portfolio_of (User.id u) db = None
        /\ (snd (serve (edit_portfolio accepts method form user_id) db)
            = insert_portfolio
                (new_portfolio (User.id u)
                   (match method with
                    | POST => submitted_tier form
                    | GET => User.subscription_type u
                    end) db) db
            \/ snd (serve (edit_portfolio accepts method form user_id) db)
               = saved form
                   (Portfolio.id (new_portfolio (User.id u) (submitted_tier form) db))
                   (insert_portfolio
                      (new_portfolio (User.id u) (submitted_tier form) db) db)))
  \/ (exists (u : User.t) (p : Portfolio.t),
        user_id = Some (User.id u)
        /\ portfolio_of (User.id u) db = Some p
        /\ snd (serve (edit_portfolio accepts method form user_id) db)
           = saved form (Portfolio.id p) db).
Proof.
  destruct user_id as [uid|];
    [|left; unfold edit_portfolio; rewrite serve_logged_out; [reflexivity|exact I]].
  destruct (user_by_id uid db) as [u|] eqn:Hu;
    [|left; unfold edit_portfolio; rewrite serve_logged_out;
      [reflexivity|exact Hu]].
  pose proof (user_by_id_id _ _ _ Hu) as Hid.
  destruct method.
  - rewrite (edit_portfolio_GET_store _ _ _ _ u Hu).
    destruct (portfolio_of (User.id u) db) eqn:Hp; [left; reflexivity|].
    destruct (accepts 0%nat); [|left; reflexivity].
    right; left. exists u. split; [congruence|]. split; [exact Hp|].
    left; reflexivity.
  - rewrite (edit_portfolio_POST_cases _ _ _ _ u Hu). cbv zeta.
    destruct (portfolio_of (User.id u) db) as [p|] eqn:Hp.
    + destruct (accepts 0%nat); [|left; reflexivity].
      right; right. exists u, p. split; [congruence|]. split; [exact Hp|reflexivity].
    + destruct (accepts 0%nat); [|left; reflexivity].
      destruct (accepts 1%nat); right; left; exists u;
        (split; [congruence|]); (split; [exact Hp|]);
        [right|left]; reflexivity.
Qed.

(** X7. [edit_portfolio] never writes the user table, whatever the method,
    the form, the login and the fate of the commits: a save under a tier
    leaves the user's subscription_type as it was, so the saved
    portfolio_type and the subscription_type may differ. *)
Theorem edit_portfolio_keeps_users (accepts : nat -> bool) (method : http_method)
    (form : Form) (user_id : option Z) (db : Db) :
  users (snd (serve (edit_portfolio accepts method form user_id) db)) = users db.
Proof.
  destruct (edit_portfolio_store accepts method form user_id db)
    as [-> | [(u & _ & _ & [-> | ->]) | (u & p & _ & _ & ->)]]; reflexivity.
Qed.

Lemma next_id_fresh (ids : list Z) : ~ In (next_id ids) ids.
Proof.
  assert (H : forall x, In x ids -> x <= fold_right Z.max 0 ids).
  { induction ids as [|y ids IH]; [contradiction|].
    intros x [->|Hx]; simpl; [lia|]. specialize (IH x Hx). lia. }
  intros Hin. apply H in Hin. unfold next_id in Hin. lia.
Qed.

Lemma NoDup_snoc {A} (l : list A) (x : A) :
  NoDup l -> ~ In x l -> NoDup (l ++ [x]).
Proof.
  induction 1 as [|y l Hy Hl IH]; intros Hx; simpl.
  - repeat constructor. auto.
  - constructor.
    + rewrite in_app_iff. simpl. intros [H|[H|[]]]; [auto|].
      subst. apply Hx. now left.
    + apply IH. intros H. apply Hx. now right.
Qed.

Lemma portfolio_of_none (uid : Z) (db : Db) :
  portfolio_of uid db = None -> ~ In uid (map Portfolio.user_id (portfolios db)).
Proof.
  unfold portfolio_of. intros Hnone Hin.
  apply in_map_iff in Hin as (p & Hp & Hin).
  pose proof (find_none _ _ Hnone p Hin) as H. simpl in H. lia.
Qed.

Lemma on_portfolio_ids (pid : Z) (f : Portfolio.t -> Portfolio.t) (db : Db) :
  (forall p, Portfolio.id (f p) = Portfolio.id p) ->
  map Portfolio.id (portfolios (on_portfolio pid f db))
  = map Portfolio.id (portfolios db).
Proof.
  intros Hf. unfold on_portfolio. cbn [portfolios]. rewrite map_map.
  apply map_ext. intros p. destruct (Portfolio.id p =? pid); [apply Hf|reflexivity].
Qed.

Lemma on_portfolio_owners (pid : Z) (f : Portfolio.t -> Portfolio.t) (db : Db) :
  (forall p, Portfolio.user_id (f p) = Portfolio.user_id p) ->
  map Portfolio.user_id (portfolios (on_portfolio pid f db))
  = map Portfolio.user_id (portfolios db).
Proof.
  intros Hf. unfold on_portfolio. cbn [portfolios]. rewrite map_map.
  apply map_ext. intros p. destruct (Portfolio.id p =? pid); [apply Hf|reflexivity].
Qed.

Lemma well_keyed_saved (form : Form) (pid : Z) (db : Db) :
  well_keyed db -> well_keyed (saved form pid db).
Proof.
  unfold well_keyed, saved.
  rewrite !on_portfolio_ids, !on_portfolio_owners by reflexivity. auto.
Qed.

Lemma well_keyed_insert (uid : Z) (tier : pystr) (db : Db) :
  well_keyed db -> portfolio_of uid db = None ->
  well_keyed (insert_portfolio (new_portfolio uid tier db) db).
Proof.
  intros [Hid Howner] Hnone. unfold well_keyed, insert_portfolio.
  cbn [portfolios]. rewrite !map_app.
  cbn [map new_portfolio Portfolio.id Portfolio.user_id].
  split; apply NoDup_snoc; try assumption.
  - apply next_id_fresh.
  - apply portfolio_of_none. exact Hnone.
Qed.

(** X9. [edit_portfolio] keeps the key constraints of the portfolio table:
    if the ids are distinct and no user owns two portfolios before a
    request, the same holds after it, whatever the method, the form, the
    login and the fate of the commits. Under sequential use no user ever
    gets a second portfolio. *)
Theorem edit_portfolio_keeps_keys (accepts : nat -> bool) (method : http_method)
    (form : Form) (user_id : option Z) (db : Db) :
  well_keyed db ->
  well_keyed (snd (serve (edit_portfolio accepts method form user_id) db)).
Proof.
  intros Hdb.
  destruct (edit_portfolio_store accepts method form user_id db)
    as [-> | [(u & _ & Hnone & [-> | ->]) | (u & p & _ & _ & ->)]].
  - exact Hdb.
  - apply well_keyed_insert; assumption.
  - apply well_keyed_saved, well_keyed_insert; assumption.
  - apply well_keyed_saved. exact Hdb.
Qed.

Lemma edit_portfolio_keeps_keys_witness :
  well_keyed db_two
  /\ well_keyed (snd (serve (edit_portfolio always POST form_premium (Some 1))
                        db_two)).
Proof.
  assert (H : well_keyed db_two).
  { split; cbn; repeat constructor; simpl; intuition discriminate. }
  split; [exact H|].
  exact (edit_portfolio_keeps_keys always POST form_premium (Some 1) db_two H).
Defined.

Lemma NoDup_map_eq {A B} (f : A -> B) (l : list A) (a b : A) :
  NoDup (map f l) -> In a l -> In b l -> f a = f b -> a = b.
Proof.
  induction l as [|x l IH]; [contradiction|].
  cbn [map]. intros Hnd Ha Hb Hab. inversion Hnd as [|? ? Hx Hl]; subst.
  destruct Ha as [->|Ha], Hb as [->|Hb]; auto.
  - exfalso. apply Hx. rewrite Hab. apply in_map. exact Hb.
  - exfalso. apply Hx. rewrite <- Hab. apply in_map. exact Ha.
Qed.

Lemma portfolio_of_in (uid : Z) (db : Db) (p : Portfolio.t) :
  portfolio_of uid db = Some p ->
  In p (portfolios db) /\ Portfolio.user_id p = uid.
Proof.
  unfold portfolio_of. intros H. apply find_some in H as [Hin H].
  split; [exact Hin|lia].
Qed.

Lemma portfolio_of_insert_other (uid' : Z) (row : Portfolio.t) (db : Db) :
  Portfolio.user_id row <> uid' ->
  portfolio_of uid' (insert_portfolio row db) = portfolio_of uid' db.
Proof.
  intros Hne. unfold portfolio_of, insert_portfolio. cbn [portfolios].
  rewrite find_snoc.
  destruct (find (fun p => Portfolio.user_id p =? uid') (portfolios db));
    [reflexivity|].
  rewrite (proj2 (Z.eqb_neq _ _) Hne). reflexivity.
Qed.

Lemma portfolio_of_saved_other (form : Form) (pid uid' : Z) (db : Db) :
  (forall q, portfolio_of uid' db = Some q -> Portfolio.id q <> pid) ->
  portfolio_of uid' (saved form pid db) = portfolio_of uid' db.
Proof.
  intros Hother. unfold saved.
  rewrite !portfolio_of_on_portfolio by reflexivity.
  destruct (portfolio_of uid' db) as [q|]; [|reflexivity].
  specialize (Hother q eq_refl). cbn [option_map].
  rewrite (proj2 (Z.eqb_neq _ _) Hother). cbn [option_map].
  rewrite (proj2 (Z.eqb_neq _ _) Hother). reflexivity.
Qed.

(** X8. [edit_portfolio] touches the portfolio of the requesting user only:
    when the ids of the stored portfolios are distinct, the portfolio of
    every other user is after the request what it was before, whatever the
    method, the form and the fate of the commits. *)
Theorem edit_portfolio_touches_own_only (accepts : nat -> bool)
    (method : http_method) (form : Form) (user_id : option Z) (db : Db)
    (other : Z) :
  NoDup (map Portfolio.id (portfolios db)) ->
  user_id <> Some other ->
  portfolio_of other
    (snd (serve (edit_portfolio accepts method form user_id) db))
  = portfolio_of other db.
Proof.
  intros Hids Hother.
  destruct (edit_portfolio_store accepts method form user_id db)
    as [-> | [(u & Hu & Hnone & [-> | ->]) | (u & p & Hu & Hp & ->)]].
  - reflexivity.
  - apply portfolio_of_insert_other. unfold new_portfolio.
    cbn [Portfolio.user_id]. congruence.
  - assert (Hrow : forall T,
               Portfolio.user_id (new_portfolio (User.id u) T db) <> other)
      by (intros T; unfold new_portfolio; cbn [Portfolio.user_id]; congruence).
    rewrite portfolio_of_saved_other.
    + apply portfolio_of_insert_other, Hrow.
    + intros q Hq. rewrite portfolio_of_insert_other in Hq by apply Hrow.
      apply portfolio_of_in in Hq as [Hin _].
      intros Heq. apply (next_id_fresh (map Portfolio.id (portfolios db))).
      unfold new_portfolio in Heq. cbn [Portfolio.id] in Heq.
      rewrite <- Heq. apply in_map. exact Hin.
  - apply portfolio_of_saved_other. intros q Hq Heq.
    apply portfolio_of_in in Hq as [Hqin Hquid].
    apply portfolio_of_in in Hp as [Hpin Hpuid].
    pose proof (NoDup_map_eq Portfolio.id _ q p Hids Hqin Hpin Heq). subst q.
    congruence.
Qed.

Lemma edit_portfolio_touches_own_only_witness :
  NoDup (map Portfolio.id (portfolios db_two))
  /\ Some 1 <> Some 2
  /\ portfolio_of 2
       (snd (serve (edit_portfolio always POST form_premium (Some 1)) db_two))
     = Some (Portfolio.mk 2 2 (str "Paid") (Some (str "[]"))).
Proof.
  assert (H : NoDup (map Portfolio.id (portfolios db_two))).
  { cbn. repeat constructor; simpl; intuition discriminate. }
  assert (Hne : Some 1 <> Some 2) by discriminate.
  split; [exact H|]. split; [exact Hne|].
  exact (edit_portfolio_touches_own_only always POST form_premium (Some 1) db_two
           2 H Hne).
Defined.

Lemma saved_saved (form : Form) (pid : Z) (db : Db) :
  saved form pid (saved form pid db) = saved form pid db.
Proof.
  unfold saved, on_portfolio. cbn [users portfolios]. f_equal.
  rewrite !map_map. apply map_ext. intros [i owner tier text].
  cbv [Portfolio.set_portfolio_type Portfolio.set_sections_data Portfolio.id
       Portfolio.user_id Portfolio.portfolio_type Portfolio.sections_data].
  destruct (i =? pid) eqn:E; rewrite ?E; reflexivity.
Qed.

(** X10. Saving is idempotent: when the store accepts the commits, posting
    the same form a second time leaves the database exactly as the first
    post left it; no second row is created and nothing else changes. *)
Theorem save_twice_is_save_once (accepts : nat -> bool) (form : Form) (uid : Z)
    (db : Db) (u : User.t) :
  user_by_id uid db = Some u ->
  (forall n, accepts n = true) ->
  snd (serve (edit_portfolio accepts POST form (Some uid))
         (snd (serve (edit_portfolio accepts POST form (Some uid)) db)))
  = snd (serve (edit_portfolio accepts POST form (Some uid)) db).
Proof.
  intros Hu Hok.
  rewrite (edit_portfolio_POST_cases accepts form uid db u Hu). cbv zeta.
  rewrite !Hok.
  destruct (portfolio_of (User.id u) db) as [p|] eqn:Hp; cbn [snd].
  - rewrite (edit_portfolio_POST_cases accepts form uid _ u) by exact Hu.
    rewrite (portfolio_of_saved form _ db p Hp), !Hok. cbn [snd Portfolio.id].
    apply saved_saved.
  - rewrite (edit_portfolio_POST_cases accepts form uid _ u) by exact Hu.
    rewrite (portfolio_of_saved form _ _ _
               (portfolio_of_insert (User.id u) (submitted_tier form) db Hp)).
    rewrite !Hok. cbn [snd Portfolio.id]. apply saved_saved.
Qed.

Lemma save_twice_is_save_once_witness :
  user_by_id 1 db_new = Some ann
  /\ snd (serve (edit_portfolio always POST form_premium (Some 1))
            (snd (serve (edit_portfolio always POST form_premium (Some 1)) db_new)))
     = snd (serve (edit_portfolio always POST form_premium (Some 1)) db_new).
Proof.
  split; [reflexivity|].
  exact (save_twice_is_save_once always form_premium 1 db_new ann eq_refl
           (fun _ => eq_refl)).
Defined.

(** X11. Without a login, or with the id of a user who does not exist, the
    views under [login_required], [select_plan], [edit_portfolio] of either
    method, [plan_details] and [dashboard], all answer with the redirect to
    [login] and store nothing, whatever they were sent. *)
Theorem login_required_views_turn_away (accepts : nat -> bool) (user_id : option Z)
    (db : Db) (plan_type : pystr) (method : http_method) (form : Form) :
  match user_id with
  | None => True
  | Some uid => user_by_id uid db = None
  end ->
  serve (select_plan accepts plan_type user_id) db
  = (Ret (redirect "login" None), db)
  /\ serve (edit_portfolio accepts method form user_id) db
     = (Ret (redirect "login" None), db)
  /\ serve (plan_details user_id) db = (Ret (redirect "login" None), db)
  /\ serve (dashboard user_id) db = (Ret (redirect "login" None), db).
Proof.
  intros Hout. unfold select_plan, edit_portfolio, plan_details, dashboard.
  repeat split; apply serve_logged_out; exact Hout.
Qed.

Lemma login_required_views_turn_away_witness :
  user_by_id 7 db_two = None
  /\ serve (select_plan always (str "Premium") (Some 7)) db_two
     = (Ret (redirect "login" None), db_two)
  /\ serve (edit_portfolio always POST form_premium (Some 7)) db_two
     = (Ret (redirect "login" None), db_two)
  /\ serve (plan_details (Some 7)) db_two = (Ret (redirect "login" None), db_two)
  /\ serve (dashboard (Some 7)) db_two = (Ret (redirect "login" None), db_two).
Proof.
  split; [reflexivity|].
  exact (login_required_views_turn_away always (Some 7) db_two (str "Premium")
           POST form_premium eq_refl).
Defined.

(** X12. Opening the edit form never alters what is stored for a user who
    owns a portfolio, whatever the plan and whatever the form decodes to.
    For a user who owns none it stores, when the commit is accepted, exactly
    one new row: the account's subscription_type as portfolio_type and the
    empty record, even when that plan is unlisted and the answer is the
    redirect to the plans; when the commit is refused nothing is stored. *)
Theorem edit_form_stores_at_most_a_new_row (accepts : nat -> bool) (form : Form)
    (uid : Z) (db : Db) (u : User.t) :
  user_by_id uid db = Some u ->
  (portfolio_of (User.id u) db <> None ->
   snd (serve (edit_portfolio accepts GET form (Some uid)) db) = db)
  /\ (portfolio_of (User.id u) db = None ->
      snd (serve (edit_portfolio accepts GET form (Some uid)) db)
      = if accepts 0%nat
        then mkDb (users db)
               (portfolios db
                ++ [Portfolio.mk (next_id (map Portfolio.id (portfolios db)))
                      (User.id u) (User.subscription_type u) (Some (str "{}"))])
        else db).
Proof.
  intros Hu. rewrite (edit_portfolio_GET_store _ _ _ _ u Hu).
  destruct (portfolio_of (User.id u) db); split; intros H;
    try congruence; reflexivity.
Qed.

Lemma edit_form_stores_at_most_a_new_row_witness :
  user_by_id 1 db_new = Some ann
  /\ snd (serve (edit_portfolio always GET [] (Some 1)) db_new) = db_free
  /\ snd (serve (edit_portfolio always GET [] (Some 1)) db_free) = db_free.
Proof.
  split; [reflexivity|].
  split.
  - exact (proj2 (edit_form_stores_at_most_a_new_row always [] 1 db_new ann
                    eq_refl) eq_refl).
  - apply (proj1 (edit_form_stores_at_most_a_new_row always [] 1 db_free ann
                    eq_refl)).
    discriminate.
Defined.

#[local] Arguments get_section : simpl never.

(** What the GET branch of [edit_portfolio] answers for a user who owns a
    portfolio. *)
Lemma edit_portfolio_GET_response (accepts : nat -> bool) (form : Form) (uid : Z)
    (db : Db) (u : User.t) (p : Portfolio.t) (sd : pyval) :
  user_by_id uid db = Some u ->
  portfolio_of (User.id u) db = Some p ->
  parse_json (Portfolio.sections_data p) = Ret sd ->
  fst (serve (edit_portfolio accepts GET form (Some uid)) db)
  = let plan := User.subscription_type u in
    let entry key := match sd with
                     | PDict d => match dict_get d (str key) with
                                  | Some v => v
                                  | None => empty_dict
                                  end
                     | _ => empty_dict
                     end in
    if str_eqb plan (str "Free") then
      Ret (render_template "edit_free_portfolio.html"
             [ ("sections_data", AValue sd);
               ("portfolio", APortfolio (Some p)) ]%string)
    else if str_eqb plan (str "Paid") then
      if is_dict sd then
        Ret (render_template "edit_paid_portfolio.html"
               [ ("sections_data", AValue sd);
                 ("portfolio", APortfolio (Some p));
                 ("paid_pages", AValue (entry "paid_pages"%string)) ]%string)
      else Raise AttributeError
    else if str_eqb plan (str "Premium") then
      if is_dict sd then
        Ret (render_template "edit_premium_portfolio.html"
               [ ("sections_data", AValue sd);
                 ("portfolio", APortfolio (Some p));
                 ("paid_pages", AValue (entry "paid_pages"%string));
                 ("premium_pages", AValue (entry "premium_pages"%string)) ]%string)
      else Raise AttributeError
    else Ret (redirect "plan_details" None).
Proof.
  intros Hu Hp Hsd. unfold edit_portfolio. run_view. rewrite Hu.
  rewrite get_or_create_cases. simpl. rewrite Hp. simpl. rewrite Hsd. simpl.
  destruct (str_eqb (User.subscription_type u) (str "Free")); [reflexivity|].
  destruct (str_eqb (User.subscription_type u) (str "Paid")).
  { destruct sd; try reflexivity. unfold get_section.
    destruct (dict_get pairs (str "paid_pages")); reflexivity. }
  destruct (str_eqb (User.subscription_type u) (str "Premium")); [|reflexivity].
  destruct sd; try reflexivity. unfold get_section.
  destruct (dict_get pairs (str "paid_pages"));
    destruct (dict_get pairs (str "premium_pages")); reflexivity.
Qed.

(** What the GET branch of [edit_portfolio] does when [parse_json] raises
    on the stored text of a user who owns a portfolio. *)
Lemma edit_portfolio_GET_raises (accepts : nat -> bool) (form : Form) (uid : Z)
    (db : Db) (u : User.t) (p : Portfolio.t) (e : exn) :
  user_by_id uid db = Some u ->
  portfolio_of (User.id u) db = Some p ->
  parse_json (Portfolio.sections_data p) = Raise e ->
  serve (edit_portfolio accepts GET form (Some uid)) db = (Raise e, db).
Proof.
  intros Hu Hp Hsd. unfold edit_portfolio. run_view. rewrite Hu.
  rewrite get_or_create_cases. simpl. rewrite Hp. simpl. rewrite Hsd.
  reflexivity.
Qed.

(** X13. On the Free plan the edit form opens on whatever [parse_json]
    makes of the stored text. For a user who owns a portfolio, whenever
    [parse_json] returns, be the stored text absent, malformed or of the
    wrong shape, the GET renders [edit_free_portfolio.html] with the value
    returned and stores nothing; the one way it fails is a [RecursionError]
    or a [ValueError] that [parse_json] lets through, which then leaves the
    view with nothing stored. *)
Theorem free_edit_form_opens_any_shape (accepts : nat -> bool) (form : Form)
    (uid : Z) (db : Db) (u : User.t) (p : Portfolio.t) :
  user_by_id uid db = Some u ->
  portfolio_of (User.id u) db = Some p ->
  User.subscription_type u = str "Free" ->
  match parse_json (Portfolio.sections_data p) with
  | Ret sd =>
      serve (edit_portfolio accepts GET form (Some uid)) db
      = (Ret (render_template "edit_free_portfolio.html"
                [ ("sections_data", AValue sd);
                  ("portfolio", APortfolio (Some p)) ]%string), db)
  | Raise e =>
      (e = RecursionError \/ e = ValueError)
      /\ serve (edit_portfolio accepts GET form (Some uid)) db = (Raise e, db)
  | Starved => False
  end.
Proof.
  intros Hu Hp Hplan.
  destruct (parse_json (Portfolio.sections_data p)) as [sd| e |] eqn:Hsd.
  - rewrite (surjective_pairing (serve _ db)).
    rewrite (edit_portfolio_GET_response _ _ _ _ u p sd Hu Hp Hsd).
    rewrite (edit_portfolio_GET_store _ _ _ _ u Hu), Hp, Hplan.
    reflexivity.
  - split; [exact (parse_json_raises _ _ Hsd)|].
    exact (edit_portfolio_GET_raises accepts form uid db u p e Hu Hp Hsd).
  - exact (parse_json_not_starved _ Hsd).
Qed.

Lemma free_edit_form_opens_any_shape_witness :
  parse_json (Some (str "[1, 2")) = Ret empty_dict
  /\ serve (edit_portfolio first_only GET [] (Some 1))
       (mkDb [ann] [Portfolio.mk 5 1 (str "Paid") (Some (str "[1, 2"))])
     = (Ret (render_template "edit_free_portfolio.html"
               [ ("sections_data", AValue empty_dict);
                 ("portfolio",
                  APortfolio (Some (Portfolio.mk 5 1 (str "Paid")
                                      (Some (str "[1, 2"))))) ]%string),
        mkDb [ann] [Portfolio.mk 5 1 (str "Paid") (Some (str "[1, 2"))]).
Proof.
  split; [vm_compute; reflexivity|].
  exact (free_edit_form_opens_any_shape first_only [] 1
           (mkDb [ann] [Portfolio.mk 5 1 (str "Paid") (Some (str "[1, 2"))])
           ann (Portfolio.mk 5 1 (str "Paid") (Some (str "[1, 2")))
           eq_refl eq_refl eq_refl).
Defined.

(** X14. On the Paid and Premium plans the edit form breaks on stored text
    of the wrong shape: when the stored sections_data decodes to anything
    but an object (a list, a string, a number, a boolean, null), the GET
    raises [AttributeError] at [sections_data.get] and stores nothing. *)
Theorem paid_edit_form_breaks_on_wrong_shape (accepts : nat -> bool)
    (form : Form) (uid : Z) (db : Db) (u : User.t) (p : Portfolio.t)
    (sd : pyval) :
  user_by_id uid db = Some u ->
  portfolio_of (User.id u) db = Some p ->
  User.subscription_type u = str "Paid"
  \/ User.subscription_type u = str "Premium" ->
  parse_json (Portfolio.sections_data p) = Ret sd ->
  is_dict sd = false ->
  serve (edit_portfolio accepts GET form (Some uid)) db
  = (Raise AttributeError, db).
Proof.
  intros Hu Hp Hplan Hsd Hshape.
  rewrite (surjective_pairing (serve _ db)).
  rewrite (edit_portfolio_GET_response _ _ _ _ u p sd Hu Hp Hsd).
  rewrite (edit_portfolio_GET_store _ _ _ _ u Hu), Hp, Hshape.
  destruct Hplan as [-> | ->]; reflexivity.
Qed.

Lemma paid_edit_form_breaks_on_wrong_shape_witness :
  user_by_id 2 db_two = Some bea
  /\ parse_json (Some (str "[]")) = Ret (PList [])
  /\ serve (edit_portfolio always GET [] (Some 2)) db_two
     = (Raise AttributeError, db_two).
Proof.
  split; [reflexivity|]. split; [reflexivity|].
  exact (paid_edit_form_breaks_on_wrong_shape always [] 2 db_two bea
           (Portfolio.mk 2 2 (str "Paid") (Some (str "[]"))) (PList [])
           eq_refl eq_refl (or_introl eq_refl) eq_refl eq_refl).
Defined.

Lemma sections_is_dict (form : Form) (T : pystr) :
  exists d, sections form T = PDict d.
Proof. unfold sections. eexists. reflexivity. Qed.

Lemma users_saved (form : Form) (pid : Z) (db : Db) :
  users (saved form pid db) = users db.
Proof. reflexivity. Qed.

(** The database after an accepted save, and the user's row in it. *)
Lemma edit_portfolio_POST_accepted (accepts : nat -> bool) (form : Form) (uid : Z)
    (db : Db) (u : User.t) :
  user_by_id uid db = Some u ->
  (forall n, accepts n = true) ->
  exists pid : Z,
    users (snd (serve (edit_portfolio accepts POST form (Some uid)) db)) = users db
    /\ portfolio_of (User.id u)
         (snd (serve (edit_portfolio accepts POST form (Some uid)) db))
       = Some (Portfolio.mk pid (User.id u) (submitted_tier form)
                 (Some (json_text (sections form (submitted_tier form))))).
Proof.
  intros Hu Hok. rewrite (edit_portfolio_POST_cases _ _ _ _ u Hu). cbv zeta.
  rewrite !Hok. destruct (portfolio_of (User.id u) db) as [p|] eqn:Hp; cbn [snd].
  - exists (Portfolio.id p). split; [reflexivity|].
    rewrite (portfolio_of_saved form _ db p Hp).
    apply portfolio_of_in in Hp as [_ ->]. reflexivity.
  - eexists. split; [reflexivity|].
    rewrite (portfolio_of_saved form _ _ _
               (portfolio_of_insert (User.id u) (submitted_tier form) db Hp)).
    reflexivity.
Qed.

(** X15. Saving and then opening the edit form shows what was saved, in the
    form of the account's plan and not of the tier saved under. After an
    accepted save of a form whose values are text, the GET of a user on a
    listed plan renders the template of that plan with the record built from
    the form as sections_data; on Paid and Premium, paid_pages and
    premium_pages are the entries of that record, or [{}] where the saved
    tier has none. *)
Theorem edit_form_shows_the_save (accepts : nat -> bool) (form : Form) (uid : Z)
    (db : Db) (u : User.t) :
  user_by_id uid db = Some u ->
  (forall n, accepts n = true) ->
  form_text form = true ->
  In (User.subscription_type u) tiers ->
  exists p : Portfolio.t,
    let data := sections form (submitted_tier form) in
    let entry key := match section_of data key with
                     | Some v => v
                     | None => empty_dict
                     end in
    let plan := User.subscription_type u in
    portfolio_of (User.id u)
      (snd (serve (edit_portfolio accepts POST form (Some uid)) db)) = Some p
    /\ fst (serve (edit_portfolio accepts GET [] (Some uid))
              (snd (serve (edit_portfolio accepts POST form (Some uid)) db)))
       = Ret (render_template (edit_template plan)
                ([ ("sections_data", AValue data);
                   ("portfolio", APortfolio (Some p)) ]%string
                 ++ (if str_eqb plan (str "Free") then []
                     else if str_eqb plan (str "Paid") then
                       [ ("paid_pages", AValue (entry "paid_pages"%string)) ]%string
                     else
                       [ ("paid_pages", AValue (entry "paid_pages"%string));
                         ("premium_pages",
                          AValue (entry "premium_pages"%string)) ]%string))).
Proof.
  intros Hu Hok Hform Hplan.
  destruct (edit_portfolio_POST_accepted accepts form uid db u Hu Hok)
    as (pid & Husers & Hp).
  eexists. cbv zeta. split; [exact Hp|].
  assert (Hu' : user_by_id uid
                  (snd (serve (edit_portfolio accepts POST form (Some uid)) db))
                = Some u) by (unfold user_by_id; rewrite Husers; exact Hu).
  rewrite (edit_portfolio_GET_response accepts [] uid _ u _
             (sections form (submitted_tier form)) Hu' Hp).
  2:{ cbn [Portfolio.sections_data]. unfold parse_json.
      rewrite loads_dumps_sections by exact Hform. reflexivity. }
  cbv zeta. destruct (sections_is_dict form (submitted_tier form)) as [d Hd].
  rewrite Hd. cbn [is_dict section_of]. unfold edit_template.
  apply tier_cases in Hplan.
  destruct (str_eqb (User.subscription_type u) (str "Free")); [reflexivity|].
  destruct (str_eqb (User.subscription_type u) (str "Paid")); [reflexivity|].
  destruct (str_eqb (User.subscription_type u) (str "Premium")); [reflexivity|].
  intuition discriminate.
Qed.

Lemma edit_form_shows_the_save_witness :
  exists p : Portfolio.t,
    portfolio_of 2
      (snd (serve (edit_portfolio always POST form_ann (Some 2)) db_two)) = Some p
    /\ fst (serve (edit_portfolio always GET [] (Some 2))
              (snd (serve (edit_portfolio always POST form_ann (Some 2)) db_two)))
       = Ret (render_template "edit_paid_portfolio.html"
                [ ("sections_data", AValue (sections form_ann (str "Free")));
                  ("portfolio", APortfolio (Some p));
                  ("paid_pages", AValue empty_dict) ]%string).
Proof.
  exact (edit_form_shows_the_save always form_ann 2 db_two bea eq_refl
           (fun _ => eq_refl) eq_refl (or_intror (or_introl eq_refl))).
Defined.

(* ================================================================== *)
(** ** More on [select_plan] *)

(** The database that an accepted selection of a plan stores. *)
Lemma select_plan_store (accepts : nat -> bool) (plan_type : pystr)
    (user_id : option Z) (db : Db) :
  serve (select_plan accepts plan_type user_id) db
  = (fst (serve (select_plan accepts plan_type user_id) db), db)
    /\ fst (serve (select_plan accepts plan_type user_id) db)
       <> Ret (redirect "dashboard" None)
  \/ (exists u : User.t,
        user_id = Some (User.id u)
        /\ user_by_id (User.id u) db = Some u
        /\ str_in plan_type ["Free"; "Paid"; "Premium"]%string = true
        /\ accepts 0%nat = true
        /\ serve (select_plan accepts plan_type user_id) db
           = (Ret (redirect "dashboard" None),
              let db1 := on_user (User.id u)
                           (User.set_subscription_type plan_type) db in
              match portfolio_of (User.id u) db with
              | Some p => on_portfolio (Portfolio.id p)
                            (Portfolio.set_portfolio_type plan_type) db1
              | None => db1
              end)).
Proof.
  destruct user_id as [uid|];
    [|left; unfold select_plan; rewrite serve_logged_out;
      [split; [reflexivity|discriminate]|exact I]].
  destruct (user_by_id uid db) as [u|] eqn:Hu;
    [|left; unfold select_plan; rewrite serve_logged_out;
      [split; [reflexivity|discriminate]|exact Hu]].
  pose proof (user_by_id_id _ _ _ Hu) as Hid.
  rewrite (select_plan_cases _ _ _ _ u Hu).
  destruct (str_in plan_type ["Free"; "Paid"; "Premium"]%string) eqn:Hplan;
    cbn [negb]; [|left; split; [reflexivity|discriminate]].
  cbv zeta. rewrite portfolio_of_on_user.
  destruct (accepts 0%nat) eqn:Hok; [|left; split; [reflexivity|discriminate]].
  right. exists u. rewrite Hid. repeat split; auto.
Qed.

(** X16. A change of plan is all or nothing. Unless [select_plan] answers
    with the redirect to the dashboard, which is for a listed plan, a
    logged-in user and an accepted commit, nothing at all is stored: neither
    the subscription_type nor the portfolio_type changes when the commit is
    refused. *)
Theorem select_plan_all_or_nothing (accepts : nat -> bool) (plan_type : pystr)
    (user_id : option Z) (db : Db) :
  fst (serve (select_plan accepts plan_type user_id) db)
  <> Ret (redirect "dashboard" None) ->
  snd (serve (select_plan accepts plan_type user_id) db) = db.
Proof.
  intros Hnot.
  destruct (select_plan_store accepts plan_type user_id db)
    as [[-> _] | (u & _ & _ & _ & _ & H)]; [reflexivity|].
  rewrite H in Hnot. cbn [fst] in Hnot. congruence.
Qed.

Lemma select_plan_all_or_nothing_witness :
  fst (serve (select_plan (fun _ => false) (str "Premium") (Some 1)) db_two)
  = Raise SQLAlchemyError
  /\ snd (serve (select_plan (fun _ => false) (str "Premium") (Some 1)) db_two)
     = db_two.
Proof.
  split; [reflexivity|].
  apply (select_plan_all_or_nothing (fun _ => false) (str "Premium") (Some 1)
           db_two).
  discriminate.
Defined.




Lemma user_by_id_on_user_other (uid other : Z) (f : User.t -> User.t) (db : Db) :
  (forall u, User.id (f u) = User.id u) -> uid <> other ->
  user_by_id other (on_user uid f db) = user_by_id other db.
Proof.
  intros Hf Hne. unfold user_by_id, on_user. cbn [users].
  rewrite find_map_stable.
  - destruct (find (fun u => User.id u =? other) (users db)) as [u|] eqn:E;
      [|reflexivity].
    apply find_some in E as [_ E]. cbn [option_map].
    replace (User.id u =? uid) with false by lia. reflexivity.
  - intros u. cbv beta. destruct (User.id u =? uid); [|reflexivity].
    rewrite Hf. reflexivity.
Qed.

(** X18. [select_plan] changes the account of the requesting user only: the
    row of every other user is after it what it was before and, when the ids
    of the stored portfolios are distinct, so is the portfolio of every
    other user. *)
Theorem select_plan_touches_own_only (accepts : nat -> bool) (plan_type : pystr)
    (user_id : option Z) (db : Db) (other : Z) :
  NoDup (map Portfolio.id (portfolios db)) ->
  user_id <> Some other ->
  user_by_id other (snd (serve (select_plan accepts plan_type user_id) db))
  = user_by_id other db
  /\ portfolio_of other (snd (serve (select_plan accepts plan_type user_id) db))
     = portfolio_of other db.
Proof.
  intros Hids Hother.
  destruct (select_plan_store accepts plan_type user_id db)
    as [[-> _] | (u & Hu & _ & _ & _ & ->)]; cbn [snd]; [split; reflexivity|].
  assert (Hne : User.id u <> other) by congruence.
  cbv zeta. destruct (portfolio_of (User.id u) db) as [p|] eqn:Hp.
  - split.
    + rewrite user_by_id_on_portfolio.
      apply user_by_id_on_user_other; [reflexivity|exact Hne].
    + rewrite portfolio_of_on_portfolio by reflexivity.
      rewrite portfolio_of_on_user.
      destruct (portfolio_of other db) as [q|] eqn:Hq; [|reflexivity].
      cbn [option_map].
      apply portfolio_of_in in Hq as [Hqin Hquid].
      apply portfolio_of_in in Hp as [Hpin Hpuid].
      destruct (Z.eqb_spec (Portfolio.id q) (Portfolio.id p)) as [Heq|]; 
        [|reflexivity].
      pose proof (NoDup_map_eq Portfolio.id _ q p Hids Hqin Hpin Heq). subst q.
      congruence.
  - split; [|reflexivity].
    apply user_by_id_on_user_other; [reflexivity|exact Hne].
Qed.

Lemma select_plan_touches_own_only_witness :
  NoDup (map Portfolio.id (portfolios db_two))
  /\ Some 1 <> Some 2
  /\ user_by_id 2 (snd (serve (select_plan always (str "Premium") (Some 1)) db_two))
     = Some bea
  /\ portfolio_of 2
       (snd (serve (select_plan always (str "Premium") (Some 1)) db_two))
     = Some (Portfolio.mk 2 2 (str "Paid") (Some (str "[]"))).
Proof.
  assert (H : NoDup (map Portfolio.id (portfolios db_two))).
  { cbn. repeat constructor; simpl; intuition discriminate. }
  assert (Hne : Some 1 <> Some 2) by discriminate.
  split; [exact H|]. split; [exact Hne|].
  exact (select_plan_touches_own_only always (str "Premium") (Some 1) db_two 2
           H Hne).
Defined.

(** The database after an accepted selection of a listed plan. *)
Lemma select_plan_accepted (accepts : nat -> bool) (plan_type : pystr) (uid : Z)
    (db : Db) (u : User.t) :
  user_by_id uid db = Some u ->
  In plan_type tiers ->
  accepts 0%nat = true ->
  snd (serve (select_plan accepts plan_type (Some uid)) db)
  = match portfolio_of (User.id u) db with
    | Some p => on_portfolio (Portfolio.id p)
                  (Portfolio.set_portfolio_type plan_type)
                  (on_user (User.id u) (User.set_subscription_type plan_type) db)
    | None => on_user (User.id u) (User.set_subscription_type plan_type) db
    end.
Proof.
  intros Hu HT Hok.
  rewrite (select_plan_cases _ _ _ _ u Hu), (str_in_tiers _ HT), Hok.
  cbn [negb snd]. cbv zeta. rewrite portfolio_of_on_user. reflexivity.
Qed.

Lemma user_by_id_after_select (plan_type : pystr) (uid : Z) (db : Db) (u : User.t) :
  user_by_id uid db = Some u ->
  user_by_id uid
    match portfolio_of (User.id u) db with
    | Some p => on_portfolio (Portfolio.id p)
                  (Portfolio.set_portfolio_type plan_type)
                  (on_user (User.id u) (User.set_subscription_type plan_type) db)
    | None => on_user (User.id u) (User.set_subscription_type plan_type) db
    end
  = Some (User.set_subscription_type plan_type u).
Proof.
  intros Hu. pose proof (user_by_id_id _ _ _ Hu) as Hid.
  assert (H : user_by_id uid
                (on_user (User.id u) (User.set_subscription_type plan_type) db)
              = Some (User.set_subscription_type plan_type u)).
  { rewrite Hid, user_by_id_on_user by reflexivity. rewrite Hu. reflexivity. }
  destruct (portfolio_of (User.id u) db); [|exact H].
  rewrite user_by_id_on_portfolio. exact H.
Qed.

Lemma set_plan_twice (T1 T2 : pystr) (uid : Z) (db : Db) :
  on_user uid (User.set_subscription_type T2)
    (on_user uid (User.set_subscription_type T1) db)
  = on_user uid (User.set_subscription_type T2) db.
Proof.
  unfold on_user. cbn [users portfolios]. f_equal.
  rewrite map_map. apply map_ext. intros [i name mail hash plan photo bio links].
  cbv [User.set_subscription_type User.id User.username User.email
       User.password_hash User.subscription_type User.profile_photo User.bio
       User.social_links].
  destruct (i =? uid) eqn:E; rewrite ?E; reflexivity.
Qed.

Lemma set_tier_twice (T1 T2 : pystr) (pid : Z) (db : Db) :
  on_portfolio pid (Portfolio.set_portfolio_type T2)
    (on_portfolio pid (Portfolio.set_portfolio_type T1) db)
  = on_portfolio pid (Portfolio.set_portfolio_type T2) db.
Proof.
  unfold on_portfolio. cbn [users portfolios]. f_equal.
  rewrite map_map. apply map_ext. intros [i owner tier text].
  cbv [Portfolio.set_portfolio_type Portfolio.id Portfolio.user_id
       Portfolio.portfolio_type Portfolio.sections_data].
  destruct (i =? pid) eqn:E; rewrite ?E; reflexivity.
Qed.

Lemma on_user_on_portfolio (uid pid : Z) (f : User.t -> User.t)
    (g : Portfolio.t -> Portfolio.t) (db : Db) :
  on_user uid f (on_portfolio pid g db) = on_portfolio pid g (on_user uid f db).
Proof. reflexivity. Qed.

(** X19. The last plan selected wins: after two accepted selections of
    listed plans by the same user, the database is what the second
    selection alone would have stored; nothing of the first is left. *)
Theorem last_plan_wins (accepts : nat -> bool) (T1 T2 : pystr) (uid : Z)
    (db : Db) (u : User.t) :
  user_by_id uid db = Some u ->
  In T1 tiers -> In T2 tiers ->
  accepts 0%nat = true ->
  snd (serve (select_plan accepts T2 (Some uid))
         (snd (serve (select_plan accepts T1 (Some uid)) db)))
  = snd (serve (select_plan accepts T2 (Some uid)) db).
Proof.
  intros Hu H1 H2 Hok.
  rewrite (select_plan_accepted accepts T1 uid db u Hu H1 Hok).
  rewrite (select_plan_accepted accepts T2 uid db u Hu H2 Hok).
  rewrite (select_plan_accepted accepts T2 uid _ _
             (user_by_id_after_select T1 uid db u Hu) H2 Hok).
  cbn [User.set_subscription_type User.id].
  destruct (portfolio_of (User.id u) db) as [p|] eqn:Hp.
  - rewrite portfolio_of_on_portfolio by reflexivity.
    rewrite portfolio_of_on_user, Hp. cbn [option_map].
    rewrite Z.eqb_refl. cbn [Portfolio.set_portfolio_type Portfolio.id].
    rewrite on_user_on_portfolio, set_plan_twice, set_tier_twice. reflexivity.
  - rewrite portfolio_of_on_user, Hp. apply set_plan_twice.
Qed.

Lemma last_plan_wins_witness :
  snd (serve (select_plan always (str "Free") (Some 2))
         (snd (serve (select_plan always (str "Premium") (Some 2)) db_two)))
  = snd (serve (select_plan always (str "Free") (Some 2)) db_two).
Proof.
  apply (last_plan_wins always (str "Premium") (str "Free") 2 db_two bea).
  - reflexivity.
  - right; right; left; reflexivity.
  - left; reflexivity.
  - reflexivity.
Defined.

(** X20. The plan page shows the plan just selected: after an accepted
    selection of a listed plan, [plan_details] renders [plan_details.html]
    with that plan as current_plan, and stores nothing. *)
Theorem plan_details_shows_selected_plan (accepts : nat -> bool)
    (plan_type : pystr) (uid : Z) (db : Db) (u : User.t) :
  user_by_id uid db = Some u ->
  In plan_type tiers ->
  accepts 0%nat = true ->
  serve (plan_details (Some uid))
    (snd (serve (select_plan accepts plan_type (Some uid)) db))
  = (Ret (render_template "plan_details.html"
            [ ("current_plan", AValue (PStr plan_type)) ]%string),
     snd (serve (select_plan accepts plan_type (Some uid)) db)).
Proof.
  intros Hu HT Hok.
  rewrite (select_plan_accepted accepts plan_type uid db u Hu HT Hok).
  unfold plan_details. run_view.
  rewrite (user_by_id_after_select plan_type uid db u Hu). reflexivity.
Qed.

Lemma plan_details_shows_selected_plan_witness :
  serve (plan_details (Some 1))
    (snd (serve (select_plan always (str "Premium") (Some 1)) db_two))
  = (Ret (render_template "plan_details.html"
            [ ("current_plan", AValue (PStr (str "Premium"))) ]%string),
     snd (serve (select_plan always (str "Premium") (Some 1)) db_two)).
Proof.
  apply (plan_details_shows_selected_plan always (str "Premium") 1 db_two ann).
  - reflexivity.
  - right; right; left; reflexivity.
  - reflexivity.
Defined.

(* ================================================================== *)
(** ** More on the public page *)

(** X22. The public page is read-only. For every username and every
    database, [public_portfolio] stores nothing, whether it returns or
    raises; its response is the 404 exactly when no user has that username;
    and it returns a response unless [parse_json] lets a [RecursionError]
    or a [ValueError] through on the sections_data stored for the portfolio
    of that user, which is then the exception of the view. *)
Theorem public_portfolio_reads_only (db : Db) (username : pystr) :
  snd (serve (public_portfolio username) db) = db
  /\ (fst (serve (public_portfolio username) db) = Ret (abort 404)
      <-> user_by_username username db = None)
  /\ ((exists view : response,
         fst (serve (public_portfolio username) db) = Ret view)
      \/ (exists (e : exn) (user : User.t) (p : Portfolio.t),
            (e = RecursionError \/ e = ValueError)
            /\ user_by_username username db = Some user
            /\ portfolio_of (User.id user) db = Some p
            /\ parse_json (Portfolio.sections_data p) = Raise e
            /\ fst (serve (public_portfolio username) db) = Raise e)).
Proof.
  destruct (user_by_username username db) as [user|] eqn:Huser.
  - destruct (portfolio_of (User.id user) db) as [p|] eqn:Hp.
    + destruct (parse_json (Portfolio.sections_data p)) as [sd| e |] eqn:Hsd.
      * rewrite (public_portfolio_page db username user p sd Huser Hp Hsd).
        cbn [fst snd]. split; [reflexivity|]. split.
        -- split; [|discriminate].
           destruct (str_in _ _); discriminate.
        -- left. eexists. reflexivity.
      * rewrite (public_portfolio_raises db username user p e Huser Hp Hsd).
        cbn [fst snd]. split; [reflexivity|]. split.
        -- split; discriminate.
        -- right. exists e, user, p.
           pose proof (parse_json_raises _ _ Hsd). auto.
      * exfalso. exact (parse_json_not_starved _ Hsd).
    + rewrite (public_portfolio_bare db username user Huser Hp).
      cbn [fst snd]. split; [reflexivity|]. split.
      * split; discriminate.
      * left. eexists. reflexivity.
  - unfold public_portfolio. run_view. rewrite Huser. simpl.
    split; [reflexivity|]. split.
    + split; reflexivity.
    + left. eexists. reflexivity.
Qed.

Lemma user_by_username_on_user (name : pystr) (uid : Z) (f : User.t -> User.t)
    (db : Db) :
  (forall u, User.username (f u) = User.username u) ->
  user_by_username name (on_user uid f db)
  = option_map (fun u => if User.id u =? uid then f u else u)
      (user_by_username name db).
Proof.
  intros Hf. unfold user_by_username, on_user. cbn [users].
  apply find_map_stable. intros u. destruct (User.id u =? uid); [|reflexivity].
  rewrite Hf. reflexivity.
Qed.

(** X21. A change of plan shows on the public page at once, with the
    sections as stored before: after an accepted selection of a listed
    plan by a user who owns a portfolio, [public_portfolio] does with the
    stored sections_data what it did before, under the new plan. When
    [parse_json] returns on it, the page is the template of the selected
    plan, with the portfolio under its new portfolio_type and the parsed
    sections_data, no save needed; when [parse_json] lets a
    [RecursionError] or a [ValueError] through, the page ends in it as it
    did before. *)
Theorem public_page_follows_plan (accepts : nat -> bool) (plan_type : pystr)
    (uid : Z) (db : Db) (u : User.t) (p : Portfolio.t) :
  user_by_id uid db = Some u ->
  user_by_username (User.username u) db = Some u ->
  portfolio_of (User.id u) db = Some p ->
  In plan_type tiers ->
  accepts 0%nat = true ->
  match parse_json (Portfolio.sections_data p) with
  | Ret sd =>
      fst (serve (public_portfolio (User.username u))
             (snd (serve (select_plan accepts plan_type (Some uid)) db)))
      = Ret (render_template (public_template plan_type)
               [ ("user", AUser (User.set_subscription_type plan_type u));
                 ("portfolio",
                  APortfolio (Some (Portfolio.set_portfolio_type plan_type p)));
                 ("sections_data", AValue sd) ]%string)
  | Raise e =>
      (e = RecursionError \/ e = ValueError)
      /\ fst (serve (public_portfolio (User.username u))
                (snd (serve (select_plan accepts plan_type (Some uid)) db)))
         = Raise e
  | Starved => False
  end.
Proof.
  intros Hu Hname Hp HT Hok.
  assert (Hname' :
            user_by_username (User.username u)
              (on_portfolio (Portfolio.id p)
                 (Portfolio.set_portfolio_type plan_type)
                 (on_user (User.id u) (User.set_subscription_type plan_type) db))
            = Some (User.set_subscription_type plan_type u)).
  { change (user_by_username ?n (on_portfolio ?pid ?f ?d))
      with (user_by_username n d).
    rewrite user_by_username_on_user by reflexivity.
    rewrite Hname. cbn [option_map]. rewrite Z.eqb_refl. reflexivity. }
  assert (Hp' :
            portfolio_of (User.id (User.set_subscription_type plan_type u))
              (on_portfolio (Portfolio.id p)
                 (Portfolio.set_portfolio_type plan_type)
                 (on_user (User.id u) (User.set_subscription_type plan_type) db))
            = Some (Portfolio.set_portfolio_type plan_type p)).
  { cbn [User.set_subscription_type User.id].
    rewrite portfolio_of_on_portfolio by reflexivity.
    rewrite portfolio_of_on_user, Hp. cbn [option_map].
    rewrite Z.eqb_refl. reflexivity. }
  rewrite (select_plan_accepted accepts plan_type uid db u Hu HT Hok), Hp.
  destruct (parse_json (Portfolio.sections_data p)) as [sd| e |] eqn:Hsd.
  - rewrite (public_portfolio_page _ _ _ _ sd Hname' Hp' Hsd).
    cbn [fst Portfolio.set_portfolio_type Portfolio.portfolio_type].
    rewrite (str_in_tiers _ HT). reflexivity.
  - split; [exact (parse_json_raises _ _ Hsd)|].
    rewrite (public_portfolio_raises _ _ _ _ e Hname' Hp' Hsd). reflexivity.
  - exact (parse_json_not_starved _ Hsd).
Qed.

Lemma public_page_follows_plan_witness :
  parse_json (Some (str "{}")) = Ret empty_dict
  /\ fst (serve (public_portfolio (str "ann"))
            (snd (serve (select_plan always (str "Premium") (Some 1)) db_two)))
     = Ret (render_template "premium_portfolio.html"
              [ ("user", AUser (User.set_subscription_type (str "Premium") ann));
                ("portfolio",
                 APortfolio (Some (Portfolio.mk 1 1 (str "Premium")
                                     (Some (str "{}")))));
                ("sections_data", AValue empty_dict) ]%string).
Proof.
  split; [vm_compute; reflexivity|].
  exact (public_page_follows_plan always (str "Premium") 1 db_two ann
           (Portfolio.mk 1 1 (str "Free") (Some (str "{}")))
           eq_refl eq_refl eq_refl (or_intror (or_intror (or_introl eq_refl)))
           eq_refl).
Defined.

(** X23. Saving and then viewing shows what was saved. After an accepted
    save of a form whose values are text under a listed tier, the public
    page of the user renders the template of that tier with the record
    built from the form as sections_data. *)
Theorem public_page_shows_the_save (accepts : nat -> bool) (form : Form) (uid : Z)
    (db : Db) (u : User.t) :
  user_by_id uid db = Some u ->
  user_by_username (User.username u) db = Some u ->
  (forall n, accepts n = true) ->
  form_text form = true ->
  In (submitted_tier form) tiers ->
  exists p : Portfolio.t,
    portfolio_of (User.id u)
      (snd (serve (edit_portfolio accepts POST form (Some uid)) db)) = Some p
    /\ fst (serve (public_portfolio (User.username u))
              (snd (serve (edit_portfolio accepts POST form (Some uid)) db)))
       = Ret (render_template (public_template (submitted_tier form))
                [ ("user", AUser u); ("portfolio", APortfolio (Some p));
                  ("sections_data",
                   AValue (sections form (submitted_tier form))) ]%string).
Proof.
  intros Hu Hname Hok Hform HT.
  destruct (edit_portfolio_POST_accepted accepts form uid db u Hu Hok)
    as (pid & Husers & Hp).
  eexists. split; [exact Hp|].
  rewrite (public_portfolio_page _ _ u
             (Portfolio.mk pid (User.id u) (submitted_tier form)
                (Some (json_text (sections form (submitted_tier form)))))
             (sections form (submitted_tier form))).
  - cbn [fst Portfolio.portfolio_type]. rewrite (str_in_tiers _ HT). reflexivity.
  - unfold user_by_username. rewrite Husers. exact Hname.
  - exact Hp.
  - cbn [Portfolio.sections_data]. unfold parse_json.
    rewrite loads_dumps_sections by exact Hform. reflexivity.
Qed.

Lemma public_page_shows_the_save_witness :
  exists p : Portfolio.t,
    portfolio_of 1
      (snd (serve (edit_portfolio always POST form_premium (Some 1)) db_new))
    = Some p
    /\ fst (serve (public_portfolio (str "ann"))
              (snd (serve (edit_portfolio always POST form_premium (Some 1)) db_new)))
       = Ret (render_template "premium_portfolio.html"
                [ ("user", AUser ann); ("portfolio", APortfolio (Some p));
                  ("sections_data",
                   AValue (sections form_premium (str "Premium"))) ]%string).
Proof.
  exact (public_page_shows_the_save always form_premium 1 db_new ann eq_refl
           eq_refl (fun _ => eq_refl) eq_refl
           (or_intror (or_intror (or_introl eq_refl)))).
Defined.

(** X24. A save under an unlisted tier hides the portfolio. After an
    accepted save whose portfolio_type is none of Free, Paid and Premium,
    the user owns a portfolio, yet the public page is the one of a user
    without a portfolio, whatever the form holds. *)
Theorem unlisted_tier_hides_portfolio (accepts : nat -> bool) (form : Form)
    (uid : Z) (db : Db) (u : User.t) :
  user_by_id uid db = Some u ->
  user_by_username (User.username u) db = Some u ->
  (forall n, accepts n = true) ->
  ~ In (submitted_tier form) tiers ->
  portfolio_of (User.id u)
    (snd (serve (edit_portfolio accepts POST form (Some uid)) db)) <> None
  /\ fst (serve (public_portfolio (User.username u))
            (snd (serve (edit_portfolio accepts POST form (Some uid)) db)))
     = Ret (no_portfolio_page u).
Proof.
  intros Hu Hname Hok HT.
  destruct (edit_portfolio_POST_accepted accepts form uid db u Hu Hok)
    as (pid & Husers & Hp).
  split; [rewrite Hp; discriminate|].
  destruct (parse_json_sections_returns form (submitted_tier form))
    as [sd Hsd].
  rewrite (public_portfolio_page _ _ u
             (Portfolio.mk pid (User.id u) (submitted_tier form)
                (Some (json_text (sections form (submitted_tier form)))))
             sd).
  - cbn [fst Portfolio.portfolio_type].
    destruct (str_in (submitted_tier form) ["Free"; "Paid"; "Premium"]%string)
      eqn:E; [|reflexivity].
    exfalso. apply HT, tier_cases. unfold str_in in E. cbn [existsb] in E.
    rewrite orb_false_r, !orb_true_iff in E. tauto.
  - unfold user_by_username. rewrite Husers. exact Hname.
  - exact Hp.
  - exact Hsd.
Qed.

Lemma unlisted_tier_hides_portfolio_witness :
  ~ In (submitted_tier form_enterprise) tiers
  /\ portfolio_of 1
       (snd (serve (edit_portfolio always POST form_enterprise (Some 1)) db_free))
     <> None
  /\ fst (serve (public_portfolio (str "ann"))
            (snd (serve (edit_portfolio always POST form_enterprise (Some 1))
                    db_free)))
     = Ret (no_portfolio_page ann).
Proof.
  assert (H : ~ In (submitted_tier form_enterprise) tiers)
    by (vm_compute; intuition discriminate).
  split; [exact H|].
  exact (unlisted_tier_hides_portfolio always form_enterprise 1 db_free ann
           eq_refl eq_refl (fun _ => eq_refl) H).
Defined.

(* ================================================================== *)
(** ** Registration *)

#[local] Arguments user_by_email : simpl never.
#[local] Arguments new_user : simpl never.
#[local] Arguments insert_user : simpl never.

(** What [register] does with a posted form. *)
Lemma register_POST_cases (accepts : nat -> bool) (hash : pystr -> pystr)
    (form : Form) (db : Db) :
  serve (register accepts hash POST form) db
  = match match form_get form (str "username") with
          | Some name => user_by_username name db
          | None => None
          end,
          match form_get form (str "email") with
          | Some address => user_by_email address db
          | None => None
          end with
    | None, None =>
        match form_get form (str "password") with
        | None => (Raise AttributeError, db)
        | Some secret =>
            match form_get form (str "username"), form_get form (str "email") with
            | Some name, Some address =>
                if accepts 0%nat
                then (Ret (redirect "login" None),
                      insert_user (new_user name address (hash secret) db) db)
                else (Raise SQLAlchemyError, db)
            | _, _ => (Raise SQLAlchemyError, db)
            end
        end
    | _, _ => (Ret (redirect "register" None), db)
    end.
Proof.
  unfold register. run_view.
  destruct (form_get form (str "username")) as [name|];
    destruct (form_get form (str "email")) as [address|];
    repeat match goal with
           | |- context [user_by_username ?n ?d] =>
               destruct (user_by_username n d); simpl
           | |- context [user_by_email ?n ?d] =>
               destruct (user_by_email n d); simpl
           end;
    try reflexivity;
    destruct (form_get form (str "password")); simpl; try reflexivity;
    destruct (accepts 0%nat); reflexivity.
Qed.

(** X25. Registration turns down a taken identity: when the submitted
    username or the submitted email is that of a stored user, [register]
    answers with the redirect to [register] and stores nothing, whatever
    the other fields are. *)
Theorem register_rejects_taken_identity (accepts : nat -> bool)
    (hash : pystr -> pystr) (form : Form) (db : Db) (taken : User.t) :
  (exists name, form_get form (str "username") = Some name
                /\ user_by_username name db = Some taken)
  \/ (exists address, form_get form (str "email") = Some address
                      /\ user_by_email address db = Some taken) ->
  serve (register accepts hash POST form) db
  = (Ret (redirect "register" None), db).
Proof.
  intros Htaken. rewrite register_POST_cases.
  destruct Htaken as [(name & -> & ->) | (address & -> & ->)]; [reflexivity|].
  destruct (form_get form (str "username")) as [name|]; [|reflexivity].
  destruct (user_by_username name db); reflexivity.
Qed.

Lemma register_rejects_taken_identity_witness :
  serve (register always sample_hash POST
           [ (str "username", str "zoe"); (str "email", str "b@x.com");
             (str "password", str "pw") ]) db_two
  = (Ret (redirect "register" None), db_two).
Proof.
  apply (register_rejects_taken_identity always sample_hash _ db_two bea).
  right. exists (str "b@x.com"). split; reflexivity.
Defined.

Lemma find_none_not_in {A B} (key : A -> B) (eqb : B -> B -> bool) (x : B)
    (l : list A) :
  (forall a b, eqb a b = true <-> a = b) ->
  find (fun a => eqb (key a) x) l = None -> ~ In x (map key l).
Proof.
  intros Heqb Hnone Hin. apply in_map_iff in Hin as (a & Ha & Hin).
  pose proof (find_none _ _ Hnone a Hin) as H. cbv beta in H.
  assert (eqb (key a) x = true) by (apply Heqb; exact Ha). congruence.
Qed.

(** The store after [register], in every case. *)
Lemma register_store (accepts : nat -> bool) (hash : pystr -> pystr)
    (method : http_method) (form : Form) (db : Db) :
  snd (serve (register accepts hash method form) db) = db
  \/ (exists name address secret : pystr,
        form_get form (str "username") = Some name
        /\ form_get form (str "email") = Some address
        /\ form_get form (str "password") = Some secret
        /\ user_by_username name db = None
        /\ user_by_email address db = None
        /\ serve (register accepts hash method form) db
           = (Ret (redirect "login" None),
              insert_user (new_user name address (hash secret) db) db)).
Proof.
  destruct method; [left; reflexivity|].
  rewrite register_POST_cases.
  destruct (form_get form (str "username")) as [name|];
    destruct (form_get form (str "email")) as [address|];
    repeat match goal with
           | |- context [user_by_username ?n ?d] =>
               destruct (user_by_username n d) eqn:?
           | |- context [user_by_email ?n ?d] =>
               destruct (user_by_email n d) eqn:?
           end;
    try (left; reflexivity);
    destruct (form_get form (str "password")) as [secret|];
    try (left; reflexivity).
  destruct (accepts 0%nat); [|left; reflexivity].
  right. exists name, address, secret. repeat split; auto.
Qed.

(** X26. Registration keeps the identities unique: if ids, usernames and
    emails are distinct among the stored users before a request to
    [register], they are so after it, whatever the method, the form, the
    hash and the fate of the commit. *)
Theorem register_keeps_identities_unique (accepts : nat -> bool)
    (hash : pystr -> pystr) (method : http_method) (form : Form) (db : Db) :
  unique_identities db ->
  unique_identities (snd (serve (register accepts hash method form) db)).
Proof.
  intros (Hid & Hname & Hmail).
  destruct (register_store accepts hash method form db)
    as [-> | (name & address & secret & _ & _ & _ & Hn & Ha & ->)];
    [repeat split; assumption|].
  cbn [snd]. unfold unique_identities, insert_user, new_user. cbn [users].
  rewrite !map_app.
  cbn [map User.id User.username User.email].
  repeat split; apply NoDup_snoc; try assumption.
  - apply next_id_fresh.
  - apply (find_none_not_in User.username str_eqb name (users db) str_eqb_eq Hn).
  - apply (find_none_not_in User.email str_eqb address (users db) str_eqb_eq Ha).
Qed.

Lemma register_keeps_identities_unique_witness :
  unique_identities db_two
  /\ unique_identities
       (snd (serve (register always sample_hash POST form_register) db_two)).
Proof.
  assert (H : unique_identities db_two).
  { repeat split; vm_compute; repeat constructor; simpl; intuition discriminate. }
  split; [exact H|].
  exact (register_keeps_identities_unique always sample_hash POST form_register
           db_two H).
Defined.

(** X27. Registration adds at most one user and nothing else: the
    portfolio table is never written (no portfolio is created at
    registration), and the user table is either unchanged or extended by
    one row that carries the submitted username and email, the hash of the
    submitted password, the Free plan and the default profile; the rows of
    the other users stay as they are. *)
Theorem register_adds_one_free_user (accepts : nat -> bool)
    (hash : pystr -> pystr) (method : http_method) (form : Form) (db : Db) :
  let db' := snd (serve (register accepts hash method form) db) in
  portfolios db' = portfolios db
  /\ (users db' = users db
      \/ exists row : User.t,
           users db' = users db ++ [row]
           /\ form_get form (str "username") = Some (User.username row)
           /\ form_get form (str "email") = Some (User.email row)
           /\ option_map (fun secret => Some (hash secret))
                (form_get form (str "password")) = Some (User.password_hash row)
           /\ User.subscription_type row = str "Free"
           /\ User.social_links row = Some (str "{}")
           /\ ~ In (User.id row) (map User.id (users db))).
Proof.
  cbv zeta.
  destruct (register_store accepts hash method form db)
    as [-> | (name & address & secret & Hn & Ha & Hs & _ & _ & ->)];
    [split; [reflexivity|left; reflexivity]|].
  cbn [snd]. split; [reflexivity|]. right.
  exists (new_user name address (hash secret) db).
  unfold insert_user, new_user. cbn [users User.username User.email
    User.password_hash User.subscription_type User.social_links User.id].
  rewrite Hn, Ha, Hs. repeat split. apply next_id_fresh.
Qed.

(** X28. A newly registered user has a public page without a portfolio.
    When every stored portfolio belongs to a stored user, after an accepted
    registration under a username and an email that were free, the public
    page of the new username is [public_portfolio.html] rendered without a
    portfolio, for the user just created. *)
Theorem registered_user_has_no_portfolio (accepts : nat -> bool)
    (hash : pystr -> pystr) (form : Form) (db : Db) (name address secret : pystr) :
  owners_exist db ->
  form_get form (str "username") = Some name ->
  form_get form (str "email") = Some address ->
  form_get form (str "password") = Some secret ->
  user_by_username name db = None ->
  user_by_email address db = None ->
  accepts 0%nat = true ->
  serve (register accepts hash POST form) db
  = (Ret (redirect "login" None),
     insert_user (new_user name address (hash secret) db) db)
  /\ fst (serve (public_portfolio name)
            (snd (serve (register accepts hash POST form) db)))
     = Ret (no_portfolio_page (new_user name address (hash secret) db)).
Proof.
  intros Hfk Hn Ha Hs Hfree_name Hfree_mail Hok.
  assert (Hreg : serve (register accepts hash POST form) db
                 = (Ret (redirect "login" None),
                    insert_user (new_user name address (hash secret) db) db)).
  { rewrite register_POST_cases, Hn, Ha, Hs, Hfree_name, Hfree_mail, Hok.
    reflexivity. }
  split; [exact Hreg|]. rewrite Hreg. cbn [snd].
  rewrite (public_portfolio_bare _ name (new_user name address (hash secret) db));
    [reflexivity| |].
  - unfold user_by_username, insert_user. cbn [users]. rewrite find_snoc.
    unfold user_by_username in Hfree_name. rewrite Hfree_name.
    unfold new_user. cbn [User.username]. rewrite str_eqb_refl. reflexivity.
  - unfold portfolio_of, insert_user, new_user. cbn [portfolios User.id].
    destruct (find _ (portfolios db)) as [p|] eqn:E; [|reflexivity].
    apply find_some in E as [Hin E]. exfalso.
    apply (next_id_fresh (map User.id (users db))).
    replace (next_id (map User.id (users db))) with (Portfolio.user_id p) by lia.
    apply Hfk, Hin.
Qed.

Lemma registered_user_has_no_portfolio_witness :
  owners_exist db_two
  /\ serve (register always sample_hash POST form_register) db_two
     = (Ret (redirect "login" None),
        insert_user (new_user (str "cy") (str "c@x.com") (sample_hash (str "secret"))
                       db_two) db_two)
  /\ fst (serve (public_portfolio (str "cy"))
            (snd (serve (register always sample_hash POST form_register) db_two)))
     = Ret (no_portfolio_page
              (new_user (str "cy") (str "c@x.com") (sample_hash (str "secret"))
                 db_two)).
Proof.
  assert (H : owners_exist db_two).
  { intros p [<- | [<- | []]]; vm_compute; auto. }
  split; [exact H|].
  exact (registered_user_has_no_portfolio always sample_hash form_register db_two
           (str "cy") (str "c@x.com") (str "secret") H eq_refl eq_refl eq_refl
           eq_refl eq_refl eq_refl).
Defined.

(* ================================================================== *)
(** ** The texts that the application stores *)

Lemma object_loop_dict (scan : pystr -> Decoder.scanned) (n : nat) :
  forall (s : pystr) (pairs : list (pystr * pyval)) (w : pyval) (rest : pystr),
    Decoder.object_loop scan n s pairs = Ret (w, rest) -> is_dict w = true.
Proof.
  induction n as [|n IH]; intros s pairs w rest; cbn [Decoder.object_loop];
    [discriminate|].
  destruct (Decoder.scanstring s) as [[key s1]| e |]; try discriminate.
  destruct (Decoder.skip_ws s1) as [|colon s2]; try discriminate.
  destruct (colon =? 58); try discriminate.
  destruct (scan (Decoder.skip_ws s2)) as [[value s3]| [] |]; try discriminate.
  destruct (Decoder.skip_ws s3) as [|nextchar s4]; try discriminate.
  destruct (nextchar =? 125); [intros [= <- _]; reflexivity|].
  destruct (nextchar =? 44); try discriminate.
  destruct (Decoder.skip_ws s4) as [|quote s5]; try discriminate.
  destruct (quote =? 34); try discriminate.
  apply IH.
Qed.

(** Whatever the scanner returns for a text that starts with a brace is a
    dict. *)
Lemma scan_once_object (depth : nat) (r : pystr) (w : pyval) (rest : pystr) :
  Decoder.scan_once depth (123 :: r) = Ret (w, rest) -> is_dict w = true.
Proof.
  destruct depth as [|depth]; cbn [Decoder.scan_once Z.eqb Pos.eqb];
    [discriminate|].
  unfold Decoder.JSONObject.
  destruct (Decoder.skip_ws r) as [|nextchar s1]; try discriminate.
  destruct (nextchar =? 34); [apply object_loop_dict|].
  destruct (nextchar =? 125); [intros [= <- _]; reflexivity|discriminate].
Qed.

(** Whatever [parse_json] returns for a text that starts with a brace is a
    dict: the object decoded, or the empty record. *)
Lemma parse_json_object (r : pystr) (w : pyval) :
  parse_json (Some (123 :: r)) = Ret w -> is_dict w = true.
Proof.
  unfold parse_json, Decoder.loads, Decoder.decode.
  cbn [Z.eqb Pos.eqb Decoder.skip_ws Decoder.is_ws orb].
  destruct (Decoder.scan_once recursion_limit (123 :: r))
    as [[obj rest]| e |] eqn:E.
  - apply scan_once_object in E.
    destruct (Decoder.skip_ws rest); intros [= <-]; [exact E|reflexivity].
  - destruct e; try discriminate; intros [= <-]; reflexivity.
  - discriminate.
Qed.

(** On a text that the application stored, [parse_json] returns, and it
    returns a dict. *)
Lemma parse_json_app_text (text : option pystr) :
  app_text text ->
  exists sd : pyval, parse_json text = Ret sd /\ is_dict sd = true.
Proof.
  intros [-> | (form & T & ->)].
  - exists empty_dict. split; vm_compute; reflexivity.
  - destruct (parse_json_sections_returns form T) as [sd Hsd].
    exists sd. split; [exact Hsd|].
    destruct (sections_is_dict form T) as [d Hd]. rewrite Hd, dumps_dict in Hsd.
    exact (parse_json_object _ _ Hsd).
Qed.

Lemma app_written_row (db : Db) (uid : Z) (p : Portfolio.t) :
  app_written db -> portfolio_of uid db = Some p ->
  app_text (Portfolio.sections_data p).
Proof.
  unfold app_written. rewrite Forall_forall. intros Hdb Hp.
  apply Hdb, in_map. exact (proj1 (portfolio_of_in uid db p Hp)).
Qed.

Lemma app_written_insert (uid : Z) (tier : pystr) (db : Db) :
  app_written db ->
  app_written (insert_portfolio (new_portfolio uid tier db) db).
Proof.
  unfold app_written, insert_portfolio, new_portfolio. cbn [portfolios].
  rewrite map_app, Forall_app. intros Hdb. split; [exact Hdb|].
  constructor; [left; reflexivity|constructor].
Qed.

Lemma app_written_on_portfolio (pid : Z) (f : Portfolio.t -> Portfolio.t)
    (db : Db) :
  (forall p, app_text (Portfolio.sections_data p) ->
             app_text (Portfolio.sections_data (f p))) ->
  app_written db -> app_written (on_portfolio pid f db).
Proof.
  unfold app_written, on_portfolio. cbn [portfolios].
  rewrite !Forall_forall. intros Hf Hdb text Hin.
  rewrite map_map in Hin. apply in_map_iff in Hin as (p & <- & Hp).
  assert (Htext : app_text (Portfolio.sections_data p))
    by (apply Hdb, in_map, Hp).
  destruct (Portfolio.id p =? pid); [apply Hf|]; exact Htext.
Qed.

Lemma app_written_saved (form : Form) (pid : Z) (db : Db) :
  app_written db -> app_written (saved form pid db).
Proof.
  intros Hdb. unfold saved.
  apply app_written_on_portfolio.
  - intros p _. right. exists form, (submitted_tier form). reflexivity.
  - apply app_written_on_portfolio; [|exact Hdb]. intros p Hp. exact Hp.
Qed.

Lemma public_portfolio_keeps_store (db : Db) (username : pystr) :
  snd (serve (public_portfolio username) db) = db.
Proof.
  unfold public_portfolio. run_view.
  destruct (user_by_username username db) as [user|]; [|reflexivity]. simpl.
  destruct (portfolio_of (User.id user) db) as [p|]; [|reflexivity]. simpl.
  destruct (parse_json (Portfolio.sections_data p)) as [sd| e |]; try reflexivity.
  simpl.
  destruct (str_eqb (Portfolio.portfolio_type p) (str "Free")); [reflexivity|].
  destruct (str_eqb (Portfolio.portfolio_type p) (str "Paid")); [reflexivity|].
  destruct (str_eqb (Portfolio.portfolio_type p) (str "Premium")); reflexivity.
Qed.

Lemma login_view_keeps_store (page : User.t -> response) (user_id : option Z)
    (db : Db) :
  snd (serve (login_required (fun current_user => ret (page current_user))
                user_id) db) = db.
Proof.
  destruct user_id as [uid|]; [|reflexivity]. run_view.
  destruct (user_by_id uid db); reflexivity.
Qed.

(** X29. What the application stores as sections_data is only ever the
    [{}] of a new row or the text that [json.dumps] returned for a record
    built from a form: if this holds of every row before a request, it
    holds after it, for every view of the flow, whatever it is sent and
    whatever the fate of the commits. *)
Theorem requests_keep_app_written (accepts : nat -> bool)
    (hash : pystr -> pystr) (method : http_method) (form : Form)
    (plan_type username : pystr) (user_id : option Z) (db : Db) :
  app_written db ->
  app_written (snd (serve (edit_portfolio accepts method form user_id) db))
  /\ app_written (snd (serve (select_plan accepts plan_type user_id) db))
  /\ app_written (snd (serve (register accepts hash method form) db))
  /\ app_written (snd (serve (public_portfolio username) db))
  /\ app_written (snd (serve (plan_details user_id) db))
  /\ app_written (snd (serve (dashboard user_id) db)).
Proof.
  intros Hdb. repeat split.
  - destruct (edit_portfolio_store accepts method form user_id db)
      as [-> | [(u & _ & _ & [-> | ->]) | (u & p & _ & _ & ->)]].
    + exact Hdb.
    + apply app_written_insert, Hdb.
    + apply app_written_saved, app_written_insert, Hdb.
    + apply app_written_saved, Hdb.
  - destruct (select_plan_store accepts plan_type user_id db)
      as [[-> _] | (u & _ & _ & _ & _ & ->)]; cbn [snd]; [exact Hdb|].
    cbv zeta. destruct (portfolio_of (User.id u) db) as [p|]; [|exact Hdb].
    apply app_written_on_portfolio; [|exact Hdb]. intros q Hq. exact Hq.
  - destruct (register_store accepts hash method form db)
      as [-> | (name & address & secret & _ & _ & _ & _ & _ & ->)];
      exact Hdb.
  - rewrite public_portfolio_keeps_store. exact Hdb.
  - unfold plan_details. rewrite login_view_keeps_store. exact Hdb.
  - unfold dashboard. rewrite login_view_keeps_store. exact Hdb.
Qed.

Lemma requests_keep_app_written_witness :
  app_written db_premium
  /\ app_written
       (snd (serve (edit_portfolio always POST form_enterprise (Some 1))
               db_premium))
  /\ app_written (snd (serve (select_plan always (str "Free") (Some 1))
                         db_premium)).
Proof.
  assert (H : app_written db_premium).
  { constructor; [|constructor].
    right. exists form_premium, (str "Premium"). reflexivity. }
  split; [exact H|].
  destruct (requests_keep_app_written always sample_hash POST form_enterprise
              (str "Free") (str "ann") (Some 1) db_premium H)
    as (Hedit & Hplan & _).
  split; [exact Hedit|exact Hplan].
Defined.

(** X30. The pages never fail on what the application stored. On a
    database whose sections_data were all written by the application,
    [public_portfolio] returns a response for every username, and the edit
    form of a logged-in user who owns a portfolio returns a response, the
    form of the plan or the redirect to the plans: [parse_json] returns a
    dict on the stored text, so neither the exceptions it lets through nor
    the [AttributeError] of [sections_data.get] arise. Nothing is stored. *)
Theorem pages_open_on_app_written (accepts : nat -> bool) (form : Form)
    (username : pystr) (uid : Z) (db : Db) (u : User.t) (p : Portfolio.t) :
  app_written db ->
  (exists view : response,
      serve (public_portfolio username) db = (Ret view, db))
  /\ (user_by_id uid db = Some u ->
      portfolio_of (User.id u) db = Some p ->
      exists view : response,
        serve (edit_portfolio accepts GET form (Some uid)) db = (Ret view, db)).
Proof.
  intros Hdb. split.
  - destruct (user_by_username username db) as [user|] eqn:Huser.
    + destruct (portfolio_of (User.id user) db) as [q|] eqn:Hq.
      * destruct (parse_json_app_text _ (app_written_row db _ q Hdb Hq))
          as (sd & Hsd & _).
        rewrite (public_portfolio_page db username user q sd Huser Hq Hsd).
        eexists. reflexivity.
      * rewrite (public_portfolio_bare db username user Huser Hq).
        eexists. reflexivity.
    + unfold public_portfolio. run_view. rewrite Huser.
      eexists. reflexivity.
  - intros Hu Hp.
    destruct (parse_json_app_text _ (app_written_row db _ p Hdb Hp))
      as (sd & Hsd & Hdict).
    rewrite (surjective_pairing (serve _ db)).
    rewrite (edit_portfolio_GET_response _ _ _ _ u p sd Hu Hp Hsd).
    rewrite (edit_portfolio_GET_store _ _ _ _ u Hu), Hp, Hdict. cbv zeta.
    destruct (str_eqb (User.subscription_type u) (str "Free"));
      [eexists; reflexivity|].
    destruct (str_eqb (User.subscription_type u) (str "Paid"));
      [eexists; reflexivity|].
    destruct (str_eqb (User.subscription_type u) (str "Premium"));
      eexists; reflexivity.
Qed.

Lemma pages_open_on_app_written_witness :
  app_written db_premium
  /\ (exists view : response,
        serve (public_portfolio (str "ann")) db_premium = (Ret view, db_premium))
  /\ (exists view : response,
        serve (edit_portfolio always GET [] (Some 1)) db_premium
        = (Ret view, db_premium)).
Proof.
  assert (H : app_written db_premium).
  { constructor; [|constructor].
    right. exists form_premium, (str "Premium"). reflexivity. }
  split; [exact H|].
  destruct (pages_open_on_app_written always [] (str "ann") 1 db_premium ann
              (Portfolio.mk 1 1 (str "Premium")
                 (Some (json_text (sections form_premium (str "Premium")))))
              H) as [Hpublic Hedit].
  split; [exact Hpublic|].
  apply Hedit; reflexivity.
Defined.
